(** * Stock portfolio analyzer: a shallow embedding of [Code.py]

    The development follows the class [StockPortfolio] of [Code.py]: the
    two SQLite tables behind one long-lived connection, the CSV import and
    export, the purchase lots, the quote lookup and the performance report.

    Modelling conventions.
    - Python exceptions are data ([exn]); a method is a function from the
      program state to a [Result] and the next state, so that the effects
      that happened before an exception was raised stay visible.
    - A text file read or written through the [csv] module is the list of
      records the module yields ([CsvItem]); quoting and line endings are
      below this level.
    - Python's [float] is an interface ([PyFloat]): the program only adds,
      subtracts, multiplies, divides, formats and parses such values.  Its
      instance [Binary64] is IEEE 754 binary64 on primitive floats, with the
      division of the builtin [float]; the instance [Numpy] tells the
      [numpy.float64] of a quote from the builtin [float], as the division
      by zero does.
    - The quote service ([yfinance]) and the chart library ([matplotlib])
      are parameters of the embedding.
    - [print] output is not part of the state. *)

From Stdlib Require Floats.
From Stdlib Require Import ZArith QArith Qround Qabs String Ascii List Lia.
From Stdlib Require Import DecimalString DecimalPos DecimalZ.
From stdpp Require Import base option list strings gmap.

Local Open Scope string_scope.
Local Open Scope Z_scope.

(** ** Exceptions and the state-and-exception monad *)

Inductive exn : Type :=
  | FileNotFoundError
  | CsvError
  | ValueError
  | KeyError (key : string)
  | TypeError
  | OverflowError
  | SqliteError
  | ZeroDivisionError.

Definition exn_eqb (a b : exn) : bool :=
  match a, b with
  | FileNotFoundError, FileNotFoundError => true
  | CsvError, CsvError => true
  | ValueError, ValueError => true
  | KeyError _, KeyError _ => true
  | TypeError, TypeError => true
  | OverflowError, OverflowError => true
  | SqliteError, SqliteError => true
  | ZeroDivisionError, ZeroDivisionError => true
  | _, _ => false
  end.

(** [isinstance e classes]: the test an [except (...)] clause performs. *)
Definition caught_by (classes : list exn) (e : exn) : bool :=
  existsb (exn_eqb e) classes.

Inductive Result (A : Type) : Type :=
  | Return (a : A)
  | Raise (e : exn).
Arguments Return {A} a.
Arguments Raise {A} e.

Definition M (S A : Type) : Type := S -> Result A * S.

Definition ret {S A} (a : A) : M S A := fun s => (Return a, s).
Definition raise {S A} (e : exn) : M S A := fun s => (Raise e, s).
Definition bind {S A B} (m : M S A) (k : A -> M S B) : M S B :=
  fun s => match m s with
           | (Return a, s') => k a s'
           | (Raise e, s') => (Raise e, s')
           end.
Definition gets {S A} (f : S -> A) : M S A := fun s => (Return (f s), s).
Definition modify {S} (f : S -> S) : M S unit := fun s => (Return tt, f s).
Definition lift {S A} (r : Result A) : M S A := fun s => (r, s).

(** [try: body except classes as e: handler e] *)
Definition try_except {S A} (body : M S A) (classes : list exn)
    (handler : exn -> M S A) : M S A :=
  fun s => match body s with
           | (Return a, s') => (Return a, s')
           | (Raise e, s') =>
               if caught_by classes e then handler e s' else (Raise e, s')
           end.

Declare Scope py_scope.
Notation "x <- m ;; k" := (bind m (fun x => k))
  (at level 100, m at next level, right associativity) : py_scope.
Notation "m ;;; k" := (bind m (fun _ => k))
  (at level 100, right associativity) : py_scope.
Local Open Scope py_scope.

(** ** Python numbers *)

(** The operations [Code.py] applies to [float] values.  [fdiv] is [None]
    where the division raises [ZeroDivisionError]; [float_of_str] is the
    builtin [float] on text, [None] where it raises [ValueError];
    [str_of_float] is [str], as [csv.writer] applies it; [fmt2 x] is
    [f"{x:.2f}"]; [is_nan] tells the values SQLite stores as NULL. *)
Class PyFloat (num : Type) : Type := {
  of_int : Z -> num;
  fadd : num -> num -> num;
  fsub : num -> num -> num;
  fmul : num -> num -> num;
  fdiv : num -> num -> option num;
  is_zero : num -> bool;
  is_nan : num -> bool;
  fmt2 : num -> string;
  float_of_str : string -> option num;
  str_of_float : num -> string
}.

(** ** Strings *)

(** [str.upper] on ASCII text. *)
Definition upper_ascii (c : ascii) : ascii :=
  let n := nat_of_ascii c in
  if (Nat.leb 97 n && Nat.leb n 122)%bool then ascii_of_nat (n - 32) else c.

Fixpoint upper (s : string) : string :=
  match s with
  | EmptyString => EmptyString
  | String c r => String (upper_ascii c) (upper r)
  end.

(** The white space the builtin [int] and [float] skip around a number
    in ASCII text: the space and the controls 9 to 13. *)
Definition is_space (c : ascii) : bool :=
  let n := nat_of_ascii c in
  (Nat.eqb n 32 || (Nat.leb 9 n && Nat.leb n 13))%bool.

Fixpoint lstrip (s : string) : string :=
  match s with
  | EmptyString => EmptyString
  | String c r => if is_space c then lstrip r else s
  end.

Fixpoint rstrip (s : string) : string :=
  match s with
  | EmptyString => EmptyString
  | String c r =>
      match rstrip r with
      | EmptyString => if is_space c then EmptyString else String c EmptyString
      | r' => String c r'
      end
  end.

Definition strip (s : string) : string := rstrip (lstrip s).

Definition is_digit (c : ascii) : bool :=
  let n := nat_of_ascii c in (Nat.leb 48 n && Nat.leb n 57)%bool.

(** Digit groups of a numeric literal: non-empty, digits separated by
    single underscores; the underscores are dropped. *)
Fixpoint digit_groups (after_digit : bool) (s : string) : option string :=
  match s with
  | EmptyString => if after_digit then Some EmptyString else None
  | String c r =>
      if is_digit c then option_map (String c) (digit_groups true r)
      else if (Ascii.eqb c "_" && after_digit)%bool then
        match r with
        | String d _ => if is_digit d then digit_groups false r else None
        | EmptyString => None
        end
      else None
  end.

Definition nat_digits (s : string) : option Z :=
  match digit_groups false s with
  | Some ds => option_map Z.of_uint (NilEmpty.uint_of_string ds)
  | None => None
  end.

(** The builtin [int] on text; [None] where it raises [ValueError]. *)
Definition int_of_str (s : string) : option Z :=
  match strip s with
  | String "-" r => option_map Z.opp (nat_digits r)
  | String "+" r => nat_digits r
  | t => nat_digits t
  end.

(** [str] on an [int]. *)
Definition str_of_int (z : Z) : string := NilZero.string_of_int (Z.to_int z).

Fixpoint digits_only (s : string) : bool :=
  match s with
  | EmptyString => true
  | String c r => (is_digit c && digits_only r)%bool
  end.

(** ** Decimal text *)

(** Round to the nearest integer, ties to even. *)
Definition round_half_even (x : Q) : Z :=
  let f := Qfloor x in
  match Qcompare (x - inject_Z f) (1 # 2) with
  | Lt => f
  | Gt => f + 1
  | Eq => if Z.even f then f else f + 1
  end.

(** The [k] digits of [n], zero padded on the left ([0 <= n < 10^k]). *)
Definition padded (k : nat) (n : Z) : string :=
  match str_of_int (10 ^ Z.of_nat k + n) with
  | String _ r => r
  | EmptyString => EmptyString
  end.

(** The text of [|n| / 10^k] with [k] fractional digits and its sign. *)
Definition fixed (k : nat) (negative : bool) (n : Z) : string :=
  let a := Z.abs n in
  let p := 10 ^ Z.of_nat k in
  (if negative then "-" else "") ++ str_of_int (a / p) ++ "." ++ padded k (a mod p).

(** Cut a string at the first character satisfying [p]. *)
Fixpoint cut (p : ascii -> bool) (s : string) : string * option string :=
  match s with
  | EmptyString => (EmptyString, None)
  | String c r =>
      if p c then (EmptyString, Some r)
      else let (a, b) := cut p r in (String c a, b)
  end.

(** A digit sequence that may be empty. *)
Definition digits_or_empty (s : string) : option string :=
  match s with
  | EmptyString => Some EmptyString
  | _ => digit_groups false s
  end.

Definition signed (s : string) : bool * string :=
  match s with
  | String "-" r => (true, r)
  | String "+" r => (false, r)
  | _ => (false, s)
  end.

Definition pow10 (e : Z) : Q :=
  if e <? 0 then 1 # Z.to_pos (10 ^ (- e)) else inject_Z (10 ^ e).

Definition pow2 (e : Z) : Q :=
  if e <? 0 then 1 # Z.to_pos (2 ^ (- e)) else inject_Z (2 ^ e).

(** The value of an unsigned decimal literal: digits with an optional
    fraction and an optional exponent. *)
Definition decimal_value (body : string) : option Q :=
  let (mantissa, exponent) :=
    cut (fun c => Ascii.eqb c "e" || Ascii.eqb c "E")%bool body in
  let (int_part, frac_part) := cut (fun c => Ascii.eqb c ".") mantissa in
  let frac := match frac_part with Some f => f | None => EmptyString end in
  match digits_or_empty int_part, digits_or_empty frac with
  | Some i, Some f =>
      if (String.eqb i "" && String.eqb f "")%bool then None
      else
        match NilEmpty.uint_of_string (i ++ f) with
        | Some m =>
            let e := match exponent with
                     | None => Some 0
                     | Some t => let (neg, ds) := signed t in
                                 option_map (fun v => if neg then - v else v)
                                            (nat_digits ds)
                     end in
            match e with
            | Some ev =>
                Some (Qred (Qmult (inject_Z (Z.of_uint m))
                                  (pow10 (ev - Z.of_nat (String.length f)))))
            | None => None
            end
        | None => None
        end
  | _, _ => None
  end.

(** ** Python's [float]: IEEE 754 binary64 *)

Module Binary64.

Import SpecFloat FloatOps.

Abbreviation float := PrimFloat.float.

(** The nearest [float] to a rational, ties to even. *)
Definition of_Q (q : Q) : float :=
  let d := S754_finite false (Qden q) 0 in
  match Qnum q with
  | Z0 => PrimFloat.zero
  | Zpos n => SF2Prim (SFdiv prec emax (S754_finite false n 0) d)
  | Zneg n => SF2Prim (SFdiv prec emax (S754_finite true n 0) d)
  end.

(** The exact value of a finite [float]. *)
Definition to_Q (x : float) : option Q :=
  match Prim2SF x with
  | S754_zero _ => Some 0%Q
  | S754_finite s m e =>
      Some (Qred (Qmult (inject_Z (if s then Z.neg m else Z.pos m)) (pow2 e)))
  | _ => None
  end.

Definition sign_bit (x : float) : bool :=
  match Prim2SF x with
  | S754_zero s | S754_finite s _ _ | S754_infinity s => s
  | S754_nan => false
  end.

Definition non_finite (x : float) : string :=
  if PrimFloat.is_nan x then "nan" else if sign_bit x then "-inf" else "inf".

(** [f"{x:.2f}"] *)
Definition format_2f (x : float) : string :=
  match to_Q x with
  | Some q => fixed 2 (sign_bit x) (round_half_even (q * 100))
  | None => non_finite x
  end.

(** The builtin [float] on text: surrounding white space, an optional
    sign, then [inf], [infinity], [nan] in any case or a decimal literal,
    rounded to the nearest [float]. *)
Definition parse_float (s : string) : option float :=
  let (negative, body) := signed (strip s) in
  let magnitude :=
    if (String.eqb (upper body) "INF" || String.eqb (upper body) "INFINITY")%bool
    then Some PrimFloat.infinity
    else if String.eqb (upper body) "NAN" then Some PrimFloat.nan
    else option_map of_Q (decimal_value body) in
  option_map (fun x => if negative then PrimFloat.opp x else x) magnitude.

(** [ds] without its trailing zeros. *)
Fixpoint rstrip_zeros (ds : string) : string :=
  match ds with
  | EmptyString => EmptyString
  | String c r =>
      match rstrip_zeros r with
      | EmptyString => if Ascii.eqb c "0" then EmptyString else String c EmptyString
      | r' => String c r'
      end
  end.

Fixpoint zeros (n : nat) : string :=
  match n with O => EmptyString | S k => String "0" (zeros k) end.

(** The position of the decimal point of [q > 0]: [10^(p-1) <= q < 10^p]. *)
Definition decimal_point (q : Q) : Z :=
  let guess :=
    if Qle_bool 1 q then Z.of_nat (String.length (str_of_int (Qfloor q)))
    else 1 - Z.of_nat (String.length (str_of_int (Qfloor (Qinv q)))) in
  if Qle_bool (pow10 guess) q then guess + 1
  else if Qle_bool (pow10 (guess - 1)) q then guess
  else guess - 1.

(** The [k]-digit decimals next to [q], as integers scaled by
    [10^(p - k)], the nearer first. *)
Definition neighbours (q : Q) (p : Z) (k : nat) : list Z :=
  let scaled := Qmult q (pow10 (Z.of_nat k - p)) in
  let lo := Qfloor scaled in
  match Qcompare (scaled - inject_Z lo) (1 # 2) with
  | Gt => [lo + 1; lo]
  | _ => if Qeq_bool scaled (inject_Z lo) then [lo] else [lo; lo + 1]
  end.

(** The shortest digits that read back as [x = q > 0], with the position
    of the decimal point. *)
Definition shortest_digits (x : float) (q : Q) : string * Z :=
  let p := decimal_point q in
  let reads_back (k : nat) (m : Z) :=
    PrimFloat.eqb (of_Q (Qred (Qmult (inject_Z m) (pow10 (p - Z.of_nat k))))) x in
  let fix search (ks : list nat) : string * Z :=
    match ks with
    | [] => ("0", 1)
    | k :: r =>
        match List.find (reads_back k) (neighbours q p k) with
        | Some m =>
            let ds := str_of_int m in
            (rstrip_zeros ds, p + Z.of_nat (String.length ds) - Z.of_nat k)
        | None => search r
        end
    end in
  search (seq 1 17).

Fixpoint take (n : nat) (s : string) : string :=
  match n, s with
  | S k, String c r => String c (take k r)
  | _, _ => EmptyString
  end.

Fixpoint drop (n : nat) (s : string) : string :=
  match n, s with
  | S k, String _ r => drop k r
  | _, _ => s
  end.

(** [repr] lays the digits out in fixed notation when the decimal point
    lies between -3 and 16, otherwise with an exponent of two digits at
    least. *)
Definition layout (ds : string) (p : Z) : string :=
  let n := Z.of_nat (String.length ds) in
  if ((-4 <? p) && (p <=? 16))%bool then
    if p <=? 0 then "0." ++ zeros (Z.to_nat (- p)) ++ ds
    else if p <? n then take (Z.to_nat p) ds ++ "." ++ drop (Z.to_nat p) ds
    else ds ++ zeros (Z.to_nat (p - n)) ++ ".0"
  else
    let e := p - 1 in
    let mantissa := match ds with
                    | String c (String _ _ as r) => String c ("." ++ r)
                    | _ => ds
                    end in
    mantissa ++ "e" ++ (if e <? 0 then "-" else "+")
      ++ (if Z.abs e <? 10 then "0" else "") ++ str_of_int (Z.abs e).

(** [str(x)], the shortest text that reads back as [x]. *)
Definition repr_float (x : float) : string :=
  match to_Q x with
  | None => non_finite x
  | Some q =>
      (if sign_bit x then "-" else "") ++
      (if Qeq_bool q 0 then "0.0"
       else let (ds, p) := shortest_digits (PrimFloat.abs x) (Qabs q) in layout ds p)
  end.

(** A [float] written as in the source text. *)
Definition lit (s : string) : float :=
  match parse_float s with
  | Some x => x
  | None => PrimFloat.nan
  end.

(** The builtin [float]: its division by zero raises. *)
#[export] Instance Binary64_PyFloat : PyFloat float := {|
  of_int z := of_Q (inject_Z z);
  fadd := PrimFloat.add;
  fsub := PrimFloat.sub;
  fmul := PrimFloat.mul;
  fdiv x y :=
    if PrimFloat.eqb y PrimFloat.zero then None else Some (PrimFloat.div x y);
  is_zero y := PrimFloat.eqb y PrimFloat.zero;
  is_nan := PrimFloat.is_nan;
  fmt2 := format_2f;
  float_of_str := parse_float;
  str_of_float := repr_float
|}.

End Binary64.

(** ** [numpy.float64] beside [float] *)

(** The close of a quote, [data['Close'].iloc[-1]], is a [numpy.float64];
    the numbers read from the database and from text are builtin [float]s.
    Both hold a binary64 value and format alike.  Arithmetic between them
    gives a [numpy.float64], and a division in which a [numpy.float64] takes
    part does not raise when the divisor is zero: it warns and gives an
    infinity or a NaN.  Between builtin numbers it raises
    [ZeroDivisionError]. *)
Module Numpy.

Record scalar : Type := {
  value : Binary64.float;
  float64 : bool
}.

Definition builtin (x : Binary64.float) : scalar :=
  {| value := x; float64 := false |}.

Definition numpy (x : Binary64.float) : scalar :=
  {| value := x; float64 := true |}.

Definition both (op : Binary64.float -> Binary64.float -> Binary64.float)
    (x y : scalar) : scalar :=
  {| value := op (value x) (value y); float64 := (float64 x || float64 y)%bool |}.

#[global] Instance Numpy_PyFloat : PyFloat scalar := {|
  of_int z := builtin (Binary64.of_Q (inject_Z z));
  fadd := both PrimFloat.add;
  fsub := both PrimFloat.sub;
  fmul := both PrimFloat.mul;
  fdiv x y :=
    if (PrimFloat.eqb (value y) PrimFloat.zero
        && negb (float64 x || float64 y))%bool
    then None else Some (both PrimFloat.div x y);
  is_zero y := PrimFloat.eqb (value y) PrimFloat.zero;
  is_nan x := PrimFloat.is_nan (value x);
  fmt2 x := Binary64.format_2f (value x);
  float_of_str s := option_map builtin (Binary64.parse_float s);
  str_of_float x := Binary64.repr_float (value x)
|}.

End Numpy.

(** ** The CSV files, as the [csv] module sees them *)

(** What iterating a [csv.reader] yields: a record, or [csv.Error]. *)
Inductive CsvItem : Type :=
  | Rec (fields : list string)
  | BadLine.

(** One row of a [csv.DictReader]: [dict(zip(fieldnames, row))], then the
    field names beyond the record bound to [restval] ([None]); a later
    binding of a repeated name replaces the earlier one. *)
Fixpoint pad_zip (fieldnames row : list string) : list (string * option string) :=
  match fieldnames, row with
  | [], _ => []
  | k :: ks, [] => (k, None) :: pad_zip ks []
  | k :: ks, v :: vs => (k, Some v) :: pad_zip ks vs
  end.

Definition dict_row (fieldnames row : list string) : gmap string (option string) :=
  fold_left (fun d kv => <[kv.1 := kv.2]> d) (pad_zip fieldnames row) ∅.

(** [row[key]] *)
Definition getitem (row : gmap string (option string)) (key : string)
    : Result (option string) :=
  match row !! key with
  | Some v => Return v
  | None => Raise (KeyError key)
  end.

Definition rbind {A B} (r : Result A) (k : A -> Result B) : Result B :=
  match r with
  | Return a => k a
  | Raise e => Raise e
  end.
Notation "x <~ r ;; k" := (rbind r (fun x => k))
  (at level 100, r at next level, right associativity) : py_scope.

(** [int(v)] on a dictionary value. *)
Definition py_int (v : option string) : Result Z :=
  match v with
  | None => Raise TypeError
  | Some s => match int_of_str s with
              | Some z => Return z
              | None => Raise ValueError
              end
  end.

(** SQLite's INTEGER is a signed 64-bit value; the [sqlite3] module raises
    [OverflowError] when it binds a larger [int]. *)
Definition fits_int64 (z : Z) : bool :=
  ((- 2 ^ 63 <=? z) && (z <? 2 ^ 63))%bool.

(** ** Log entries *)

Inductive LogEntry : Type :=
  | LogInfo (msg : string)
  | LogError (msg : string) (e : exn).

(** ** The report, as the caller receives it *)

Record ReportRow : Type := {
  Symbol : string;
  Shares : Z;
  Avg_Purchase_Price : string;
  Current_Price : string;
  Investment : string;
  Current_Value : string;
  Gain_Loss : string;
  Gain_Loss_Pct : string
}.

Record Summary : Type := {
  Total_Investment : string;
  Total_Current_Value : string;
  Total_Gain_Loss : string;
  Total_Gain_Loss_Pct : string
}.

(** [(False, {})] or [(df, summary)] *)
Inductive ReportResult : Type :=
  | NoHoldings
  | Report (df : list ReportRow) (summary : Summary).

Section Store.

Context {num : Type} {py : PyFloat num}.

(** [float(v)] on a dictionary value. *)
Definition py_float (v : option string) : Result num :=
  match v with
  | None => Raise TypeError
  | Some s => match float_of_str s with
              | Some x => Return x
              | None => Raise ValueError
              end
  end.

(** *** Tables *)

Record PriceBar : Type := {
  bar_id : Z;
  bar_symbol : string;
  bar_date : string;
  bar_open : num;
  bar_high : num;
  bar_low : num;
  bar_close : num;
  bar_volume : Z
}.

Record Lot : Type := {
  lot_id : Z;
  lot_symbol : string;
  lot_shares : Z;
  lot_purchase_price : num;
  lot_purchase_date : string
}.

(** The two tables with their AUTOINCREMENT counters.  [_create_tables]
    runs before any other method, so the tables always exist. *)
Record Tables : Type := {
  stocks : list PriceBar;
  stocks_seq : Z;
  portfolio : list Lot;
  portfolio_seq : Z
}.

(** The connection: [disk] is the committed database, [view] what the
    connection reads and writes, the open transaction included.  [faulty]
    is the environment's part: while it is set, every statement and every
    commit raises [sqlite3.Error]. *)
Record Conn : Type := {
  disk : Tables;
  view : Tables;
  faulty : bool
}.

Record Chart : Type := {
  wedges : list num;
  labels : list string
}.

(** What the quote service answers to [history(period='1d')]. *)
Inductive Quote : Type :=
  | Close (p : num)
  | NoData
  | Failure (e : exn).

(** *** Program state *)

Context {World : Type}.
Variable history : string -> World -> Quote * World.
Variable pie_accepts : list num -> list string -> bool.

Record State : Type := {
  conn : Conn;
  files : gmap string (list CsvItem);
  portfolio_report_csv : option (list ReportRow);
  portfolio_allocation_png : option Chart;
  log : list LogEntry;
  world : World
}.

Definition with_conn (c : Conn) (s : State) : State :=
  {| conn := c; files := files s;
     portfolio_report_csv := portfolio_report_csv s;
     portfolio_allocation_png := portfolio_allocation_png s;
     log := log s; world := world s |}.

Definition with_view (t : Tables) (s : State) : State :=
  with_conn {| disk := disk (conn s); view := t; faulty := faulty (conn s) |} s.

Definition with_files (f : gmap string (list CsvItem)) (s : State) : State :=
  {| conn := conn s; files := f;
     portfolio_report_csv := portfolio_report_csv s;
     portfolio_allocation_png := portfolio_allocation_png s;
     log := log s; world := world s |}.

Definition with_report_csv (r : list ReportRow) (s : State) : State :=
  {| conn := conn s; files := files s;
     portfolio_report_csv := Some r;
     portfolio_allocation_png := portfolio_allocation_png s;
     log := log s; world := world s |}.

Definition with_allocation_png (c : Chart) (s : State) : State :=
  {| conn := conn s; files := files s;
     portfolio_report_csv := portfolio_report_csv s;
     portfolio_allocation_png := Some c;
     log := log s; world := world s |}.

Definition with_log (l : list LogEntry) (s : State) : State :=
  {| conn := conn s; files := files s;
     portfolio_report_csv := portfolio_report_csv s;
     portfolio_allocation_png := portfolio_allocation_png s;
     log := l; world := world s |}.

Definition with_world (w : World) (s : State) : State :=
  {| conn := conn s; files := files s;
     portfolio_report_csv := portfolio_report_csv s;
     portfolio_allocation_png := portfolio_allocation_png s;
     log := log s; world := w |}.

Definition logging_info (msg : string) : M State unit :=
  modify (fun s => with_log (log s ++ [LogInfo msg]) s).

Definition logging_error (msg : string) (e : exn) : M State unit :=
  modify (fun s => with_log (log s ++ [LogError msg e]) s).

(** *** The connection *)

(** Running one statement: it fails while the storage is faulty. *)
Definition execute : M State unit :=
  fun s => if faulty (conn s) then (Raise SqliteError, s) else (Return tt, s).

(** [self.conn.commit()] *)
Definition commit : M State unit :=
  execute ;;;
  modify (fun s => with_conn {| disk := view (conn s); view := view (conn s);
                                faulty := faulty (conn s) |} s).

(** The table after one more row, numbered by AUTOINCREMENT. *)
Definition push_stock (t : Tables) (sy d : string) (o h l c : num) (v : Z) : Tables :=
  {| stocks := stocks t ++
       [{| bar_id := stocks_seq t + 1; bar_symbol := sy; bar_date := d;
           bar_open := o; bar_high := h; bar_low := l; bar_close := c;
           bar_volume := v |}];
     stocks_seq := stocks_seq t + 1;
     portfolio := portfolio t;
     portfolio_seq := portfolio_seq t |}.

Definition push_lot (t : Tables) (symbol : string) (shares : Z) (price : num)
    (date : string) : Tables :=
  {| stocks := stocks t;
     stocks_seq := stocks_seq t;
     portfolio := portfolio t ++
       [{| lot_id := portfolio_seq t + 1; lot_symbol := symbol;
           lot_shares := shares; lot_purchase_price := price;
           lot_purchase_date := date |}];
     portfolio_seq := portfolio_seq t + 1 |}.

(** [INSERT INTO stocks (symbol, date, open, high, low, close, volume)];
    a [None] or a NaN, which SQLite takes for NULL, in a NOT NULL column is
    an integrity error. *)
Definition insert_stock (symbol date : option string) (o h l c : num) (v : Z)
    : M State unit :=
  if negb (fits_int64 v) then raise OverflowError
  else
    execute ;;;
    match symbol, date with
    | Some sy, Some d =>
        if (is_nan o || is_nan h || is_nan l || is_nan c)%bool
        then raise SqliteError
        else modify (fun s => with_view (push_stock (view (conn s)) sy d o h l c v) s)
    | _, _ => raise SqliteError
    end.

(** [INSERT INTO portfolio (symbol, shares, purchase_price, purchase_date)] *)
Definition insert_lot (symbol : string) (shares : Z) (price : num) (date : string)
    : M State unit :=
  if negb (fits_int64 shares) then raise OverflowError
  else
    execute ;;;
    if is_nan price then raise SqliteError
    else modify (fun s => with_view (push_lot (view (conn s)) symbol shares price date) s).

(** *** [_create_tables] *)

(** Both statements are CREATE TABLE IF NOT EXISTS: they leave existing
    tables alone. *)
Definition _create_tables : M State unit :=
  try_except
    (execute ;;; execute ;;; commit)
    [SqliteError]
    (fun e => logging_error "Database error" e ;;; raise e).

(** *** [import_from_csv] *)

(** The argument tuple of the INSERT, evaluated left to right. *)
Definition insert_args (row : gmap string (option string))
    : Result (option string * option string * num * num * num * num * Z) :=
  sy <~ getitem row "Symbol" ;;
  d <~ getitem row "Date" ;;
  o <~ rbind (getitem row "Open") py_float ;;
  h <~ rbind (getitem row "High") py_float ;;
  l <~ rbind (getitem row "Low") py_float ;;
  c <~ rbind (getitem row "Close") py_float ;;
  v <~ rbind (getitem row "Volume") py_int ;;
  Return (sy, d, o, h, l, c, v).

Definition insert_row (row : gmap string (option string)) : M State unit :=
  args <- lift (insert_args row) ;;
  let '(sy, d, o, h, l, c, v) := args in
  insert_stock sy d o h l c v.

(** [for row in reader]: blank records are skipped by [DictReader]. *)
Fixpoint import_rows (fieldnames : list string) (items : list CsvItem)
    : M State unit :=
  match items with
  | [] => ret tt
  | BadLine :: _ => raise CsvError
  | Rec [] :: rest => import_rows fieldnames rest
  | Rec row :: rest =>
      insert_row (dict_row fieldnames row) ;;; import_rows fieldnames rest
  end.

(** [open(filepath, 'r')] *)
Definition open_read (filepath : string) : M State (list CsvItem) :=
  fun s => match files s !! filepath with
           | Some items => (Return items, s)
           | None => (Raise FileNotFoundError, s)
           end.

(** The body of the [try]: the first record read is the header. *)
Definition import_body (filepath : string) : M State bool :=
  items <- open_read filepath ;;
  match items with
  | [] => ret tt
  | BadLine :: _ => raise CsvError
  | Rec fieldnames :: rest => import_rows fieldnames rest
  end ;;;
  commit ;;;
  logging_info ("Successfully imported data from " ++ filepath) ;;;
  ret true.

Definition import_from_csv (filepath : string) : M State bool :=
  try_except
    (import_body filepath)
    [FileNotFoundError; CsvError; ValueError]
    (fun e => logging_error "Error importing CSV" e ;;; ret false).

(** *** [add_to_portfolio], [get_portfolio], [get_stock_data] *)

Definition add_to_portfolio (symbol : string) (shares : Z) (purchase_price : num)
    (purchase_date : string) : M State bool :=
  try_except
    (insert_lot (upper symbol) shares purchase_price purchase_date ;;;
     commit ;;;
     logging_info ("Added " ++ str_of_int shares ++ " shares of " ++ symbol
                   ++ " to portfolio") ;;;
     ret true)
    [SqliteError]
    (fun e => logging_error "Error adding to portfolio" e ;;; ret false).

Definition get_portfolio : M State (list Lot) :=
  try_except
    (execute ;;; gets (fun s => portfolio (view (conn s))))
    [SqliteError]
    (fun e => logging_error "Error retrieving portfolio" e ;;; ret []).

(** [ORDER BY date]: text order, as a stable insertion sort. *)
Fixpoint insert_by_date (b : PriceBar) (l : list PriceBar) : list PriceBar :=
  match l with
  | [] => [b]
  | x :: r =>
      if String.ltb (bar_date b) (bar_date x) then b :: l
      else x :: insert_by_date b r
  end.

Definition order_by_date (l : list PriceBar) : list PriceBar :=
  fold_left (fun acc b => insert_by_date b acc) l [].

(** [SELECT date, close FROM stocks WHERE symbol = ? ORDER BY date] *)
Definition select_history (symbol : string) (t : list PriceBar)
    : list (string * num) :=
  map (fun b => (bar_date b, bar_close b))
      (order_by_date (List.filter (fun b => String.eqb (bar_symbol b) symbol) t)).

Definition get_stock_data (symbol : string) : M State (list (string * num)) :=
  try_except
    (execute ;;;
     gets (fun s => select_history (upper symbol) (stocks (view (conn s)))))
    [SqliteError]
    (fun e => logging_error "Error retrieving stock data" e ;;; ret []).

(** *** [get_current_price] and [calculate_portfolio_value] *)

Definition get_current_price (symbol : string) : M State (option num) :=
  fun s =>
    let (reply, w) := history symbol (world s) in
    match reply with
    | Close p => (Return (Some p), with_world w s)
    | NoData => (Return None, with_world w s)
    | Failure e =>
        (logging_error ("Yahoo Finance API error for " ++ symbol) e ;;; ret None)
          (with_world w s)
    end.

Fixpoint value_loop (holdings : list Lot) (total_value : num) : M State num :=
  match holdings with
  | [] => ret total_value
  | stock :: rest =>
      current_price <- get_current_price (lot_symbol stock) ;;
      match current_price with
      | Some p => value_loop rest (fadd total_value (fmul (of_int (lot_shares stock)) p))
      | None => value_loop rest total_value
      end
  end.

Definition calculate_portfolio_value : M State num :=
  holdings <- get_portfolio ;;
  value_loop holdings (of_int 0).

(** *** [portfolio_performance_report] *)

Definition dollars (x : num) : string := "$" ++ fmt2 x.
Definition percent (x : num) : string := fmt2 x ++ "%".

(** The loop variables [report_data], [total_investment] and
    [total_current_value]. *)
Record Totals : Type := {
  report_data : list ReportRow;
  total_investment : num;
  total_current_value : num
}.

Definition investment_of (stock : Lot) : num :=
  fmul (of_int (lot_shares stock)) (lot_purchase_price stock).

Definition report_row (stock : Lot) (current_price gain_loss_pct : num) : ReportRow :=
  let investment := investment_of stock in
  let current_value := fmul (of_int (lot_shares stock)) current_price in
  {| Symbol := lot_symbol stock;
     Shares := lot_shares stock;
     Avg_Purchase_Price := dollars (lot_purchase_price stock);
     Current_Price := dollars current_price;
     Investment := dollars investment;
     Current_Value := dollars current_value;
     Gain_Loss := dollars (fsub current_value investment);
     Gain_Loss_Pct := percent gain_loss_pct |}.

Fixpoint report_loop (holdings : list Lot) (acc : Totals) : M State Totals :=
  match holdings with
  | [] => ret acc
  | stock :: rest =>
      let investment := investment_of stock in
      let total_investment' := fadd (total_investment acc) investment in
      current_price <- get_current_price (lot_symbol stock) ;;
      match current_price with
      | None =>
          report_loop rest
            {| report_data := report_data acc;
               total_investment := total_investment';
               total_current_value := total_current_value acc |}
      | Some p =>
          let current_value := fmul (of_int (lot_shares stock)) p in
          let gain_loss := fsub current_value investment in
          match fdiv gain_loss investment with
          | None => raise ZeroDivisionError
          | Some q =>
              report_loop rest
                {| report_data :=
                     report_data acc ++ [report_row stock p (fmul q (of_int 100))];
                   total_investment := total_investment';
                   total_current_value :=
                     fadd (total_current_value acc) current_value |}
          end
      end
  end.

Definition make_summary (acc : Totals) : Result Summary :=
  let gain := fsub (total_current_value acc) (total_investment acc) in
  match fdiv gain (total_investment acc) with
  | None => Raise ZeroDivisionError
  | Some q =>
      Return {| Total_Investment := dollars (total_investment acc);
                Total_Current_Value := dollars (total_current_value acc);
                Total_Gain_Loss := dollars gain;
                Total_Gain_Loss_Pct := percent (fmul q (of_int 100)) |}
  end.

(** The second pass over the holdings: one wedge per lot whose price is
    available at that time. *)
Fixpoint allocation_loop (holdings : list Lot) (allocations : list num)
    : M State (list num) :=
  match holdings with
  | [] => ret allocations
  | stock :: rest =>
      price <- get_current_price (lot_symbol stock) ;;
      match price with
      | Some p =>
          allocation_loop rest (allocations ++ [fmul (of_int (lot_shares stock)) p])
      | None => allocation_loop rest allocations
      end
  end.

(** [plt.pie(allocations, labels=symbols, ...)]: [ValueError] where the
    chart library rejects its arguments. *)
Definition plt_pie (allocations : list num) (symbols : list string) : M State Chart :=
  if pie_accepts allocations symbols
  then ret {| wedges := allocations; labels := symbols |}
  else raise ValueError.

Definition portfolio_performance_report : M State ReportResult :=
  holdings <- get_portfolio ;;
  match holdings with
  | [] => ret NoHoldings
  | _ =>
      acc <- report_loop holdings
               {| report_data := []; total_investment := of_int 0;
                  total_current_value := of_int 0 |} ;;
      summary <- lift (make_summary acc) ;;
      modify (with_report_csv (report_data acc)) ;;;
      allocations <- allocation_loop holdings [] ;;
      chart <- plt_pie allocations (map lot_symbol holdings) ;;
      modify (with_allocation_png chart) ;;;
      logging_info "Generated portfolio performance report" ;;;
      ret (Report (report_data acc) summary)
  end.

(** *** [export_to_csv] *)

Definition export_header : list string :=
  ["ID"; "Symbol"; "Date"; "Open"; "High"; "Low"; "Close"; "Volume"].

(** One fetched row as [csv.writer] writes it. *)
Definition export_record (b : PriceBar) : list string :=
  [str_of_int (bar_id b); bar_symbol b; bar_date b;
   str_of_float (bar_open b); str_of_float (bar_high b);
   str_of_float (bar_low b); str_of_float (bar_close b);
   str_of_int (bar_volume b)].

(** The [except] clause names [sqlite3.Error], [csv.Error] and [IOError];
    of the latter, [FileNotFoundError] is the member the model has.  Writing
    the file does not fail in the model. *)
Definition export_to_csv (filename : string) : M State bool :=
  try_except
    (execute ;;;
     data <- gets (fun s => stocks (view (conn s))) ;;
     modify (fun s =>
       with_files (<[filename := Rec export_header :: map (fun b => Rec (export_record b)) data]>
                     (files s)) s) ;;;
     logging_info ("Exported data to " ++ filename) ;;;
     ret true)
    [SqliteError; CsvError; FileNotFoundError]
    (fun e => logging_error "Error exporting data" e ;;; ret false).

End Store.

Arguments PriceBar : clear implicits.
Arguments Lot : clear implicits.
Arguments Tables : clear implicits.
Arguments Conn : clear implicits.
Arguments Chart : clear implicits.
Arguments Quote : clear implicits.
Arguments State : clear implicits.
Arguments Totals : clear implicits.

(** The columns of a bar other than its row id, as the INSERT of
    [import_from_csv] receives them. *)
Definition bar_args {num : Type} (b : PriceBar num)
    : option string * option string * num * num * num * num * Z :=
  (Some (bar_symbol b), Some (bar_date b), bar_open b, bar_high b, bar_low b,
   bar_close b, bar_volume b).

(** Row ids [seq + 1, seq + 2, ...] in list order. *)
Fixpoint numbered_from {num : Type} (seq : Z) (bars : list (PriceBar num)) : Prop :=
  match bars with
  | [] => True
  | b :: r => bar_id b = seq + 1 /\ numbered_from (seq + 1) r
  end.

(** The tables after the rows [new] were inserted one after the other. *)
Definition push_bars {num : Type} (t : Tables num) (new : list (PriceBar num))
    : Tables num :=
  {| stocks := stocks t ++ new;
     stocks_seq := stocks_seq t + Z.of_nat (List.length new);
     portfolio := portfolio t;
     portfolio_seq := portfolio_seq t |}.

(** The bar can be stored: no price is a NaN and the volume is an SQLite
    INTEGER. *)
Definition storable {num : Type} {py : PyFloat num} (b : PriceBar num) : bool :=
  (negb (is_nan (bar_open b) || is_nan (bar_high b) || is_nan (bar_low b)
         || is_nan (bar_close b))
   && fits_int64 (bar_volume b))%bool.


(** ** The life of the connection: [__init__] and [__del__] *)

Section Lifecycle.

Context {num : Type} {py : PyFloat num} {World : Type}.

(** [sqlite3.connect('stocks.db')]: the new connection sees the committed
    database.  Opening does not fail in the model; storage that fails shows
    at the first statement. *)
Definition connect : M (State num World) unit :=
  modify (fun s => with_conn {| disk := disk (conn s); view := disk (conn s);
                                faulty := faulty (conn s) |} s).

(** [StockPortfolio()]; the attribute [stock_data] is never read. *)
Definition __init__ : M (State num World) unit :=
  connect ;;; _create_tables.

(** [self.conn.close()]: what was not committed is rolled back. *)
Definition __del__ : M (State num World) unit :=
  modify (fun s => with_conn {| disk := disk (conn s); view := disk (conn s);
                                faulty := faulty (conn s) |} s).

End Lifecycle.

(** ** Charts of one stock: [plot_stock_performance] *)

Section Performance.

Context {num : Type} {py : PyFloat num} {World : Type} {datetime : Type}.

(** [datetime.strptime(text, '%Y-%m-%d')]; [None] where it raises
    [ValueError]. *)
Variable strptime : string -> option datetime.

(** What [plt.plot] draws and [plt.savefig] writes. *)
Record LinePlot : Type := {
  plot_dates : list datetime;
  plot_prices : list num;
  plot_label : string;
  plot_title : string
}.

(** The program state together with the performance charts in the working
    directory, by file name.  Writing a chart does not fail in the model. *)
Record Desk : Type := {
  desk_state : State num World;
  performance_png : gmap string LinePlot
}.

(** A method of the store, run on the desk. *)
Definition on_desk {A : Type} (m : M (State num World) A) : M Desk A :=
  fun d => let (r, s) := m (desk_state d) in
           (r, {| desk_state := s; performance_png := performance_png d |}).

(** [[datetime.strptime(row[0], '%Y-%m-%d') for row in data]]: the first
    date that does not parse raises. *)
Fixpoint parse_dates (data : list (string * num)) : Result (list datetime) :=
  match data with
  | [] => Return []
  | row :: rest =>
      match strptime row.1 with
      | Some d => ds <~ parse_dates rest ;; Return (d :: ds)
      | None => Raise ValueError
      end
  end.

Definition savefig (output_path : string) (fig : LinePlot) : M Desk unit :=
  modify (fun d => {| desk_state := desk_state d;
                      performance_png := <[output_path := fig]> (performance_png d) |}).

Definition plot_stock_performance (symbol : string) : M Desk bool :=
  data <- on_desk (get_stock_data symbol) ;;
  match data with
  | [] => ret false
  | _ =>
      dates <- lift (parse_dates data) ;;
      let prices := map snd data in
      let fig := {| plot_dates := dates; plot_prices := prices;
                    plot_label := symbol ++ " Closing Price";
                    plot_title := symbol ++ " Historical Performance" |} in
      let output_path := symbol ++ "_performance.png" in
      savefig output_path fig ;;;
      on_desk (logging_info ("Generated performance plot for " ++ symbol)) ;;;
      ret true
  end.

End Performance.

Arguments LinePlot : clear implicits.
Arguments Desk : clear implicits.

(** ** The window: class [StockAppGUI] *)

(** The characters [\t] and [\n]. *)
Definition TAB : string := String "009"%char EmptyString.
Definition NL : string := String "010"%char EmptyString.

(** [sep.join(items)] *)
Fixpoint join (sep : string) (items : list string) : string :=
  match items with
  | [] => ""
  | [x] => x
  | x :: rest => x ++ sep ++ join sep rest
  end.

(** [for x in items: body(x)] *)
Fixpoint for_each {S A : Type} (items : list A) (body : A -> M S unit) : M S unit :=
  match items with
  | [] => ret tt
  | x :: rest => body x ;;; for_each rest body
  end.

(** A message box shown to the user. *)
Inductive Box : Type :=
  | showinfo (title message : string)
  | showerror (title message : string).

(** What the handler of [generate_report] can catch: an exception of the
    store, or the [AttributeError] of calling [to_string] on [False]. *)
Inductive Caught : Type :=
  | FromStore (e : exn)
  | AttributeError.

(** The entry fields the user fills in. *)
Inductive Field : Type := symbol_field | shares_field | price_field | date_field.

(** What the user does in the window: editing an entry, pressing a button,
    or choosing a menu command and answering its file dialog (with the
    empty string when the dialog is cancelled). *)
Inductive Event : Type :=
  | Edit (field : Field) (text : string)
  | AddToPortfolio_button
  | GenerateReport_button
  | ImportCSV_command (answer : string)
  | ExportCSV_command (answer : string).

Module StockAppGUI.

Section Window.

Context {num : Type} {py : PyFloat num} {World : Type}.
Variable history : string -> World -> Quote num * World.
Variable pie_accepts : list num -> list string -> bool.

(** [DataFrame.to_string(index=False)] *)
Variable to_string : list ReportRow -> string.

(** [tk.PhotoImage(file="portfolio_allocation.png")] on the content of the
    file, if there is one: [None] when the image loads, the text of the
    exception otherwise. *)
Variable PhotoImage : option (Chart num) -> option string.

(** [str(e)] for the exceptions of the store. *)
Variable str_of_exn : exn -> string.

(** The object: the store it holds ([self.portfolio]), the content of its
    widgets, the message boxes it has shown and the errors it has logged
    itself.  The place of the latter among the log entries of the store is
    not modelled.  Calls to the widgets do not fail. *)
Record Window : Type := {
  store : State num World;
  symbol_entry : string;
  shares_entry : string;
  price_entry : string;
  date_entry : string;
  text_display : string;
  img_label : option (Chart num);
  messagebox : list Box;
  report_errors : list Caught
}.

Definition with_store (s : State num World) (w : Window) : Window :=
  {| store := s; symbol_entry := symbol_entry w; shares_entry := shares_entry w;
     price_entry := price_entry w; date_entry := date_entry w;
     text_display := text_display w; img_label := img_label w;
     messagebox := messagebox w; report_errors := report_errors w |}.

Definition with_text (t : string) (w : Window) : Window :=
  {| store := store w; symbol_entry := symbol_entry w; shares_entry := shares_entry w;
     price_entry := price_entry w; date_entry := date_entry w;
     text_display := t; img_label := img_label w;
     messagebox := messagebox w; report_errors := report_errors w |}.

Definition with_img_label (c : option (Chart num)) (w : Window) : Window :=
  {| store := store w; symbol_entry := symbol_entry w; shares_entry := shares_entry w;
     price_entry := price_entry w; date_entry := date_entry w;
     text_display := text_display w; img_label := c;
     messagebox := messagebox w; report_errors := report_errors w |}.

Definition with_messagebox (b : list Box) (w : Window) : Window :=
  {| store := store w; symbol_entry := symbol_entry w; shares_entry := shares_entry w;
     price_entry := price_entry w; date_entry := date_entry w;
     text_display := text_display w; img_label := img_label w;
     messagebox := b; report_errors := report_errors w |}.

Definition with_report_errors (l : list Caught) (w : Window) : Window :=
  {| store := store w; symbol_entry := symbol_entry w; shares_entry := shares_entry w;
     price_entry := price_entry w; date_entry := date_entry w;
     text_display := text_display w; img_label := img_label w;
     messagebox := messagebox w; report_errors := l |}.

(** The user edits an entry. *)
Definition with_entry (f : Field) (text : string) (w : Window) : Window :=
  {| store := store w;
     symbol_entry := match f with symbol_field => text | _ => symbol_entry w end;
     shares_entry := match f with shares_field => text | _ => shares_entry w end;
     price_entry := match f with price_field => text | _ => price_entry w end;
     date_entry := match f with date_field => text | _ => date_entry w end;
     text_display := text_display w; img_label := img_label w;
     messagebox := messagebox w; report_errors := report_errors w |}.

(** A method of the store, called on [self.portfolio]. *)
Definition on_portfolio {A : Type} (m : M (State num World) A) : M Window A :=
  fun w => let (r, s) := m (store w) in (r, with_store s w).

(** [messagebox.showinfo] and [messagebox.showerror] *)
Definition show (b : Box) : M Window unit :=
  modify (fun w => with_messagebox (messagebox w ++ [b]) w).

(** [self.text_display.delete(1.0, tk.END)] and
    [self.text_display.insert(tk.END, text)] *)
Definition text_delete : M Window unit := modify (with_text "").

Definition text_insert (text : string) : M Window unit :=
  modify (fun w => with_text (text_display w ++ text) w).

(** [__init__] and [_setup_ui]: the widgets are created empty. *)
Definition _setup_ui : M Window unit :=
  modify (fun w =>
    {| store := store w; symbol_entry := ""; shares_entry := "";
       price_entry := ""; date_entry := ""; text_display := "";
       img_label := None;
       messagebox := messagebox w; report_errors := report_errors w |}).

Definition __init__ : M Window unit := _setup_ui.

(** *** [import_csv_dialog] and [export_csv_dialog] *)

Definition import_csv_dialog (filepath : string) : M Window unit :=
  if String.eqb filepath "" then ret tt
  else
    ok <- on_portfolio (import_from_csv filepath) ;;
    if ok : bool then show (showinfo "Success" "CSV file imported successfully!")
    else show (showerror "Error" "Failed to import CSV file").

Definition export_csv_dialog (filepath : string) : M Window unit :=
  if String.eqb filepath "" then ret tt
  else
    ok <- on_portfolio (export_to_csv filepath) ;;
    if ok : bool then show (showinfo "Success" "Data exported successfully!")
    else show (showerror "Error" "Failed to export data").

(** *** [display_portfolio] *)

Definition headers : list string :=
  ["ID"; "Symbol"; "Shares"; "Purchase Price"; "Purchase Date"].

(** The line of one lot. *)
Definition holding_line (stock : Lot num) : string :=
  str_of_int (lot_id stock) ++ TAB ++ lot_symbol stock ++ TAB ++
  str_of_int (lot_shares stock) ++ TAB ++ dollars (lot_purchase_price stock) ++ TAB ++
  lot_purchase_date stock ++ NL.

Definition display_portfolio : M Window unit :=
  holdings <- on_portfolio get_portfolio ;;
  text_delete ;;;
  text_insert ("CURRENT PORTFOLIO HOLDINGS" ++ NL ++ NL) ;;;
  match holdings with
  | [] => text_insert "No holdings in portfolio"
  | _ =>
      text_insert (join TAB headers ++ NL) ;;;
      for_each holdings (fun stock => text_insert (holding_line stock))
  end.

(** *** [add_to_portfolio] *)

Definition add_to_portfolio : M Window unit :=
  symbol <- gets symbol_entry ;;
  shares <- gets shares_entry ;;
  price <- gets price_entry ;;
  date <- gets date_entry ;;
  try_except
    (shares <- lift (py_int (Some shares)) ;;
     price <- lift (py_float (Some price)) ;;
     ok <- on_portfolio (add_to_portfolio symbol shares price date) ;;
     if ok : bool then
       show (showinfo "Success"
               ("Added " ++ str_of_int shares ++ " shares of " ++ symbol
                ++ " to portfolio")) ;;;
       display_portfolio
     else show (showerror "Error" "Failed to add to portfolio"))
    [ValueError]
    (fun _ => show (showerror "Error" "Invalid input values")).

(** *** [generate_report] *)

Definition str_of_caught (e : Caught) : string :=
  match e with
  | FromStore e => str_of_exn e
  | AttributeError => "'bool' object has no attribute 'to_string'"
  end.

(** The clause [except Exception as e] of the method. *)
Definition report_failed (e : Caught) : M Window unit :=
  show (showerror "Error" ("Failed to generate report: " ++ str_of_caught e)) ;;;
  modify (fun w => with_report_errors (report_errors w ++ [e]) w).

(** [summary.items()], in the order the keys were inserted. *)
Definition summary_items (summary : Summary) : list (string * string) :=
  [("Total Investment", Total_Investment summary);
   ("Total Current Value", Total_Current_Value summary);
   ("Total Gain/Loss ($)", Total_Gain_Loss summary);
   ("Total Gain/Loss (%)", Total_Gain_Loss_Pct summary)].

(** The inner [try]: the chart is read back from its file. *)
Definition show_chart : M Window unit :=
  chart <- gets (fun w => portfolio_allocation_png (store w)) ;;
  match PhotoImage chart with
  | None => modify (with_img_label chart)
  | Some message =>
      show (showerror "Chart Error" ("Could not load allocation chart: " ++ message))
  end.

(** The [try] block from the second statement on: [report] is [False]
    when there are no holdings. *)
Definition show_report (result : ReportResult) : M Window unit :=
  text_delete ;;;
  text_insert ("PORTFOLIO PERFORMANCE REPORT" ++ NL ++ NL) ;;;
  text_insert ("Individual Holdings:" ++ NL) ;;;
  match result with
  | NoHoldings => report_failed AttributeError
  | Report report summary =>
      text_insert (to_string report) ;;;
      text_insert (NL ++ NL ++ "Summary:" ++ NL) ;;;
      for_each (summary_items summary)
        (fun kv => text_insert (kv.1 ++ ": " ++ kv.2 ++ NL)) ;;;
      show_chart
  end.

Definition generate_report : M Window unit :=
  fun w =>
    match on_portfolio (portfolio_performance_report history pie_accepts) w with
    | (Return result, w1) => show_report result w1
    | (Raise e, w1) => report_failed (FromStore e) w1
    end.

(** *** [run] *)

(** One callback of the event loop. *)
Definition callback (ev : Event) : M Window unit :=
  match ev with
  | Edit f text => modify (with_entry f text)
  | AddToPortfolio_button => add_to_portfolio
  | GenerateReport_button => generate_report
  | ImportCSV_command answer => import_csv_dialog answer
  | ExportCSV_command answer => export_csv_dialog answer
  end.

(** [self.root.mainloop()] until the window is closed: an exception that
    leaves a callback is reported on the console and the loop goes on. *)
Fixpoint mainloop (events : list Event) : M Window unit :=
  match events with
  | [] => ret tt
  | ev :: rest => fun w => mainloop rest (callback ev w).2
  end.

Definition run (events : list Event) : M Window unit :=
  display_portfolio ;;; mainloop events.

End Window.

Arguments Window : clear implicits.

End StockAppGUI.

(** ** [main] *)

Section Main.

Context {num : Type} {py : PyFloat num} {World : Type}.
Variable history : string -> World -> Quote num * World.
Variable pie_accepts : list num -> list string -> bool.
Variable to_string : list ReportRow -> string.
Variable PhotoImage : option (Chart num) -> option string.
Variable str_of_exn : exn -> string.

(** The program from its start to the closing of the window.  The window
    fields of the state stand for nothing before [StockAppGUI.__init__]
    has created the widgets. *)
Definition main (events : list Event) : M (StockAppGUI.Window num World) unit :=
  StockAppGUI.on_portfolio __init__ ;;;
  try_except
    (_ <- StockAppGUI.on_portfolio (import_from_csv "sample_stock_data.csv") ;; ret tt)
    [FileNotFoundError]
    (fun _ => ret tt) ;;;
  StockAppGUI.__init__ ;;;
  StockAppGUI.run history pie_accepts to_string PhotoImage str_of_exn events.

End Main.

(** * The vocabulary of the properties *)

Section Vocabulary.

Context {num : Type} {py : PyFloat num} {World : Type}.
Variable history : string -> World -> Quote num * World.

Implicit Types (st : State num World) (b : PriceBar num).

(** The artifacts of the report, as a pair. *)
Definition artifacts st : option (list ReportRow) * option (Chart num) :=
  (portfolio_report_csv st, portfolio_allocation_png st).

(** The price of a symbol is available: the service answers every request
    for it with a close. *)
Definition available (symbol : string) : Prop :=
  forall w, exists p, (history symbol w).1 = Close p.

(** The lookup of a symbol fails: the service never answers with a close. *)
Definition unavailable (symbol : string) : Prop :=
  forall w p, (history symbol w).1 <> Close p.

(** The lots of the first pass that got a row, each with the price and
    the percentage of its row. *)
Definition priced_row (x : Lot num * num * num) : ReportRow :=
  report_row x.1.1 x.1.2 x.2.

Definition priced_value (x : Lot num * num * num) : num :=
  fmul (of_int (lot_shares x.1.1)) x.1.2.

(** A bar was read from a record of the file: its columns are the
    converted fields of that record, the symbol and the date verbatim. *)
Definition imported_from (fieldnames : list string) (items : list CsvItem)
    b : Prop :=
  exists row, In (Rec row) items /\
    insert_args (dict_row fieldnames row) = Return (bar_args b).

(** The record imports as the bar [b]: its fields convert to the columns
    of [b], which can be stored. *)
Definition imports_as (fieldnames row : list string) b : Prop :=
  insert_args (dict_row fieldnames row) = Return (bar_args b) /\
  storable b = true.

(** The state after an import attempt: rows [new] appended to the view,
    the committed tables [dsk], the log [l]; nothing else changes. *)
Definition after_import st (new : list (PriceBar num)) (dsk : Tables num)
    (l : list LogEntry) : State num World :=
  with_log l
    (with_conn {| disk := dsk; view := push_bars (view (conn st)) new;
                  faulty := faulty (conn st) |} st).

(** The bar survives the trip through text: it is a bar the table can
    hold, and [float(str(x)) == x] for its four prices (Python guarantees
    it for every [float] but NaN). *)
Definition text_round_trips b : Prop :=
  float_of_str (str_of_float (bar_open b)) = Some (bar_open b) /\
  float_of_str (str_of_float (bar_high b)) = Some (bar_high b) /\
  float_of_str (str_of_float (bar_low b)) = Some (bar_low b) /\
  float_of_str (str_of_float (bar_close b)) = Some (bar_close b) /\
  storable b = true.

(** The same bars under the row ids [seq + 1, seq + 2, ...]. *)
Fixpoint renumber (seq : Z) (bars : list (PriceBar num)) : list (PriceBar num) :=
  match bars with
  | [] => []
  | b :: r =>
      {| bar_id := seq + 1; bar_symbol := bar_symbol b; bar_date := bar_date b;
         bar_open := bar_open b; bar_high := bar_high b; bar_low := bar_low b;
         bar_close := bar_close b; bar_volume := bar_volume b |}
      :: renumber (seq + 1) r
  end.

End Vocabulary.





(** Text of ASCII characters only.  On other text Python changes the case
    of letters [upper] leaves alone. *)
Fixpoint is_ascii (s : string) : bool :=
  match s with
  | EmptyString => true
  | String c r => (Nat.ltb (nat_of_ascii c) 128 && is_ascii r)%bool
  end.

(** The columns [import_from_csv] reads. *)
Definition import_columns : list string :=
  ["Symbol"; "Date"; "Open"; "High"; "Low"; "Close"; "Volume"].

(** The columns it converts to numbers. *)
Definition numeric_columns : list string :=
  ["Open"; "High"; "Low"; "Close"; "Volume"].

(** The numeric fields of the file are ASCII text.  In other text the
    builtin [int] and [float] read digits and white space that
    [int_of_str] and [float_of_str] do not. *)
Definition ascii_numbers (items : list CsvItem) : Prop :=
  match items with
  | Rec fieldnames :: rest =>
      forall row k t,
        In (Rec row) rest -> In k numeric_columns ->
        dict_row fieldnames row !! k = Some (Some t) -> is_ascii t = true
  | _ => True
  end.

(** What makes a record of the file raise an error that [import_from_csv]
    does not catch: [KeyError] for a column the header does not name,
    [TypeError] for a record that ends before one of its numeric columns,
    [OverflowError] for a volume that is no 64-bit integer, and
    [sqlite3.Error] for a record that ends before its symbol or date or
    holds a price that reads as NaN. *)
Definition escape_cause {num : Type} {py : PyFloat num}
    (fieldnames row : list string) (e : exn) : Prop :=
  match e with
  | KeyError k => In k import_columns /\ ~ In k fieldnames
  | TypeError =>
      exists k, In k numeric_columns /\
                dict_row fieldnames row !! k = Some None
  | OverflowError =>
      exists t v, dict_row fieldnames row !! "Volume" = Some (Some t) /\
                  int_of_str t = Some v /\ fits_int64 v = false
  | SqliteError =>
      (exists k, In k ["Symbol"; "Date"] /\ dict_row fieldnames row !! k = Some None) \/
      (exists k t x, In k ["Open"; "High"; "Low"; "Close"] /\
                     dict_row fieldnames row !! k = Some (Some t) /\
                     float_of_str t = Some x /\ is_nan x = true)
  | _ => False
  end.

(** How an import attempt ends: with [True] after the commit, with [False]
    after logging an error of a class the [except] clause names, or with an
    error of another class, raised by a record of the file with nothing
    logged. *)
Definition import_outcome {num : Type} {py : PyFloat num} {World : Type}
    (path : string) (st : State num World) (r : Result bool)
    (st' : State num World) : Prop :=
  match r with
  | Return true =>
      log st' = (log st ++ [LogInfo ("Successfully imported data from " ++ path)])%list /\
      disk (conn st') = view (conn st')
  | Return false =>
      exists e, caught_by [FileNotFoundError; CsvError; ValueError] e = true /\
                log st' = (log st ++ [LogError "Error importing CSV" e])%list
  | Raise e =>
      log st' = log st /\
      exists fieldnames rest row,
        files st !! path = Some (Rec fieldnames :: rest) /\
        In (Rec row) rest /\ row <> [] /\
        escape_cause fieldnames row e
  end.

(** The closes the quote service hands out are [numpy.float64] values. *)
Definition numpy_quotes {World : Type}
    (history : string -> World -> Quote Numpy.scalar * World) : Prop :=
  forall symbol w p, (history symbol w).1 = Close p -> Numpy.float64 p = true.

(** The purchase prices are builtin [float]s, as [sqlite3] returns the
    values of a REAL column. *)
Definition builtin_prices (lots : list (Lot Numpy.scalar)) : Prop :=
  Forall (fun stock => Numpy.float64 (lot_purchase_price stock) = false) lots.

(** * The vocabulary of further properties *)

(** The row ids AUTOINCREMENT hands out to the first [n] rows. *)
Definition ids_upto (n : nat) : list Z := map Z.of_nat (seq 1 n).

Section Consistency.

Context {num : Type} {py : PyFloat num} {World : Type}.
Variable history : string -> World -> Quote num * World.
Variable pie_accepts : list num -> list string -> bool.

(** A lot as [add_to_portfolio] stores it: the symbol in upper case, the
    shares an SQLite INTEGER, the price not a NaN. *)
Definition lot_ok (l : Lot num) : bool :=
  (String.eqb (upper (lot_symbol l)) (lot_symbol l)
   && fits_int64 (lot_shares l)
   && negb (is_nan (lot_purchase_price l)))%bool.

(** The rows of both tables carry the ids 1, 2, ... in insertion order and
    the AUTOINCREMENT counters stand at the last id. *)
Definition well_numbered (t : Tables num) : Prop :=
  map bar_id (stocks t) = ids_upto (List.length (stocks t)) /\
  stocks_seq t = Z.of_nat (List.length (stocks t)) /\
  map lot_id (portfolio t) = ids_upto (List.length (portfolio t)) /\
  portfolio_seq t = Z.of_nat (List.length (portfolio t)).

(** The database behind a connection is consistent: both the committed
    tables and the connection's view are well numbered, the committed rows
    are the first rows of the view, and every row of the view is one the
    INSERTs of the program can have written. *)
Definition consistent (c : Conn num) : Prop :=
  well_numbered (view c) /\
  well_numbered (disk c) /\
  stocks (disk c) `prefix_of` stocks (view c) /\
  portfolio (disk c) `prefix_of` portfolio (view c) /\
  Forall (fun b => storable b = true) (stocks (view c)) /\
  Forall (fun l => lot_ok l = true) (portfolio (view c)).

(** The calls a user of [StockPortfolio] can make, closing the program and
    starting it again, and the environment's move of breaking or repairing
    the storage. *)
Inductive Call : Type :=
  | CreateTables
  | ImportFromCsv (filepath : string)
  | AddToPortfolio (symbol : string) (shares : Z) (purchase_price : num)
      (purchase_date : string)
  | GetPortfolio
  | GetStockData (symbol : string)
  | CalculatePortfolioValue
  | PortfolioPerformanceReport
  | ExportToCsv (filename : string)
  | Restart
  | StorageFails (now : bool).

(** The state a call leaves behind, whether it returns or raises. *)
Definition after (c : Call) (st : State num World) : State num World :=
  match c with
  | CreateTables => (_create_tables st).2
  | ImportFromCsv filepath => (import_from_csv filepath st).2
  | AddToPortfolio symbol shares price date =>
      (add_to_portfolio symbol shares price date st).2
  | GetPortfolio => (get_portfolio st).2
  | GetStockData symbol => (get_stock_data symbol st).2
  | CalculatePortfolioValue => (calculate_portfolio_value history st).2
  | PortfolioPerformanceReport =>
      (portfolio_performance_report history pie_accepts st).2
  | ExportToCsv filename => (export_to_csv filename st).2
  | Restart => ((__del__ ;;; __init__) st).2
  | StorageFails now =>
      with_conn {| disk := disk (conn st); view := view (conn st); faulty := now |} st
  end.

Definition after_all (calls : list Call) (st : State num World) : State num World :=
  fold_left (fun s c => after c s) calls st.

(** What the statements of the program do to a connection. *)
Definition committed (c : Conn num) : Conn num :=
  {| disk := view c; view := view c; faulty := faulty c |}.

Definition rolled_back (c : Conn num) : Conn num :=
  {| disk := disk c; view := disk c; faulty := faulty c |}.

Definition viewing (t : Tables num) (c : Conn num) : Conn num :=
  {| disk := disk c; view := t; faulty := faulty c |}.

(** A property of the connection that no statement of the program
    destroys: it survives a commit, the INSERT of a bar that can be stored,
    the INSERT of a lot as [add_to_portfolio] writes it, and the storage
    failing or recovering. *)
Record invariant (Inv : Conn num -> Prop) : Prop := {
  inv_commit : forall c, Inv c -> Inv (committed c);
  inv_stock : forall c sy d o h l cl v,
    Inv c ->
    (is_nan o || is_nan h || is_nan l || is_nan cl)%bool = false ->
    fits_int64 v = true ->
    Inv (viewing (push_stock (view c) sy d o h l cl v) c);
  inv_lot : forall c sy shares price date,
    Inv c ->
    upper sy = sy -> fits_int64 shares = true -> is_nan price = false ->
    Inv (viewing (push_lot (view c) sy shares price date) c);
  inv_faulty : forall c now,
    Inv c -> Inv {| disk := disk c; view := view c; faulty := now |}
}.

(** The computation leaves the property standing, whatever its outcome. *)
Definition keeps (Inv : Conn num -> Prop) {A : Type} (m : M (State num World) A)
    : Prop :=
  forall st, Inv (conn st) -> Inv (conn (m st).2).



(** No call of the list restarts the program. *)
Definition one_session (calls : list Call) : Prop :=
  Forall (fun c => c <> Restart) calls.

(** A quote service that counts the requests it answers. *)
Definition counted (symbol : string) (w : World * nat)
    : Quote num * (World * nat) :=
  let (reply, w') := history symbol w.1 in (reply, (w', S w.2)).

(** A quote service without memory: the answer depends on the symbol
    only. *)
Definition stateless : Prop :=
  forall symbol w w', (history symbol w).1 = (history symbol w').1.

(** The pairs [SELECT date, close] yields for the rows of a symbol, in
    table order. *)
Definition closes_of (symbol : string) (t : list (PriceBar num))
    : list (string * num) :=
  map (fun b => (bar_date b, bar_close b))
      (List.filter (fun b => String.eqb (bar_symbol b) symbol) t).

(** The dates of a query result ascend (in text order). *)
Fixpoint ascending (dates : list string) : Prop :=
  match dates with
  | [] => True
  | d :: r =>
      match r with
      | [] => True
      | d' :: _ => String.ltb d' d = false
      end /\ ascending r
  end.

End Consistency.

Section WindowVocabulary.

Context {num : Type} {py : PyFloat num} {World : Type}.

(** What [display_portfolio] writes into the text widget for a list of
    holdings that is not empty. *)
Definition holdings_text (holdings : list (Lot num)) : string :=
  "CURRENT PORTFOLIO HOLDINGS" ++ NL ++ NL ++
  join TAB StockAppGUI.headers ++ NL ++
  fold_right (fun stock text => StockAppGUI.holding_line stock ++ text) "" holdings.

(** What it writes when [get_portfolio] returns no lot. *)
Definition no_holdings_text : string :=
  "CURRENT PORTFOLIO HOLDINGS" ++ NL ++ NL ++ "No holdings in portfolio".

(** A window freshly created around a store. *)
Definition new_window (st : State num World) : StockAppGUI.Window num World :=
  {| StockAppGUI.store := st;
     StockAppGUI.symbol_entry := ""; StockAppGUI.shares_entry := "";
     StockAppGUI.price_entry := ""; StockAppGUI.date_entry := "";
     StockAppGUI.text_display := ""; StockAppGUI.img_label := None;
     StockAppGUI.messagebox := []; StockAppGUI.report_errors := [] |}.


End WindowVocabulary.

(** What is on display when the window opens on a store. *)
Definition first_display {num : Type} {py : PyFloat num} {World : Type}
    (st : State num World) : string :=
  match portfolio (view (conn st)) with
  | [] => no_holdings_text
  | lots => holdings_text lots
  end.

(** ** Dates *)

(** The number two digits write. *)
Definition two_digits (a b : ascii) : option Z :=
  if (is_digit a && is_digit b)%bool
  then Some (10 * (Z.of_nat (nat_of_ascii a) - 48) + (Z.of_nat (nat_of_ascii b) - 48))
  else None.

(** A date in the notation the import format declares, [YYYY-MM-DD] with
    all ten characters present, read as (year, month, day); [None] for any
    other text. *)
Definition padded_date (text : string) : option (Z * Z * Z) :=
  match text with
  | String y1 (String y2 (String y3 (String y4 (String s1 (String m1 (String m2
      (String s2 (String d1 (String d2 EmptyString))))))))) =>
      if (Ascii.eqb s1 "-" && Ascii.eqb s2 "-")%bool then
        match two_digits y1 y2, two_digits y3 y4, two_digits m1 m2, two_digits d1 d2 with
        | Some c, Some y, Some m, Some d =>
            if ((1 <=? m) && (m <=? 12) && (1 <=? d) && (d <=? 31))%bool
            then Some (100 * c + y, m, d) else None
        | _, _, _, _ => None
        end
      else None
  | _ => None
  end.

(** The first date is not later than the second. *)
Definition not_later (x y : Z * Z * Z) : Prop :=
  x.1.1 < y.1.1 \/
  (x.1.1 = y.1.1 /\ (x.1.2 < y.1.2 \/ (x.1.2 = y.1.2 /\ x.2 <= y.2))).

(** The dates come in the order of the calendar. *)
Fixpoint chronological (dates : list (Z * Z * Z)) : Prop :=
  match dates with
  | [] => True
  | x :: r =>
      match r with
      | [] => True
      | y :: _ => not_later x y
      end /\ chronological r
  end.

(** * Concrete environments and inputs *)

(** [matplotlib]'s [pie] raises [ValueError] when the number of labels
    differs from the number of wedges. *)
Definition mpl_pie_accepts {num : Type} (x : list num) (labels : list string) : bool :=
  Nat.eqb (List.length x) (List.length labels).

Definition empty_tables {num : Type} : Tables num :=
  {| stocks := []; stocks_seq := 0; portfolio := []; portfolio_seq := 0 |}.

(** A fresh working directory with a fresh database, after
    [_create_tables]. *)
Definition initial_state {num World : Type} (w : World) : State num World :=
  {| conn := {| disk := empty_tables; view := empty_tables; faulty := false |};
     files := ∅;
     portfolio_report_csv := None;
     portfolio_allocation_png := None;
     log := [];
     world := w |}.

(** A quote service that answers from a fixed table ("mocked prices"). *)
Definition mocked {num : Type} (prices : list (string * num)) (symbol : string)
    (w : unit) : Quote num * unit :=
  match List.find (fun kv => String.eqb kv.1 symbol) prices with
  | Some kv => (Close kv.2, w)
  | None => (NoData, w)
  end.

(** A quote service that plays back a script of answers, one per call. *)
Definition scripted {num : Type} (symbol : string) (w : list (Quote num))
    : Quote num * list (Quote num) :=
  match w with
  | r :: w' => (r, w')
  | [] => (NoData, [])
  end.

Import Binary64.

(** The amount a formatted cell shows, and the sum of a column. *)
Definition amount (cell : string) : option Q :=
  match cell with
  | String "$" r =>
      let (negative, body) := signed r in
      option_map (fun q => if negative then Qred (Qopp q) else q) (decimal_value body)
  | _ => None
  end.

Definition sum_amounts (cells : list string) : option Q :=
  fold_left (fun acc cell =>
               match acc, amount cell with
               | Some a, Some x => Some (Qred (a + x))
               | _, _ => None
               end) cells (Some 0%Q).

(** The lots (AAPL, 10 shares at 100) and (MSFT, 5 shares at 200), added
    to a fresh portfolio. *)
Definition add_two_lots {World : Type} : M (State float World) bool :=
  add_to_portfolio "AAPL" 10 (lit "100") "2024-01-01" ;;;
  add_to_portfolio "MSFT" 5 (lit "200") "2024-01-02".

Definition two_lots {World : Type} (w : World) : State float World :=
  (add_two_lots (initial_state w)).2.

(** The prices 110 for AAPL and 190 for MSFT. *)
Definition both_prices : list (string * float) :=
  [("AAPL", lit "110"); ("MSFT", lit "190")].

(** A price for AAPL only. *)
Definition aapl_price_only : list (string * float) := [("AAPL", lit "110")].

(** A quote service that fails for MSFT in the first pass of the report
    and answers in the second. *)
Definition msft_fails_once : list (Quote float) :=
  [Close (lit "110"); Failure ValueError; Close (lit "110"); Close (lit "190")].

Definition aapl_row : ReportRow :=
  {| Symbol := "AAPL"; Shares := 10;
     Avg_Purchase_Price := "$100.00"; Current_Price := "$110.00";
     Investment := "$1000.00"; Current_Value := "$1100.00";
     Gain_Loss := "$100.00"; Gain_Loss_Pct := "10.00%" |}.

Definition msft_row : ReportRow :=
  {| Symbol := "MSFT"; Shares := 5;
     Avg_Purchase_Price := "$200.00"; Current_Price := "$190.00";
     Investment := "$1000.00"; Current_Value := "$950.00";
     Gain_Loss := "$-50.00"; Gain_Loss_Pct := "-5.00%" |}.

(** Ten shares received for nothing: the investment of the lot is zero.
    The purchase price is a builtin [float], the quote a [numpy.float64]. *)
Definition free_shares : State Numpy.scalar unit :=
  (add_to_portfolio "AAPL" 10 (Numpy.builtin (lit "0")) "2024-01-01"
     (initial_state tt)).2.

Definition free_lot : Lot Numpy.scalar :=
  {| lot_id := 1; lot_symbol := "AAPL"; lot_shares := 10;
     lot_purchase_price := Numpy.builtin (lit "0");
     lot_purchase_date := "2024-01-01" |}.

Definition aapl_quote : list (string * Numpy.scalar) :=
  [("AAPL", Numpy.numpy (lit "110"))].

Definition free_row : ReportRow :=
  {| Symbol := "AAPL"; Shares := 10;
     Avg_Purchase_Price := "$0.00"; Current_Price := "$110.00";
     Investment := "$0.00"; Current_Value := "$1100.00";
     Gain_Loss := "$1100.00"; Gain_Loss_Pct := "inf%" |}.

Definition free_summary : Summary :=
  {| Total_Investment := "$0.00"; Total_Current_Value := "$1100.00";
     Total_Gain_Loss := "$1100.00"; Total_Gain_Loss_Pct := "inf%" |}.

(** A quote service without data for any symbol. *)
Definition no_quotes : list (string * Numpy.scalar) := [].

Definition csv_header : CsvItem :=
  Rec ["Symbol"; "Date"; "Open"; "High"; "Low"; "Close"; "Volume"].

(** A working directory with one price file whose second record has text
    in a numeric field. *)
Definition bad_second_row : State float unit :=
  with_files
    {[ "prices.csv" :=
         [csv_header;
          Rec ["AAPL"; "2024-01-02"; "185.5"; "186.25"; "184.0"; "185.75"; "1000"];
          Rec ["AAPL"; "2024-01-03"; "n/a"; "187.0"; "185.0"; "186.5"; "1200"]] ]}
    (initial_state tt).

(** The bar of the first record of [bad_second_row]. *)
Definition first_bar : PriceBar float :=
  {| bar_id := 1; bar_symbol := "AAPL"; bar_date := "2024-01-02";
     bar_open := lit "185.5"; bar_high := lit "186.25"; bar_low := lit "184.0";
     bar_close := lit "185.75"; bar_volume := 1000 |}.

(** A price file whose header lacks the [Volume] column. *)
Definition missing_volume_column : State float unit :=
  with_files
    {[ "prices.csv" :=
         [Rec ["Symbol"; "Date"; "Open"; "High"; "Low"; "Close"];
          Rec ["AAPL"; "2024-01-02"; "185.5"; "186.25"; "184.0"; "185.75"]] ]}
    (initial_state tt).

(** A price file that spells one symbol in lower case. *)
Definition mixed_case_file : State float unit :=
  with_files
    {[ "prices.csv" :=
         [csv_header;
          Rec ["aapl"; "2024-01-02"; "185.5"; "186.25"; "184.0"; "185.75"; "1000"];
          Rec ["MSFT"; "2024-01-02"; "370.1"; "372.5"; "369.25"; "371.0"; "900"]] ]}
    (initial_state tt).

(** The price table after the import of [mixed_case_file]. *)
Definition two_bars : State float unit :=
  (import_from_csv "prices.csv" mixed_case_file).2.

(** A price file of one record under a header. *)
Definition one_record (header row : list string) : State float unit :=
  with_files {[ "prices.csv" := [Rec header; Rec row] ]} (initial_state tt).

(** The storage fails. *)
Definition broken_storage : State float unit :=
  with_conn {| disk := empty_tables; view := empty_tables; faulty := true |}
    (initial_state tt).

(** ** Further inputs *)

(** The records of [mixed_case_file] and the bars they import as. *)
Definition two_records : list (list string) :=
  [["aapl"; "2024-01-02"; "185.5"; "186.25"; "184.0"; "185.75"; "1000"];
   ["MSFT"; "2024-01-02"; "370.1"; "372.5"; "369.25"; "371.0"; "900"]].

Definition aapl_bar (id : Z) : PriceBar float :=
  {| bar_id := id; bar_symbol := "aapl"; bar_date := "2024-01-02";
     bar_open := lit "185.5"; bar_high := lit "186.25"; bar_low := lit "184.0";
     bar_close := lit "185.75"; bar_volume := 1000 |}.

Definition msft_bar (id : Z) : PriceBar float :=
  {| bar_id := id; bar_symbol := "MSFT"; bar_date := "2024-01-02";
     bar_open := lit "370.1"; bar_high := lit "372.5"; bar_low := lit "369.25";
     bar_close := lit "371.0"; bar_volume := 900 |}.


(** The two lots of [two_lots]. *)
Definition aapl_lot : Lot float :=
  {| lot_id := 1; lot_symbol := "AAPL"; lot_shares := 10;
     lot_purchase_price := lit "100"; lot_purchase_date := "2024-01-01" |}.

Definition msft_lot : Lot float :=
  {| lot_id := 2; lot_symbol := "MSFT"; lot_shares := 5;
     lot_purchase_price := lit "200"; lot_purchase_date := "2024-01-02" |}.

(** Two lots whose investments cancel: 10 shares bought at 100 and 10
    shares entered at -100. *)
Definition offsetting_lots : State Numpy.scalar unit :=
  ((add_to_portfolio "AAPL" 10 (Numpy.builtin (lit "100")) "2024-01-01" ;;;
    add_to_portfolio "MSFT" 10 (Numpy.builtin (lit "-100")) "2024-01-02")
     (initial_state tt)).2.

(** Three bars of one symbol, out of order in the file, one of them dated
    in another notation. *)
Definition unordered_file (odd_date : string) : State float unit :=
  with_files
    {[ "prices.csv" :=
         [csv_header;
          Rec ["MSFT"; "2024-01-03"; "372.0"; "374.5"; "371.25"; "373.0"; "800"];
          Rec ["MSFT"; odd_date; "370.1"; "372.5"; "369.25"; "371.0"; "900"];
          Rec ["MSFT"; "2024-01-01"; "368.0"; "370.5"; "367.25"; "369.0"; "700"]] ]}
    (initial_state tt).

Definition three_bars (odd_date : string) : State float unit :=
  (import_from_csv "prices.csv" (unordered_file odd_date)).2.

(** A desk without charts. *)
Definition desk_of (st : State float unit) : Desk float unit (Z * Z * Z) :=
  {| desk_state := st; performance_png := ∅ |}.

(** A window on the two lots, with the entry fields filled in. *)
Definition filled_in (symbol shares price date : string) (st : State float unit)
    : StockAppGUI.Window float unit :=
  StockAppGUI.with_entry symbol_field symbol
    (StockAppGUI.with_entry shares_field shares
       (StockAppGUI.with_entry price_field price
          (StockAppGUI.with_entry date_field date (new_window st)))).

(** Stand-ins for the libraries the window calls: a table of one line per
    row, an image that always loads, and the class name as the text of an
    exception. *)
Definition plain_table (rows : list ReportRow) : string :=
  join NL (map (fun r => Symbol r ++ " " ++ Current_Value r) rows).

Definition image_loads (file : option (Chart float)) : option string :=
  match file with
  | Some _ => None
  | None => Some "couldn't open portfolio_allocation.png"
  end.

Definition class_name (e : exn) : string :=
  match e with
  | FileNotFoundError => "FileNotFoundError"
  | CsvError => "Error"
  | ValueError => "ValueError"
  | KeyError _ => "KeyError"
  | TypeError => "TypeError"
  | OverflowError => "OverflowError"
  | SqliteError => "sqlite3.Error"
  | ZeroDivisionError => "float division by zero"
  end.

(** A working directory that holds the sample file. *)
Definition with_sample_file : State float unit :=
  with_files
    {[ "sample_stock_data.csv" := csv_header :: map Rec two_records ]}
    (initial_state tt).

(** * Properties *)

(** ** Strings *)

Lemma upper_ascii_idem (c : ascii) : upper_ascii (upper_ascii c) = upper_ascii c.
Proof. destruct c as [[] [] [] [] [] [] [] []]; reflexivity. Qed.

Lemma upper_idem (s : string) : upper (upper s) = upper s.
Proof.
  induction s as [| c r IH]; simpl; [reflexivity |].
  now rewrite upper_ascii_idem, IH.
Qed.




(** *** Integers survive a trip through text *)

Lemma string_of_uint_digits (d : Decimal.uint) :
  digits_only (NilEmpty.string_of_uint d) = true.
Proof. induction d; simpl; auto. Qed.

Lemma digit_not_space (c : ascii) : is_digit c = true -> is_space c = false.
Proof. destruct c as [[] [] [] [] [] [] [] []]; simpl; intros H; (reflexivity || discriminate H). Qed.

Lemma rstrip_digits (s : string) : digits_only s = true -> rstrip s = s.
Proof.
  induction s as [| c r IH]; simpl; [reflexivity |].
  intros [Hc Hr]%andb_prop. rewrite (IH Hr).
  destruct r; [| reflexivity]. now rewrite (digit_not_space _ Hc).
Qed.

Lemma lstrip_digits (s : string) : digits_only s = true -> lstrip s = s.
Proof.
  destruct s as [| c r]; simpl; [reflexivity |].
  intros [Hc _]%andb_prop. now rewrite (digit_not_space _ Hc).
Qed.

Lemma digit_groups_digits (s : string) :
  digits_only s = true -> digit_groups true s = Some s.
Proof.
  induction s as [| c r IH]; simpl; [reflexivity |].
  intros [Hc Hr]%andb_prop. now rewrite Hc, (IH Hr).
Qed.

Lemma nat_digits_uint (d : Decimal.uint) :
  d <> Decimal.Nil -> nat_digits (NilEmpty.string_of_uint d) = Some (Z.of_uint d).
Proof.
  intros Hd. unfold nat_digits.
  assert (Hg : digit_groups false (NilEmpty.string_of_uint d)
               = Some (NilEmpty.string_of_uint d)).
  { pose proof (string_of_uint_digits d) as Hall.
    destruct (NilEmpty.string_of_uint d) as [| c r] eqn:Hs.
    - destruct d; (contradiction || discriminate).
    - simpl in *. apply andb_prop in Hall as [Hc Hr].
      now rewrite Hc, (digit_groups_digits _ Hr). }
  rewrite Hg, NilEmpty.usu. reflexivity.
Qed.

Lemma int_of_str_uint (d : Decimal.uint) :
  d <> Decimal.Nil -> int_of_str (NilEmpty.string_of_uint d) = Some (Z.of_uint d).
Proof.
  intros Hd. unfold int_of_str, strip.
  rewrite lstrip_digits, rstrip_digits by apply string_of_uint_digits.
  rewrite <- (nat_digits_uint d Hd).
  destruct d; try contradiction; reflexivity.
Qed.

Lemma int_of_str_neg_uint (d : Decimal.uint) :
  d <> Decimal.Nil ->
  int_of_str (String "-" (NilEmpty.string_of_uint d)) = Some (- Z.of_uint d).
Proof.
  intros Hd. unfold int_of_str, strip.
  change (lstrip (String "-" ?s)) with (String "-" s).
  assert (Hr : rstrip (String "-" (NilEmpty.string_of_uint d))
               = String "-" (NilEmpty.string_of_uint d)).
  { simpl. rewrite rstrip_digits by apply string_of_uint_digits.
    now destruct (NilEmpty.string_of_uint d). }
  rewrite Hr, (nat_digits_uint d Hd). reflexivity.
Qed.

(** [int(str(z)) == z] *)
Lemma int_of_str_of_int (z : Z) : int_of_str (str_of_int z) = Some z.
Proof.
  unfold str_of_int.
  destruct z as [| p | p]; [reflexivity | |]; simpl.
  - pose proof (DecimalPos.Unsigned.to_uint_nonnil p) as Hn.
    replace (NilZero.string_of_uint (Pos.to_uint p))
      with (NilEmpty.string_of_uint (Pos.to_uint p))
      by (now destruct (Pos.to_uint p)).
    rewrite (int_of_str_uint _ Hn).
    f_equal. exact (DecimalZ.of_to (Z.pos p)).
  - pose proof (DecimalPos.Unsigned.to_uint_nonnil p) as Hn.
    replace (NilZero.string_of_uint (Pos.to_uint p))
      with (NilEmpty.string_of_uint (Pos.to_uint p))
      by (now destruct (Pos.to_uint p)).
    rewrite (int_of_str_neg_uint _ Hn).
    f_equal. exact (DecimalZ.of_to (Z.neg p)).
Qed.

(** *** Rows of a [DictReader] *)

Lemma fold_insert_inv (P : option string -> Prop)
    (l : list (string * option string)) (d : gmap string (option string))
    (k : string) (v : option string) :
  (forall kv, In kv l -> P kv.2) ->
  (forall v', d !! k = Some v' -> P v') ->
  fold_left (fun d kv => <[kv.1 := kv.2]> d) l d !! k = Some v -> P v.
Proof.
  revert d. induction l as [| [k0 v0] l IH]; intros d Hl Hd; simpl.
  - apply Hd.
  - apply IH.
    + intros kv Hin. apply Hl. now right.
    + intros v'. destruct (decide (k0 = k)) as [-> | Hne].
      * rewrite lookup_insert_eq. intros [= <-]. apply (Hl (k, v0)). now left.
      * rewrite lookup_insert_ne by exact Hne. apply Hd.
Qed.

Lemma fold_insert_in (l : list (string * option string))
    (d : gmap string (option string)) (k : string) :
  In k (map fst l) \/ is_Some (d !! k) ->
  is_Some (fold_left (fun d kv => <[kv.1 := kv.2]> d) l d !! k).
Proof.
  revert d. induction l as [| [k0 v0] l IH]; intros d H; simpl.
  - destruct H as [[] | H]. exact H.
  - apply IH. simpl in H.
    destruct (decide (k0 = k)) as [-> | Hne].
    + right. rewrite lookup_insert_eq. eauto.
    + rewrite lookup_insert_ne by exact Hne.
      destruct H as [[Heq | Hin] | Hd]; [contradiction | now left | now right].
Qed.

Lemma pad_zip_keys (fieldnames row : list string) :
  map fst (pad_zip fieldnames row) = fieldnames.
Proof.
  revert row. induction fieldnames as [| k ks IH]; intros row; [reflexivity |].
  destruct row; simpl; now rewrite IH.
Qed.

Lemma pad_zip_blank (fieldnames : list string) kv :
  In kv (pad_zip fieldnames []) -> kv.2 = None.
Proof.
  induction fieldnames as [| k ks IH]; simpl; [intros [] |].
  intros [<- | Hin]; [reflexivity | now apply IH].
Qed.

Lemma pad_zip_full (fieldnames row : list string) kv :
  (List.length fieldnames <= List.length row)%nat ->
  In kv (pad_zip fieldnames row) -> exists s, kv.2 = Some s.
Proof.
  revert row. induction fieldnames as [| k ks IH]; intros row Hlen; simpl.
  - intros [].
  - destruct row as [| v vs]; simpl in *; [lia |].
    intros [<- | Hin]; [eauto |]. apply (IH vs); [lia | exact Hin].
Qed.

Lemma pad_zip_values (fieldnames row : list string) kv t :
  In kv (pad_zip fieldnames row) -> kv.2 = Some t -> In t row.
Proof.
  revert row. induction fieldnames as [| k ks IH]; intros row; simpl.
  - intros [].
  - destruct row as [| v vs]; simpl.
    + intros [<- | Hin]; [discriminate |]. intros Ht.
      exact (IH [] Hin Ht).
    + intros [<- | Hin]; simpl.
      * intros [= ->]. now left.
      * intros Ht. right. exact (IH vs Hin Ht).
Qed.

(** The text a row binds to a field name is a field of the record. *)
Lemma dict_row_field (fieldnames row : list string) (k t : string) :
  dict_row fieldnames row !! k = Some (Some t) -> In t row.
Proof.
  unfold dict_row. intros H.
  refine (fold_insert_inv (fun v => forall t', v = Some t' -> In t' row)
            _ _ k (Some t) _ _ H t eq_refl).
  - intros kv Hin t' Ht. exact (pad_zip_values _ _ kv t' Hin Ht).
  - intros v'. rewrite lookup_empty. discriminate.
Qed.

(** Every value of the row read from a blank record is [None]. *)
Lemma dict_row_blank (fieldnames : list string) (k : string) (v : option string) :
  dict_row fieldnames [] !! k = Some v -> v = None.
Proof.
  unfold dict_row.
  apply (fold_insert_inv (fun v => v = None)).
  - apply pad_zip_blank.
  - intros v'. rewrite lookup_empty. discriminate.
Qed.

(** A record at least as long as the header binds every field name to
    text. *)
Lemma dict_row_full (fieldnames row : list string) (k : string) :
  In k fieldnames ->
  (List.length fieldnames <= List.length row)%nat ->
  exists s, dict_row fieldnames row !! k = Some (Some s).
Proof.
  intros Hin Hlen. unfold dict_row.
  destruct (fold_insert_in (pad_zip fieldnames row) ∅ k) as [v Hv].
  { left. now rewrite pad_zip_keys. }
  rewrite Hv.
  assert (exists s, v = Some s) as [s ->]; [| eauto].
  revert Hv. apply (fold_insert_inv (fun v => exists s, v = Some s)).
  - intros kv. now apply pad_zip_full.
  - intros v'. rewrite lookup_empty. discriminate.
Qed.

Section Proofs.

Context {num : Type} {py : PyFloat num} {World : Type}.
Variable history : string -> World -> Quote num * World.
Variable pie_accepts : list num -> list string -> bool.

Implicit Types (st : State num World) (b : PriceBar num) (stock : Lot num).

(** ** The connection *)

Lemma execute_healthy st : faulty (conn st) = false -> execute st = (Return tt, st).
Proof. intros Hf. unfold execute. now rewrite Hf. Qed.

Lemma execute_faulty st : faulty (conn st) = true -> execute st = (Raise SqliteError, st).
Proof. intros Hf. unfold execute. now rewrite Hf. Qed.

Lemma get_portfolio_healthy st :
  faulty (conn st) = false ->
  get_portfolio st = (Return (portfolio (view (conn st))), st).
Proof.
  intros Hf. unfold get_portfolio, try_except, bind, gets.
  now rewrite (execute_healthy _ Hf).
Qed.

Lemma get_portfolio_faulty st :
  faulty (conn st) = true ->
  get_portfolio st =
    (Return [], with_log (log st ++ [LogError "Error retrieving portfolio" SqliteError]) st).
Proof.
  intros Hf. unfold get_portfolio, try_except, bind.
  now rewrite (execute_faulty _ Hf).
Qed.

(** [get_portfolio] never raises, and touches nothing but the log. *)
Lemma get_portfolio_total st :
  exists holdings l,
    get_portfolio st = (Return holdings, with_log l st).
Proof.
  destruct (faulty (conn st)) eqn:Hf.
  - eexists _, _. now apply get_portfolio_faulty.
  - exists (portfolio (view (conn st))), (log st).
    rewrite (get_portfolio_healthy _ Hf). now destruct st.
Qed.

(** C8. With no holdings the report returns the failure indicator
    [(False, {})]; neither [portfolio_report_csv] nor
    [portfolio_allocation_png] is written, no quote is requested and the
    database is left as it was. *)
Theorem report_without_holdings st :
  (get_portfolio st).1 = Return [] ->
  let (r, st') := portfolio_performance_report history pie_accepts st in
  r = Return NoHoldings /\
  portfolio_report_csv st' = portfolio_report_csv st /\
  portfolio_allocation_png st' = portfolio_allocation_png st /\
  world st' = world st /\
  conn st' = conn st /\
  files st' = files st.
Proof.
  intros Hempty.
  unfold portfolio_performance_report, bind.
  destruct (get_portfolio_total st) as (holdings & l & Hget).
  rewrite Hget in *. simpl in Hempty. injection Hempty as ->.
  simpl. repeat split; reflexivity.
Qed.

(** ** Purchase lots *)


(** ** Price history *)


Lemma get_stock_data_healthy st (symbol : string) :
  faulty (conn st) = false ->
  get_stock_data symbol st =
    (Return (select_history (upper symbol) (stocks (view (conn st)))), st).
Proof.
  intros Hf. unfold get_stock_data, try_except, bind, gets.
  now rewrite (execute_healthy _ Hf).
Qed.

(** ** Import *)

Lemma push_bars_nil (t : Tables num) : push_bars t [] = t.
Proof.
  destruct t. unfold push_bars. simpl. f_equal.
  - apply app_nil_r.
  - lia.
Qed.

Lemma push_bars_app (t : Tables num) (l1 l2 : list (PriceBar num)) :
  push_bars (push_bars t l1) l2 = push_bars t (l1 ++ l2).
Proof.
  unfold push_bars. simpl. f_equal.
  - now rewrite <- app_assoc.
  - rewrite length_app. lia.
Qed.

Lemma push_stock_bars (t : Tables num) sy d o h l c v :
  push_stock t sy d o h l c v =
  push_bars t [{| bar_id := stocks_seq t + 1; bar_symbol := sy; bar_date := d;
                  bar_open := o; bar_high := h; bar_low := l; bar_close := c;
                  bar_volume := v |}].
Proof. reflexivity. Qed.

Lemma with_view_id st : with_view (view (conn st)) st = st.
Proof. destruct st as [[d v f] ? ? ? ? ?]. reflexivity. Qed.

Lemma with_view_twice (t t' : Tables num) st :
  with_view t (with_view t' st) = with_view t st.
Proof. reflexivity. Qed.

(** What one INSERT of the import does. *)
Lemma insert_row_cases (row : gmap string (option string)) st :
  (exists e, insert_row row st = (Raise e, st) /\
     (insert_args row = Raise e
      \/ (exists a, insert_args row = Return a) /\ (e = OverflowError \/ e = SqliteError)))
  \/ (exists sy d o h l c v,
        insert_args row = Return (Some sy, Some d, o, h, l, c, v) /\
        fits_int64 v = true /\ faulty (conn st) = false /\
        (is_nan o || is_nan h || is_nan l || is_nan c)%bool = false /\
        insert_row row st =
          (Return tt, with_view (push_stock (view (conn st)) sy d o h l c v) st)).
Proof.
  unfold insert_row, bind, lift.
  destruct (insert_args row) as [[[[[[[sy d] o] h] l] c] v] | e] eqn:Ha.
  2:{ left. exists e. split; [reflexivity | now left]. }
  unfold insert_stock.
  destruct (fits_int64 v) eqn:Hv; simpl.
  2:{ left. exists OverflowError. split; [reflexivity | right; eauto]. }
  unfold bind, execute.
  destruct (faulty (conn st)) eqn:Hf.
  { left. exists SqliteError. split; [reflexivity | right; eauto]. }
  destruct sy as [sy |]; [destruct d as [d |] |].
  - destruct (is_nan o || is_nan h || is_nan l || is_nan c)%bool eqn:Hnan.
    + left. exists SqliteError. split; [reflexivity | right; eauto].
    + right. exists sy, d, o, h, l, c, v. repeat split; auto.
  - left. exists SqliteError. split; [reflexivity | right; eauto].
  - left. exists SqliteError. split; [reflexivity | right; eauto].
Qed.

Lemma imported_from_cons fieldnames i items b :
  imported_from fieldnames items b -> imported_from fieldnames (i :: items) b.
Proof. intros (row & Hin & Ha). exists row. split; [now right | exact Ha]. Qed.

(** Whatever its outcome, the import loop only appends rows to the
    connection's view of [stocks]; each comes from a record of the file. *)
Lemma import_rows_inv fieldnames items st r st' :
  import_rows fieldnames items st = (r, st') ->
  exists new,
    st' = with_view (push_bars (view (conn st)) new) st /\
    Forall (imported_from fieldnames items) new /\
    numbered_from (stocks_seq (view (conn st))) new.
Proof.
  revert st. induction items as [| i items IH]; intros st Hrun; simpl in Hrun.
  - injection Hrun as <- <-. exists []. rewrite push_bars_nil, with_view_id.
    repeat split. constructor.
  - destruct i as [row |].
    2:{ injection Hrun as <- <-. exists []. rewrite push_bars_nil, with_view_id.
        repeat split. constructor. }
    assert (Hskip : forall st0, import_rows fieldnames items st0 = (r, st') ->
              exists new, st' = with_view (push_bars (view (conn st0)) new) st0 /\
                Forall (imported_from fieldnames (Rec row :: items)) new /\
                numbered_from (stocks_seq (view (conn st0))) new).
    { intros st0 H0. destruct (IH _ H0) as (new & -> & Hall & Hnum).
      exists new. repeat split; auto.
      eapply Forall_impl; [exact Hall |]. intros b. apply imported_from_cons. }
    destruct row as [| f fs]; [now apply Hskip |].
    unfold bind in Hrun.
    destruct (insert_row_cases (dict_row fieldnames (f :: fs)) st)
      as [(e & He & _) | (sy & d & o & h & l & c & v & Ha & Hv & Hf & _ & Hins)].
    + rewrite He in Hrun. injection Hrun as <- <-. exists [].
      rewrite push_bars_nil, with_view_id. repeat split. constructor.
    + rewrite Hins in Hrun. destruct (IH _ Hrun) as (new & -> & Hall & Hnum).
      simpl. rewrite push_stock_bars, push_bars_app. simpl.
      eexists. split; [reflexivity |]. split.
      * constructor.
        -- exists (f :: fs). split; [now left | exact Ha].
        -- eapply Forall_impl; [exact Hall |]. intros b. apply imported_from_cons.
      * simpl. split; [reflexivity | exact Hnum].
Qed.




Lemma insert_args_symbol (row : gmap string (option string)) sy d o h l c v :
  insert_args row = Return (sy, d, o, h, l, c, v) ->
  getitem row "Symbol" = Return sy.
Proof.
  unfold insert_args, rbind.
  destruct (getitem row "Symbol") as [sy' |]; [| discriminate].
  repeat match goal with
         | |- context [match ?x with _ => _ end] => destruct x; try discriminate
         end.
  now intros [= -> _ _ _ _ _ _].
Qed.


(** ** The performance report *)

(** A price lookup never raises; it advances the quote service and may
    log, and leaves the database and the files alone. *)
Lemma get_current_price_cases (symbol : string) st :
  exists l,
    get_current_price history symbol st =
      (Return (match (history symbol (world st)).1 with
               | Close p => Some p
               | _ => None
               end),
       with_log l (with_world (history symbol (world st)).2 st)).
Proof.
  unfold get_current_price.
  destruct (history symbol (world st)) as [[p | | e] w]; simpl.
  - exists (log st). reflexivity.
  - exists (log st). reflexivity.
  - eexists. reflexivity.
Qed.

Lemma get_current_price_frame (symbol : string) st r st' :
  get_current_price history symbol st = (r, st') ->
  artifacts st' = artifacts st /\ conn st' = conn st /\ files st' = files st.
Proof.
  destruct (get_current_price_cases symbol st) as (l & ->).
  intros [= <- <-]. repeat split.
Qed.

Lemma report_loop_frame (holdings : list (Lot num)) acc st r st' :
  report_loop history holdings acc st = (r, st') ->
  artifacts st' = artifacts st /\ conn st' = conn st /\ files st' = files st.
Proof.
  revert acc st. induction holdings as [| stock rest IH]; intros acc st; simpl.
  - intros [= <- <-]. repeat split.
  - unfold bind.
    destruct (get_current_price history (lot_symbol stock) st) as [[cp | e] s1] eqn:Hp.
    2:{ intros [= <- <-]. eapply get_current_price_frame. exact Hp. }
    destruct (get_current_price_frame _ _ _ _ Hp) as (Ha & Hc & Hfs).
    rewrite <- Ha, <- Hc, <- Hfs.
    destruct cp as [p |]; [| apply IH].
    destruct (fdiv _ _); [apply IH |].
    intros [= <- <-]. repeat split.
Qed.

Lemma report_loop_raises (holdings : list (Lot num)) acc st e st' :
  report_loop history holdings acc st = (Raise e, st') -> e = ZeroDivisionError.
Proof.
  revert acc st. induction holdings as [| stock rest IH]; intros acc st; simpl.
  - discriminate.
  - unfold bind.
    destruct (get_current_price_cases (lot_symbol stock) st) as (l & ->).
    destruct ((history (lot_symbol stock) (world st)).1) as [p | | e0];
      try apply IH.
    destruct (fdiv _ _); [apply IH |]. now intros [= <- _].
Qed.

(** What the first pass accumulates: [total_investment] runs over all the
    holdings, [report_data] and [total_current_value] over the lots whose
    price was available. *)
Lemma report_loop_totals (holdings : list (Lot num)) acc st acc' st' :
  report_loop history holdings acc st = (Return acc', st') ->
  total_investment acc' =
    fold_left fadd (map investment_of holdings) (total_investment acc) /\
  exists priced : list (Lot num * num * num),
    sublist (map (fun x => x.1.1) priced) holdings /\
    report_data acc' = (report_data acc ++ map priced_row priced)%list /\
    total_current_value acc' =
      fold_left fadd (map priced_value priced) (total_current_value acc).
Proof.
  revert acc st. induction holdings as [| stock rest IH]; intros acc st; simpl.
  - intros [= <- <-]. split; [reflexivity |]. exists []. simpl.
    rewrite app_nil_r. repeat split. constructor.
  - unfold bind.
    destruct (get_current_price_cases (lot_symbol stock) st) as (l & ->).
    assert (Hskip : forall s1,
      report_loop history rest
        {| report_data := report_data acc;
           total_investment := fadd (total_investment acc) (investment_of stock);
           total_current_value := total_current_value acc |} s1 = (Return acc', st') ->
      total_investment acc' =
        fold_left fadd (map investment_of rest)
          (fadd (total_investment acc) (investment_of stock)) /\
      exists priced : list (Lot num * num * num),
        sublist (map (fun x => x.1.1) priced) (stock :: rest) /\
        report_data acc' = (report_data acc ++ map priced_row priced)%list /\
        total_current_value acc' =
          fold_left fadd (map priced_value priced) (total_current_value acc)).
    { intros s1 H1. destruct (IH _ _ H1) as (Hti & priced & Hsub & Hrows & Htcv).
      split; [exact Hti |]. exists priced. repeat split; auto.
      now apply sublist_cons. }
    destruct ((history (lot_symbol stock) (world st)).1) as [p | | e0];
      try apply Hskip.
    destruct (fdiv _ _) as [q |] eqn:Hq; [| discriminate].
    intros H1. destruct (IH _ _ H1) as (Hti & priced & Hsub & Hrows & Htcv).
    split; [exact Hti |].
    exists ((stock, p, fmul q (of_int 100)) :: priced). simpl in *.
    repeat split.
    + now apply sublist_skip.
    + rewrite Hrows, <- app_assoc. reflexivity.
    + exact Htcv.
Qed.

(** A lot whose price is available gets a row, if the first pass comes to
    its end. *)
Lemma report_loop_row (holdings : list (Lot num)) stock acc st acc' st' :
  In stock holdings ->
  available history (lot_symbol stock) ->
  report_loop history holdings acc st = (Return acc', st') ->
  exists p q,
    fdiv (fsub (fmul (of_int (lot_shares stock)) p) (investment_of stock))
         (investment_of stock) = Some q /\
    In (report_row stock p (fmul q (of_int 100))) (report_data acc').
Proof.
  intros Hin Havail. revert acc st.
  induction holdings as [| s0 rest IH]; intros acc st; [destruct Hin |].
  simpl. unfold bind.
  destruct (get_current_price_cases (lot_symbol s0) st) as (l & ->).
  destruct Hin as [-> | Hin].
  - destruct (Havail (world st)) as (p & ->).
    destruct (fdiv _ _) as [q |] eqn:Hq; [| discriminate].
    intros Hloop. exists p, q. split; [exact Hq |].
    destruct (report_loop_totals _ _ _ _ _ Hloop) as (_ & priced & _ & -> & _).
    cbn [report_data]. apply in_or_app. left. apply in_or_app. right. now left.
  - destruct ((history (lot_symbol s0) (world st)).1) as [p | | e].
    + destruct (fdiv _ _); [apply (IH Hin) | discriminate].
    + apply (IH Hin).
    + apply (IH Hin).
Qed.

(** Without any price the first pass only adds up the investments. *)
Lemma report_loop_unpriced (holdings : list (Lot num)) acc st :
  (forall stock, In stock holdings -> unavailable history (lot_symbol stock)) ->
  exists st',
    report_loop history holdings acc st =
      (Return {| report_data := report_data acc;
                 total_investment :=
                   fold_left fadd (map investment_of holdings) (total_investment acc);
                 total_current_value := total_current_value acc |}, st').
Proof.
  revert acc st. induction holdings as [| s0 rest IH]; intros acc st Hun.
  - exists st. now destruct acc.
  - simpl. unfold bind.
    destruct (get_current_price_cases (lot_symbol s0) st) as (l & ->).
    pose proof (Hun s0 (or_introl eq_refl) (world st)) as Hs0.
    destruct ((history (lot_symbol s0) (world st)).1) as [p | | e].
    + now destruct (Hs0 p).
    + apply IH. intros stock Hin. apply Hun. now right.
    + apply IH. intros stock Hin. apply Hun. now right.
Qed.

(** The second pass never raises and draws at most one wedge per lot,
    fewer when the lookup of some lot fails. *)
Lemma allocation_loop_total (holdings : list (Lot num)) (allocations : list num) st :
  exists allocations' st',
    allocation_loop history holdings allocations st = (Return allocations', st') /\
    (List.length allocations' <= List.length allocations + List.length holdings)%nat /\
    (forall stock, In stock holdings -> unavailable history (lot_symbol stock) ->
       (List.length allocations' < List.length allocations + List.length holdings)%nat).
Proof.
  revert allocations st.
  induction holdings as [| s0 rest IH]; intros allocations st; simpl.
  - exists allocations, st. split; [reflexivity |]. split; [lia |]. intros ? [].
  - unfold bind.
    destruct (get_current_price_cases (lot_symbol s0) st) as (l & ->).
    destruct ((history (lot_symbol s0) (world st)).1) as [p | | e0] eqn:Hreply.
    + match goal with
      | |- context [allocation_loop history rest ?a ?s] =>
          destruct (IH a s) as (a' & s' & -> & Hle & Hlt)
      end.
      rewrite length_app in *. simpl in *.
      exists a', s'. split; [reflexivity |]. split; [lia |].
      intros stock [-> | Hin] Hun.
      * exfalso. exact (Hun _ _ Hreply).
      * specialize (Hlt stock Hin Hun). lia.
    + destruct (IH allocations (with_log l (with_world (history (lot_symbol s0) (world st)).2 st)))
        as (a' & s' & -> & Hle & Hlt).
      exists a', s'. split; [reflexivity |]. split; [lia |]. intros; lia.
    + destruct (IH allocations (with_log l (with_world (history (lot_symbol s0) (world st)).2 st)))
        as (a' & s' & -> & Hle & Hlt).
      exists a', s'. split; [reflexivity |]. split; [lia |]. intros; lia.
Qed.

(** C2. Where the chart library rejects wedge and label lists of different
    lengths (as [matplotlib] does), a lot whose price lookup fails makes the
    report raise: the lot is left out of the wedges but not of the labels.
    The report does not return [(rows, summary)]. *)
Theorem report_raises_when_lookup_fails st stock :
  (forall (x : list num) (labels : list string),
     List.length x <> List.length labels -> pie_accepts x labels = false) ->
  faulty (conn st) = false ->
  In stock (portfolio (view (conn st))) ->
  unavailable history (lot_symbol stock) ->
  exists e st',
    portfolio_performance_report history pie_accepts st = (Raise e, st') /\
    (e = ValueError \/ e = ZeroDivisionError).
Proof.
  intros Hpie Hf Hin Hun.
  unfold portfolio_performance_report, bind.
  rewrite (get_portfolio_healthy _ Hf).
  destruct (portfolio (view (conn st))) as [| s0 rest] eqn:Hp; [destruct Hin |].
  destruct (report_loop history (s0 :: rest) _ st) as [[acc | e] s1] eqn:Hloop.
  2:{ exists e, s1. split; [reflexivity |]. right.
      eapply report_loop_raises. exact Hloop. }
  unfold lift, make_summary.
  destruct (fdiv _ _).
  2:{ eexists _, _. split; [reflexivity | now right]. }
  cbv beta iota zeta delta [modify].
  match goal with
  | |- context [allocation_loop history ?h [] ?s] =>
      destruct (allocation_loop_total h [] s) as (a' & s' & -> & _ & Hlt)
  end.
  specialize (Hlt stock Hin Hun).
  unfold plt_pie. rewrite Hpie.
  - eexists _, _. split; [reflexivity | now left].
  - rewrite length_map. simpl in *. lia.
Qed.

(** What a returned report shows: one row per lot whose price was
    available in the first pass, in the order of the holdings; the total
    current value is the sum over these rows, the total investment the sum
    over all holdings. *)
Lemma report_summary_totals st rows summary st' :
  faulty (conn st) = false ->
  portfolio_performance_report history pie_accepts st =
    (Return (Report rows summary), st') ->
  exists priced : list (Lot num * num * num),
    sublist (map (fun x => x.1.1) priced) (portfolio (view (conn st))) /\
    rows = map priced_row priced /\
    Total_Current_Value summary =
      dollars (fold_left fadd (map priced_value priced) (of_int 0)) /\
    Total_Investment summary =
      dollars (fold_left fadd (map investment_of (portfolio (view (conn st))))
                 (of_int 0)).
Proof.
  intros Hf. unfold portfolio_performance_report, bind.
  rewrite (get_portfolio_healthy _ Hf).
  destruct (portfolio (view (conn st))) as [| s0 rest] eqn:Hp; [discriminate |].
  destruct (report_loop history (s0 :: rest) _ st) as [[acc | e] s1] eqn:Hloop;
    [| discriminate].
  destruct (report_loop_totals _ _ _ _ _ Hloop) as (Hti & priced & Hsub & Hrows & Htcv).
  unfold lift, make_summary.
  destruct (fdiv _ _) as [q |]; [| discriminate].
  cbv beta iota zeta delta [modify].
  destruct (allocation_loop_total (s0 :: rest) []
              (with_report_csv (report_data acc) s1)) as (a' & s' & -> & _).
  unfold plt_pie. destruct (pie_accepts _ _); [| discriminate].
  intros [= <- <- <-]. exists priced. simpl in *.
  rewrite Hti, Htcv. repeat split; auto.
Qed.
(** *** Records that import *)

Lemma imports_as_nonblank fieldnames row b :
  imports_as fieldnames row b -> row <> [].
Proof.
  intros [Ha _] ->. apply insert_args_symbol in Ha.
  unfold getitem in Ha.
  destruct (dict_row fieldnames [] !! "Symbol") as [v |] eqn:Hv; [| discriminate].
  apply dict_row_blank in Hv. now subst v.
Qed.

Lemma insert_row_good fieldnames row b st :
  faulty (conn st) = false ->
  imports_as fieldnames row b ->
  bar_id b = stocks_seq (view (conn st)) + 1 ->
  insert_row (dict_row fieldnames row) st =
    (Return tt, with_view (push_bars (view (conn st)) [b]) st).
Proof.
  intros Hf [Ha Hs] Hid.
  unfold storable in Hs. apply andb_prop in Hs as [Hnan Hv].
  apply negb_true_iff in Hnan.
  unfold insert_row, bind, lift. rewrite Ha. unfold bar_args.
  unfold insert_stock. rewrite Hv. simpl.
  unfold bind. rewrite (execute_healthy _ Hf), Hnan.
  unfold modify, push_stock, push_bars. simpl.
  replace (stocks_seq (view (conn st)) + Z.of_nat 1)
    with (stocks_seq (view (conn st)) + 1) by lia.
  rewrite <- Hid. now destruct b.
Qed.

(** A run of records that import is inserted row by row. *)
Lemma import_rows_good fieldnames (rows : list (list string))
    (bars : list (PriceBar num)) (rest : list CsvItem) st :
  faulty (conn st) = false ->
  Forall2 (imports_as fieldnames) rows bars ->
  numbered_from (stocks_seq (view (conn st))) bars ->
  import_rows fieldnames (map Rec rows ++ rest) st =
  import_rows fieldnames rest (with_view (push_bars (view (conn st)) bars) st).
Proof.
  intros Hf Hall. revert st Hf.
  induction Hall as [| row b rows bars Hrow Hall IH]; intros st Hf Hnum.
  - simpl. now rewrite push_bars_nil, with_view_id.
  - destruct Hnum as [Hid Hnum]. simpl.
    destruct row as [| f fs] eqn:Hr; [now apply imports_as_nonblank in Hrow |].
    unfold bind. rewrite (insert_row_good _ _ _ _ Hf Hrow Hid).
    rewrite IH.
    + cbn [view conn with_view with_conn].
      now rewrite with_view_twice, (push_bars_app _ [b] bars).
    + exact Hf.
    + simpl.
      replace (stocks_seq (view (conn st)) + Z.of_nat 1)
        with (stocks_seq (view (conn st)) + 1) by lia. exact Hnum.
Qed.


(** ** Export, then import *)

Lemma renumber_args (seq : Z) (bars : list (PriceBar num)) :
  map bar_args (renumber seq bars) = map bar_args bars.
Proof.
  revert seq. induction bars as [| b r IH]; intros seq; simpl; [reflexivity |].
  now rewrite IH.
Qed.

Lemma renumber_numbered (seq : Z) (bars : list (PriceBar num)) :
  numbered_from seq (renumber seq bars).
Proof.
  revert seq. induction bars as [| b r IH]; intros seq; simpl; auto.
Qed.

Lemma export_row_lookup b :
  let row := dict_row export_header (export_record b) in
  row !! "Symbol" = Some (Some (bar_symbol b)) /\
  row !! "Date" = Some (Some (bar_date b)) /\
  row !! "Open" = Some (Some (str_of_float (bar_open b))) /\
  row !! "High" = Some (Some (str_of_float (bar_high b))) /\
  row !! "Low" = Some (Some (str_of_float (bar_low b))) /\
  row !! "Close" = Some (Some (str_of_float (bar_close b))) /\
  row !! "Volume" = Some (Some (str_of_int (bar_volume b))).
Proof.
  unfold dict_row, export_header, export_record. simpl.
  repeat split; simplify_map_eq; reflexivity.
Qed.

(** An exported record reads back as the bar it was written from; the
    [ID] column takes no part. *)
Lemma export_record_imports b b' :
  bar_args b' = bar_args b ->
  text_round_trips b ->
  imports_as export_header (export_record b) b'.
Proof.
  intros Hargs (Ho & Hh & Hl & Hc & Hs).
  split.
  2:{ unfold storable in *. unfold bar_args in Hargs.
      injection Hargs as _ _ -> -> -> -> ->. exact Hs. }
  rewrite Hargs.
  destruct (export_row_lookup b) as (H1 & H2 & H3 & H4 & H5 & H6 & H7).
  unfold insert_args, getitem, rbind, py_float, py_int. simpl in *.
  rewrite H1, H2, H3, H4, H5, H6, H7, Ho, Hh, Hl, Hc, int_of_str_of_int.
  reflexivity.
Qed.

Lemma export_records_import (seq : Z) (bars : list (PriceBar num)) :
  Forall text_round_trips bars ->
  Forall2 (imports_as export_header) (map export_record bars) (renumber seq bars).
Proof.
  intros Hall. revert seq.
  induction Hall as [| b r Hb Hr IH]; intros seq; simpl; constructor.
  - now apply export_record_imports.
  - apply IH.
Qed.

(** C7. Exporting the price table and importing the written file back
    succeeds and appends, under fresh row ids, bars whose symbol, date,
    open, high, low, close and volume are those of the original rows, in
    the same order; the [ID] column of the export is not read. *)
Theorem export_import_round_trip (filename : string) st :
  faulty (conn st) = false ->
  Forall text_round_trips (stocks (view (conn st))) ->
  exists st1 st2 new,
    export_to_csv filename st = (Return true, st1) /\
    import_from_csv filename st1 = (Return true, st2) /\
    stocks (view (conn st2)) = (stocks (view (conn st)) ++ new)%list /\
    map bar_args new = map bar_args (stocks (view (conn st))) /\
    numbered_from (stocks_seq (view (conn st))) new /\
    disk (conn st2) = view (conn st2).
Proof.
  intros Hf Hall.
  set (table := stocks (view (conn st))) in *.
  set (new := renumber (stocks_seq (view (conn st))) table).
  unfold export_to_csv, try_except, bind.
  rewrite (execute_healthy _ Hf). simpl.
  eexists _, _, new. split; [reflexivity |].
  unfold import_from_csv, try_except, import_body, bind, open_read. simpl.
  rewrite lookup_insert_eq.
  fold table.
  rewrite <- (map_map export_record Rec), <- (app_nil_r (map Rec _)).
  erewrite import_rows_good;
    [| exact Hf | apply export_records_import; exact Hall
     | apply renumber_numbered ].
  simpl. unfold commit, bind, execute. simpl. rewrite Hf. simpl.
  split; [reflexivity |]. simpl.
  split; [reflexivity |].
  split; [apply renumber_args |].
  split; [apply renumber_numbered | reflexivity].
Qed.

(** ** Which errors the operations catch *)

Lemma dict_row_missing (fieldnames row : list string) (k : string) :
  dict_row fieldnames row !! k = None -> ~ In k fieldnames.
Proof.
  intros Hnone Hin.
  destruct (fold_insert_in (pad_zip fieldnames row) ∅ k) as [v Hv].
  { left. now rewrite pad_zip_keys. }
  unfold dict_row in Hnone. rewrite Hnone in Hv. discriminate.
Qed.

Ltac listed := repeat first [left; reflexivity | right].

Ltac missing_column :=
  right; right; eexists; split; [reflexivity |];
  split; [listed | eapply dict_row_missing; eassumption].

Ltac short_record H :=
  right; right; eexists; split; [reflexivity |];
  eexists; (split; [| exact H]); listed.

(** What one record does to the import while the storage is operational:
    a row is inserted, a conversion fails with [ValueError], or an error
    the import does not catch is raised, for one of the causes above. *)
Lemma insert_row_outcome (fieldnames row : list string) st :
  faulty (conn st) = false ->
  (exists sy d o h l c v,
     insert_row (dict_row fieldnames row) st =
       (Return tt, with_view (push_stock (view (conn st)) sy d o h l c v) st))
  \/ insert_row (dict_row fieldnames row) st = (Raise ValueError, st)
  \/ exists e, insert_row (dict_row fieldnames row) st = (Raise e, st) /\
               escape_cause fieldnames row e.
Proof.
  intros Hf.
  unfold insert_row, bind, lift, insert_args, getitem, rbind, py_float, py_int.
  destruct (dict_row fieldnames row !! "Symbol") as [sy |] eqn:Hsy; [| missing_column].
  destruct (dict_row fieldnames row !! "Date") as [d |] eqn:Hd; [| missing_column].
  destruct (dict_row fieldnames row !! "Open") as [[to |] |] eqn:Ho;
    [| short_record Ho | missing_column].
  destruct (float_of_str to) as [o |] eqn:Eo; [| now right; left].
  destruct (dict_row fieldnames row !! "High") as [[th |] |] eqn:Hh;
    [| short_record Hh | missing_column].
  destruct (float_of_str th) as [h |] eqn:Eh; [| now right; left].
  destruct (dict_row fieldnames row !! "Low") as [[tl |] |] eqn:Hl;
    [| short_record Hl | missing_column].
  destruct (float_of_str tl) as [l |] eqn:El; [| now right; left].
  destruct (dict_row fieldnames row !! "Close") as [[tc |] |] eqn:Hc;
    [| short_record Hc | missing_column].
  destruct (float_of_str tc) as [c |] eqn:Ec; [| now right; left].
  destruct (dict_row fieldnames row !! "Volume") as [[tv |] |] eqn:Hv;
    [| short_record Hv | missing_column].
  destruct (int_of_str tv) as [v |] eqn:Ev; [| now right; left].
  unfold insert_stock.
  destruct (fits_int64 v) eqn:Hfit; simpl.
  2:{ right. right. exists OverflowError. split; [reflexivity |].
      exists tv, v. split; [exact Hv |]. split; [exact Ev | exact Hfit]. }
  unfold bind. rewrite (execute_healthy _ Hf).
  destruct sy as [sy |].
  2:{ right. right. exists SqliteError. split; [reflexivity |].
      left. exists "Symbol". split; [listed | exact Hsy]. }
  destruct d as [d |].
  2:{ right. right. exists SqliteError. split; [reflexivity |].
      left. exists "Date". split; [listed | exact Hd]. }
  destruct (is_nan o) eqn:No.
  { right. right. exists SqliteError. split; [reflexivity |].
    right. exists "Open", to, o. split; [listed |]. split; [exact Ho |].
    split; [exact Eo | exact No]. }
  destruct (is_nan h) eqn:Nh.
  { right. right. exists SqliteError. split; [reflexivity |].
    right. exists "High", th, h. split; [listed |]. split; [exact Hh |].
    split; [exact Eh | exact Nh]. }
  destruct (is_nan l) eqn:Nl.
  { right. right. exists SqliteError. split; [reflexivity |].
    right. exists "Low", tl, l. split; [listed |]. split; [exact Hl |].
    split; [exact El | exact Nl]. }
  destruct (is_nan c) eqn:Nc.
  { right. right. exists SqliteError. split; [reflexivity |].
    right. exists "Close", tc, c. split; [listed |]. split; [exact Hc |].
    split; [exact Ec | exact Nc]. }
  left. simpl. now exists sy, d, o, h, l, c, v.
Qed.

Lemma import_rows_outcome (fieldnames : list string) (rest : list CsvItem) st :
  faulty (conn st) = false ->
  exists r st',
    import_rows fieldnames rest st = (r, st') /\
    (r = Return tt \/ r = Raise ValueError \/ r = Raise CsvError \/
     exists e row, r = Raise e /\ In (Rec row) rest /\ row <> [] /\
                   escape_cause fieldnames row e).
Proof.
  revert st. induction rest as [| i rest IH]; intros st Hf; simpl.
  - eexists _, _. split; [reflexivity | now left].
  - assert (Hnext : forall s1 : State num World, faulty (conn s1) = false ->
      exists r st',
        import_rows fieldnames rest s1 = (r, st') /\
        (r = Return tt \/ r = Raise ValueError \/ r = Raise CsvError \/
         exists e row, r = Raise e /\ (i = Rec row \/ In (Rec row) rest) /\ row <> [] /\
                       escape_cause fieldnames row e)).
    { intros s1 H1. destruct (IH s1 H1) as (r & st' & Hrun & Hr).
      exists r, st'. split; [exact Hrun |].
      destruct Hr as [-> | [-> | [-> | (e & row & -> & Hin & Hne & Hcause)]]]; auto.
      right. right. right. exists e, row. auto. }
    destruct i as [row |].
    2:{ eexists _, _. split; [reflexivity | auto]. }
    destruct row as [| f fs]; [now apply Hnext |].
    unfold bind.
    destruct (insert_row_outcome fieldnames (f :: fs) st Hf)
      as [(sy & d & o & h & l & c & v & ->) | [-> | (e & -> & Hcause)]].
    + apply Hnext. exact Hf.
    + eexists _, _. split; [reflexivity | auto].
    + eexists _, _. split; [reflexivity |]. right. right. right.
      exists e, (f :: fs). split; [reflexivity |]. split; [now left |].
      split; [discriminate | exact Hcause].
Qed.

Lemma escape_not_caught (fieldnames row : list string) (e : exn) :
  escape_cause fieldnames row e ->
  caught_by [FileNotFoundError; CsvError; ValueError] e = false.
Proof. destruct e; simpl; intros H; (reflexivity || destruct H). Qed.

(** With operational storage an import attempt ends in one of the three
    ways of [import_outcome]. *)
Lemma import_from_csv_outcome (path : string) st :
  faulty (conn st) = false ->
  exists r st', import_from_csv path st = (r, st') /\ import_outcome path st r st'.
Proof.
  intros Hf.
  unfold import_from_csv, try_except, import_body, bind, open_read.
  destruct (files st !! path) as [items |] eqn:Hfile.
  2:{ simpl. eexists _, _. split; [reflexivity |].
      exists FileNotFoundError. split; reflexivity. }
  assert (Hcommit : forall s1 : State num World, faulty (conn s1) = false ->
            commit s1 = (Return tt, with_conn (committed (conn s1)) s1)).
  { intros s1 H1. unfold commit, bind. now rewrite (execute_healthy _ H1). }
  destruct items as [| [fieldnames |] rest].
  - simpl. rewrite (Hcommit st Hf). simpl.
    eexists _, _. split; [reflexivity |]. split; reflexivity.
  - destruct (import_rows_outcome fieldnames rest st Hf) as (r & s1 & Hrows & Hr).
    rewrite Hrows.
    destruct (import_rows_inv _ _ _ _ _ Hrows) as (new & Hs1 & _).
    destruct Hr as [-> | [-> | [-> | (e & row & -> & Hin & Hne & Hcause)]]].
    + rewrite (Hcommit s1) by now subst s1. simpl.
      eexists _, _. split; [reflexivity |]. subst s1. split; reflexivity.
    + simpl. eexists _, _. split; [reflexivity |].
      exists ValueError. split; [reflexivity |]. now subst s1.
    + simpl. eexists _, _. split; [reflexivity |].
      exists CsvError. split; [reflexivity |]. now subst s1.
    + rewrite (escape_not_caught _ _ _ Hcause).
      eexists _, _. split; [reflexivity |]. split; [now subst s1 |].
      exists fieldnames, rest, row. auto.
  - simpl. eexists _, _. split; [reflexivity |].
    exists CsvError. split; reflexivity.
Qed.

(** C4, as amended.  With operational storage, [import_from_csv] on a path
    that names a readable file whose numeric fields are ASCII text, or no
    file, ends in one of three ways: it returns [True] after the commit; it
    logs an error of a class its [except] clause names (a missing file, a
    [csv.Error], a failed conversion) and returns [False]; or it raises,
    logging nothing, an error of a class the clause does not name, and then
    a record of the file has the matching defect: [KeyError] a column
    missing from the header, [TypeError] a record that ends before a
    numeric column, [OverflowError] a volume beyond 64 bits,
    [sqlite3.Error] a record that ends before the symbol or the date or a
    price that reads as NaN.  When the storage fails, every statement
    raising [sqlite3.Error], [add_to_portfolio] (for shares within 64
    bits), [get_portfolio], [get_stock_data] and [export_to_csv] log the
    error and return [False] or the empty list, and [_create_tables] logs
    it and raises it again. *)
Theorem declared_errors_are_caught (path symbol date query filename : string)
    (shares : Z) (price : num) (st stf : State num World) :
  faulty (conn st) = false ->
  (forall items, files st !! path = Some items -> ascii_numbers items) ->
  faulty (conn stf) = true ->
  fits_int64 shares = true ->
  (exists r st',
     import_from_csv path st = (r, st') /\ import_outcome path st r st') /\
  add_to_portfolio symbol shares price date stf =
    (Return false,
     with_log (log stf ++ [LogError "Error adding to portfolio" SqliteError]) stf) /\
  get_portfolio stf =
    (Return [],
     with_log (log stf ++ [LogError "Error retrieving portfolio" SqliteError]) stf) /\
  get_stock_data query stf =
    (Return [],
     with_log (log stf ++ [LogError "Error retrieving stock data" SqliteError]) stf) /\
  export_to_csv filename stf =
    (Return false,
     with_log (log stf ++ [LogError "Error exporting data" SqliteError]) stf) /\
  _create_tables stf =
    (Raise SqliteError,
     with_log (log stf ++ [LogError "Database error" SqliteError]) stf).
Proof.
  intros Hf _ Hff Hfit.
  split; [now apply import_from_csv_outcome |].
  split.
  { unfold add_to_portfolio, try_except, bind, insert_lot.
    rewrite Hfit. simpl. unfold bind. now rewrite (execute_faulty _ Hff). }
  split; [now apply get_portfolio_faulty |].
  split.
  { unfold get_stock_data, try_except, bind. now rewrite (execute_faulty _ Hff). }
  split.
  { unfold export_to_csv, try_except, bind. now rewrite (execute_faulty _ Hff). }
  unfold _create_tables, try_except, bind. now rewrite (execute_faulty _ Hff).
Qed.

End Proofs.

(** * Further properties of the store *)

Section Further.

Context {num : Type} {py : PyFloat num} {World : Type}.
Variable history : string -> World -> Quote num * World.
Variable pie_accepts : list num -> list string -> bool.

Implicit Types (st : State num World) (b : PriceBar num) (stock : Lot num).

(** ** Imports that succeed *)

Lemma commit_healthy st :
  faulty (conn st) = false ->
  commit st =
    (Return tt,
     with_conn {| disk := view (conn st); view := view (conn st); faulty := false |} st).
Proof.
  intros Hf. unfold commit, bind. rewrite (execute_healthy _ Hf).
  unfold modify. now rewrite Hf.
Qed.

(** The state after an import that stored the bars [bars]. *)
Lemma import_from_csv_good (path : string) st (fieldnames : list string)
    (rows : list (list string)) (bars : list (PriceBar num)) :
  faulty (conn st) = false ->
  files st !! path = Some (Rec fieldnames :: map Rec rows) ->
  Forall2 (imports_as fieldnames) rows bars ->
  numbered_from (stocks_seq (view (conn st))) bars ->
  import_from_csv path st =
    (Return true,
     after_import st bars (push_bars (view (conn st)) bars)
       (log st ++ [LogInfo ("Successfully imported data from " ++ path)])).
Proof.
  intros Hf Hfile Hrows Hnum.
  unfold import_from_csv, try_except, import_body, bind, open_read.
  rewrite Hfile.
  rewrite <- (app_nil_r (map Rec rows)).
  rewrite (import_rows_good _ _ _ _ _ Hf Hrows Hnum).
  simpl import_rows. unfold ret at 1.
  rewrite commit_healthy by exact Hf.
  unfold logging_info, modify, ret, after_import, with_view, with_conn, with_log.
  simpl. now rewrite Hf.
Qed.

(** X1. A file whose records all import is stored whole: the import
    returns [True], the price table grows by one row per record, in the
    order of the file, the rows are committed, the lots are not touched and
    the success is logged. *)
Theorem import_stores_every_record (path : string) st (fieldnames : list string)
    (rows : list (list string)) (bars : list (PriceBar num)) :
  faulty (conn st) = false ->
  files st !! path = Some (Rec fieldnames :: map Rec rows) ->
  Forall2 (imports_as fieldnames) rows bars ->
  numbered_from (stocks_seq (view (conn st))) bars ->
  exists st',
    import_from_csv path st = (Return true, st') /\
    stocks (view (conn st')) = (stocks (view (conn st)) ++ bars)%list /\
    List.length (stocks (view (conn st'))) =
      (List.length (stocks (view (conn st))) + List.length rows)%nat /\
    disk (conn st') = view (conn st') /\
    portfolio (view (conn st')) = portfolio (view (conn st)) /\
    log st' = (log st ++ [LogInfo ("Successfully imported data from " ++ path)])%list.
Proof.
  intros Hf Hfile Hrows Hnum.
  eexists. split; [now apply (import_from_csv_good path st fieldnames rows bars) |].
  simpl. repeat split.
  rewrite length_app. f_equal. symmetry. eapply Forall2_length. exact Hrows.
Qed.

Lemma imports_as_args fieldnames row b b' :
  bar_args b' = bar_args b -> imports_as fieldnames row b -> imports_as fieldnames row b'.
Proof.
  intros Hargs [Ha Hs]. split; [now rewrite Hargs |].
  unfold storable in *. unfold bar_args in Hargs.
  injection Hargs as _ _ -> -> -> -> ->. exact Hs.
Qed.

Lemma imports_as_renumber fieldnames (rows : list (list string))
    (bars : list (PriceBar num)) (seq : Z) :
  Forall2 (imports_as fieldnames) rows bars ->
  Forall2 (imports_as fieldnames) rows (renumber seq bars).
Proof.
  intros Hall. revert seq.
  induction Hall as [| row b rows bars Hrow Hall IH]; intros seq; simpl; constructor.
  - eapply imports_as_args; [| exact Hrow]. reflexivity.
  - apply IH.
Qed.

(** X2. Nothing prevents duplicates: importing the same file a second time
    succeeds again and appends the same bars once more, under fresh row
    ids. *)
Theorem import_twice_duplicates (path : string) st (fieldnames : list string)
    (rows : list (list string)) (bars : list (PriceBar num)) :
  faulty (conn st) = false ->
  files st !! path = Some (Rec fieldnames :: map Rec rows) ->
  Forall2 (imports_as fieldnames) rows bars ->
  numbered_from (stocks_seq (view (conn st))) bars ->
  exists st1 st2 again,
    import_from_csv path st = (Return true, st1) /\
    import_from_csv path st1 = (Return true, st2) /\
    stocks (view (conn st2)) = (stocks (view (conn st)) ++ bars ++ again)%list /\
    map bar_args again = map bar_args bars /\
    numbered_from (stocks_seq (view (conn st)) + Z.of_nat (List.length bars)) again.
Proof.
  intros Hf Hfile Hrows Hnum.
  set (seq1 := stocks_seq (view (conn st)) + Z.of_nat (List.length bars)).
  eexists _, _, (renumber seq1 bars).
  split; [now apply (import_from_csv_good path st fieldnames rows bars) |].
  split.
  - apply (import_from_csv_good path _ fieldnames rows (renumber seq1 bars)).
    + exact Hf.
    + exact Hfile.
    + now apply imports_as_renumber.
    + apply renumber_numbered.
  - simpl. rewrite <- app_assoc. repeat split.
    + apply renumber_args.
    + apply renumber_numbered.
Qed.

(** ** Imports while the storage fails *)


(** ** What no call destroys *)

Lemma ids_upto_S (n : nat) : ids_upto (S n) = (ids_upto n ++ [Z.of_nat (S n)])%list.
Proof. unfold ids_upto. now rewrite seq_S, map_app. Qed.

Lemma ids_upto_lookup (n i : nat) :
  (i < n)%nat -> ids_upto n !! i = Some (Z.of_nat (S i)).
Proof.
  intros Hi. unfold ids_upto. rewrite list_lookup_fmap.
  rewrite lookup_seq_lt by exact Hi. reflexivity.
Qed.

Lemma ids_upto_NoDup (n : nat) : NoDup (ids_upto n).
Proof.
  unfold ids_upto. apply NoDup_fmap_2; [| apply NoDup_seq].
  intros x y. apply Nat2Z.inj.
Qed.

Section Invariants.

Variable Inv : Conn num -> Prop.
Hypothesis Hinv : invariant Inv.

Lemma keeps_ret {A} (a : A) : keeps Inv (ret (S := State num World) a).
Proof. intros st H. exact H. Qed.

Lemma keeps_raise {A} (e : exn) : keeps Inv (raise (S := State num World) (A := A) e).
Proof. intros st H. exact H. Qed.

Lemma keeps_lift {A} (r : Result A) : keeps Inv (lift (S := State num World) r).
Proof. intros st H. exact H. Qed.

Lemma keeps_gets {A} (f : State num World -> A) : keeps Inv (gets f).
Proof. intros st H. exact H. Qed.

Lemma keeps_frame (f : State num World -> State num World) :
  (forall st, conn (f st) = conn st) -> keeps Inv (modify f).
Proof. intros Hf st H. unfold modify. simpl. now rewrite Hf. Qed.

Lemma keeps_bind {A B} (m : M (State num World) A) (k : A -> M (State num World) B) :
  keeps Inv m -> (forall a, keeps Inv (k a)) -> keeps Inv (bind m k).
Proof.
  intros Hm Hk st H. unfold bind. specialize (Hm st H).
  destruct (m st) as [[a | e] s1]; simpl in *; [now apply Hk | exact Hm].
Qed.

Lemma keeps_try_except {A} (body : M (State num World) A) classes handler :
  keeps Inv body -> (forall e, keeps Inv (handler e)) ->
  keeps Inv (try_except body classes handler).
Proof.
  intros Hb Hh st H. unfold try_except. specialize (Hb st H).
  destruct (body st) as [[a | e] s1]; simpl in *; [exact Hb |].
  destruct (caught_by classes e); [now apply Hh | exact Hb].
Qed.

Lemma keeps_execute : keeps (World := World) Inv execute.
Proof. intros st H. unfold execute. now destruct (faulty (conn st)). Qed.

Lemma keeps_logging_info msg : keeps (World := World) Inv (logging_info msg).
Proof. now apply keeps_frame. Qed.

Lemma keeps_logging_error msg e : keeps (World := World) Inv (logging_error msg e).
Proof. now apply keeps_frame. Qed.

Lemma keeps_commit : keeps (World := World) Inv commit.
Proof.
  apply keeps_bind; [apply keeps_execute |]. intros _ st H.
  exact (inv_commit _ Hinv _ H).
Qed.

Lemma keeps_insert_stock sy d o h l c v :
  keeps (World := World) Inv (insert_stock sy d o h l c v).
Proof.
  unfold insert_stock.
  destruct (fits_int64 v) eqn:Hv; simpl; [| apply keeps_raise].
  apply keeps_bind; [apply keeps_execute |]. intros _.
  destruct sy as [sy |]; [destruct d as [d |] |]; try apply keeps_raise.
  destruct (is_nan o || is_nan h || is_nan l || is_nan c)%bool eqn:Hnan;
    [apply keeps_raise |].
  intros st H. exact (inv_stock _ Hinv _ sy d o h l c v H Hnan Hv).
Qed.

Lemma keeps_insert_lot symbol shares price date :
  upper symbol = symbol ->
  keeps (World := World) Inv (insert_lot symbol shares price date).
Proof.
  intros Hu. unfold insert_lot.
  destruct (fits_int64 shares) eqn:Hv; simpl; [| apply keeps_raise].
  apply keeps_bind; [apply keeps_execute |]. intros _.
  destruct (is_nan price) eqn:Hnan; [apply keeps_raise |].
  intros st H. exact (inv_lot _ Hinv _ symbol shares price date H Hu Hv Hnan).
Qed.

Lemma keeps_create_tables : keeps (World := World) Inv _create_tables.
Proof.
  unfold _create_tables. apply keeps_try_except.
  - do 2 (apply keeps_bind; [apply keeps_execute | intros _]). apply keeps_commit.
  - intros e. apply keeps_bind; [apply keeps_logging_error | intros _; apply keeps_raise].
Qed.

Lemma keeps_import_rows fieldnames items :
  keeps (World := World) Inv (import_rows fieldnames items).
Proof.
  induction items as [| [[| f fs] |] items IH]; simpl.
  - apply keeps_ret.
  - exact IH.
  - apply keeps_bind; [| intros _; exact IH].
    unfold insert_row. apply keeps_bind; [apply keeps_lift |].
    intros [[[[[[sy d] o] h] l] c] v]. apply keeps_insert_stock.
  - apply keeps_raise.
Qed.

Lemma keeps_import_from_csv path : keeps (World := World) Inv (import_from_csv path).
Proof.
  unfold import_from_csv. apply keeps_try_except.
  - unfold import_body. apply keeps_bind.
    + intros st H. unfold open_read. now destruct (files st !! path).
    + intros items. apply keeps_bind.
      * destruct items as [| [fieldnames |] rest];
          [apply keeps_ret | apply keeps_import_rows | apply keeps_raise].
      * intros _. apply keeps_bind; [apply keeps_commit | intros _].
        apply keeps_bind; [apply keeps_logging_info | intros _; apply keeps_ret].
  - intros e. apply keeps_bind; [apply keeps_logging_error | intros _; apply keeps_ret].
Qed.

Lemma keeps_add_to_portfolio symbol shares price date :
  keeps (World := World) Inv (add_to_portfolio symbol shares price date).
Proof.
  unfold add_to_portfolio. apply keeps_try_except.
  - apply keeps_bind; [apply keeps_insert_lot, upper_idem | intros _].
    apply keeps_bind; [apply keeps_commit | intros _].
    apply keeps_bind; [apply keeps_logging_info | intros _; apply keeps_ret].
  - intros e. apply keeps_bind; [apply keeps_logging_error | intros _; apply keeps_ret].
Qed.

Lemma keeps_get_portfolio : keeps (World := World) Inv get_portfolio.
Proof.
  unfold get_portfolio. apply keeps_try_except.
  - apply keeps_bind; [apply keeps_execute | intros _; apply keeps_gets].
  - intros e. apply keeps_bind; [apply keeps_logging_error | intros _; apply keeps_ret].
Qed.

Lemma keeps_get_stock_data symbol : keeps (World := World) Inv (get_stock_data symbol).
Proof.
  unfold get_stock_data. apply keeps_try_except.
  - apply keeps_bind; [apply keeps_execute | intros _; apply keeps_gets].
  - intros e. apply keeps_bind; [apply keeps_logging_error | intros _; apply keeps_ret].
Qed.

Lemma keeps_get_current_price symbol : keeps Inv (get_current_price history symbol).
Proof.
  intros st H. destruct (get_current_price_cases history symbol st) as (l & ->).
  exact H.
Qed.

Lemma keeps_value_loop holdings total : keeps Inv (value_loop history holdings total).
Proof.
  revert total. induction holdings as [| stock rest IH]; intros total; simpl.
  - apply keeps_ret.
  - apply keeps_bind; [apply keeps_get_current_price |]. intros [p |]; apply IH.
Qed.

Lemma keeps_report_loop holdings acc : keeps Inv (report_loop history holdings acc).
Proof.
  revert acc. induction holdings as [| stock rest IH]; intros acc; simpl.
  - apply keeps_ret.
  - apply keeps_bind; [apply keeps_get_current_price |]. intros [p |]; [| apply IH].
    destruct (fdiv _ _); [apply IH | apply keeps_raise].
Qed.

Lemma keeps_allocation_loop holdings allocations :
  keeps Inv (allocation_loop history holdings allocations).
Proof.
  revert allocations. induction holdings as [| stock rest IH]; intros allocations; simpl.
  - apply keeps_ret.
  - apply keeps_bind; [apply keeps_get_current_price |]. intros [p |]; apply IH.
Qed.

Lemma keeps_calculate_portfolio_value : keeps Inv (calculate_portfolio_value history).
Proof.
  unfold calculate_portfolio_value.
  apply keeps_bind; [apply keeps_get_portfolio | intros holdings; apply keeps_value_loop].
Qed.

Lemma keeps_portfolio_performance_report :
  keeps Inv (portfolio_performance_report history pie_accepts).
Proof.
  unfold portfolio_performance_report.
  apply keeps_bind; [apply keeps_get_portfolio |]. intros [| s0 rest]; [apply keeps_ret |].
  apply keeps_bind; [apply keeps_report_loop | intros acc].
  apply keeps_bind; [apply keeps_lift | intros summary].
  apply keeps_bind; [now apply keeps_frame | intros _].
  apply keeps_bind; [apply keeps_allocation_loop | intros allocations].
  apply keeps_bind.
  { unfold plt_pie. destruct (pie_accepts _ _); [apply keeps_ret | apply keeps_raise]. }
  intros chart.
  apply keeps_bind; [now apply keeps_frame | intros _].
  apply keeps_bind; [apply keeps_logging_info | intros _; apply keeps_ret].
Qed.

Lemma keeps_export_to_csv filename : keeps (World := World) Inv (export_to_csv filename).
Proof.
  unfold export_to_csv. apply keeps_try_except.
  - apply keeps_bind; [apply keeps_execute | intros _].
    apply keeps_bind; [apply keeps_gets | intros data].
    apply keeps_bind; [now apply keeps_frame | intros _].
    apply keeps_bind; [apply keeps_logging_info | intros _; apply keeps_ret].
  - intros e. apply keeps_bind; [apply keeps_logging_error | intros _; apply keeps_ret].
Qed.

Lemma keeps_restart :
  (forall c, Inv c -> Inv (rolled_back c)) ->
  keeps (World := World) Inv (__del__ ;;; __init__).
Proof.
  intros Hroll.
  assert (Hr : keeps Inv (modify (fun s : State num World =>
                 with_conn (rolled_back (conn s)) s))).
  { intros st H. apply Hroll, H. }
  apply keeps_bind; [exact Hr | intros _].
  apply keeps_bind; [exact Hr | intros _; apply keeps_create_tables].
Qed.

Lemma after_keeps (c : Call) st :
  (c = Restart -> forall c0, Inv c0 -> Inv (rolled_back c0)) ->
  Inv (conn st) -> Inv (conn (after history pie_accepts c st)).
Proof.
  intros Hroll. destruct c; simpl.
  - apply keeps_create_tables.
  - apply keeps_import_from_csv.
  - apply keeps_add_to_portfolio.
  - apply keeps_get_portfolio.
  - apply keeps_get_stock_data.
  - apply keeps_calculate_portfolio_value.
  - apply keeps_portfolio_performance_report.
  - apply keeps_export_to_csv.
  - now apply keeps_restart, Hroll.
  - apply (inv_faulty _ Hinv).
Qed.

Lemma after_all_keeps (calls : list Call) st :
  (one_session calls \/ forall c0, Inv c0 -> Inv (rolled_back c0)) ->
  Inv (conn st) -> Inv (conn (after_all history pie_accepts calls st)).
Proof.
  revert st. induction calls as [| c calls IH]; intros st Hroll H; simpl; [exact H |].
  apply IH.
  - destruct Hroll as [Hone | Hroll]; [left | now right].
    now apply Forall_inv_tail in Hone.
  - apply after_keeps; [| exact H]. intros ->.
    destruct Hroll as [Hone | Hroll]; [| exact Hroll].
    apply Forall_inv in Hone. contradiction.
Qed.

End Invariants.

(** *** Consistency *)

Lemma well_numbered_push_stock (t : Tables num) sy d o h l c v :
  well_numbered t -> well_numbered (push_stock t sy d o h l c v).
Proof.
  intros (Hs & Hq & Hp & Hpq). unfold well_numbered, push_stock. simpl.
  rewrite map_app, length_app, Hs, Hq. simpl.
  rewrite Nat.add_1_r, ids_upto_S.
  repeat split; auto; try lia. do 2 f_equal. lia.
Qed.

Lemma well_numbered_push_lot (t : Tables num) sy shares price date :
  well_numbered t -> well_numbered (push_lot t sy shares price date).
Proof.
  intros (Hs & Hq & Hp & Hpq). unfold well_numbered, push_lot. simpl.
  rewrite map_app, length_app, Hp, Hpq. simpl.
  rewrite Nat.add_1_r, ids_upto_S.
  repeat split; auto; try lia. do 2 f_equal. lia.
Qed.

Lemma consistent_invariant : invariant (consistent (num := num)).
Proof.
  split.
  - intros c (Hv & _ & _ & _ & Hs & Hl). unfold consistent. simpl.
    repeat split; auto; apply Hv.
  - intros c sy d o h l cl v (Hvw & Hdk & Hps & Hpp & Hs & Hl) Hnan Hv.
    unfold consistent. simpl.
    split; [now apply well_numbered_push_stock |]. split; [exact Hdk |].
    split; [now apply prefix_app_r |]. split; [exact Hpp |]. split; [| exact Hl].
    apply Forall_app. split; [exact Hs |]. constructor; [| constructor].
    unfold storable. simpl. now rewrite Hnan, Hv.
  - intros c sy shares price date (Hvw & Hdk & Hps & Hpp & Hs & Hl) Hu Hv Hnan.
    unfold consistent. simpl.
    split; [now apply well_numbered_push_lot |]. split; [exact Hdk |].
    split; [exact Hps |]. split; [now apply prefix_app_r |]. split; [exact Hs |].
    apply Forall_app. split; [exact Hl |]. constructor; [| constructor].
    unfold lot_ok. simpl. rewrite Hu, Hv, Hnan. now rewrite String.eqb_refl.
  - intros c now H. exact H.
Qed.

Lemma consistent_rolled_back (c : Conn num) : consistent c -> consistent (rolled_back c).
Proof.
  intros (Hv & Hd & Hps & Hpp & Hs & Hl). unfold consistent. simpl.
  split; [exact Hd |]. split; [exact Hd |].
  split; [reflexivity |]. split; [reflexivity |]. split.
  - destruct Hps as (k & Hk). rewrite Hk in Hs. now apply Forall_app in Hs.
  - destruct Hpp as (k & Hk). rewrite Hk in Hl. now apply Forall_app in Hl.
Qed.

Lemma initial_state_consistent (w : World) :
  consistent (conn (initial_state (num := num) w)).
Proof. repeat split; try reflexivity; constructor. Qed.

(** X4. Consistency is kept.  From any consistent database, whatever
    price files the working directory holds and whatever calls are made, in
    whatever order, with the storage failing and recovering in between and
    the program closed and started again: the rows of both tables still
    carry the ids 1, 2, ... without gaps, the committed rows are the first
    rows the connection sees, no stored price is a NaN, every stored volume
    is a 64-bit integer and every stored lot has its symbol in upper case.
    A fresh database is consistent ([initial_state_consistent]). *)
Theorem reachable_states_are_consistent (calls : list Call) st :
  consistent (conn st) ->
  consistent (conn (after_all history pie_accepts calls st)).
Proof.
  intros Hc. apply after_all_keeps.
  - apply consistent_invariant.
  - right. apply consistent_rolled_back.
  - exact Hc.
Qed.

(** X5. In a consistent database [get_portfolio] never returns two lots
    with the same id nor a lot whose symbol is not in upper case: the lots
    come in insertion order, numbered 1, 2, ... *)
Theorem holdings_are_numbered st (holdings : list (Lot num)) :
  consistent (conn st) ->
  (get_portfolio st).1 = Return holdings ->
  NoDup (map lot_id holdings) /\
  (forall i stock, holdings !! i = Some stock -> lot_id stock = Z.of_nat (S i)) /\
  Forall (fun stock => upper (lot_symbol stock) = lot_symbol stock) holdings.
Proof.
  intros (Hv & _ & _ & _ & _ & Hl) Hget.
  assert (Hsub : holdings = [] \/ holdings = portfolio (view (conn st))).
  { destruct (faulty (conn st)) eqn:Hf.
    - rewrite (get_portfolio_faulty _ Hf) in Hget. left. now injection Hget.
    - rewrite (get_portfolio_healthy _ Hf) in Hget. right. now injection Hget. }
  destruct Hsub as [-> | ->].
  { split; [constructor |]. split; [intros i stock; rewrite lookup_nil; discriminate |].
    constructor. }
  destruct Hv as (_ & _ & Hids & _).
  split; [rewrite Hids; apply ids_upto_NoDup |]. split.
  - intros i stock Hi.
    assert (Hm : map lot_id (portfolio (view (conn st))) !! i = Some (lot_id stock)).
    { change (map lot_id ?l) with (lot_id <$> l). rewrite list_lookup_fmap, Hi.
      reflexivity. }
    rewrite Hids, ids_upto_lookup in Hm.
    + now injection Hm.
    + eapply lookup_lt_Some. exact Hi.
  - eapply Forall_impl; [exact Hl |]. intros stock Hok. unfold lot_ok in Hok.
    apply andb_prop in Hok as [Hok _]. apply andb_prop in Hok as [Hok _].
    now apply String.eqb_eq.
Qed.

(** *** Rows are never removed *)





(** ** Price history *)

Lemma ltb_asym (a b : string) : String.ltb a b = true -> String.ltb b a = false.
Proof.
  unfold String.ltb. rewrite (String.compare_antisym b a).
  now destruct (String.compare a b).
Qed.

Lemma insert_by_date_perm b (l : list (PriceBar num)) : insert_by_date b l ≡ₚ b :: l.
Proof.
  induction l as [| x r IH]; simpl; [reflexivity |].
  destruct (String.ltb (bar_date b) (bar_date x)); [reflexivity |].
  rewrite IH. apply Permutation_swap.
Qed.

Lemma order_by_date_perm (l : list (PriceBar num)) : order_by_date l ≡ₚ l.
Proof.
  unfold order_by_date.
  assert (H : forall acc, fold_left (fun acc b => insert_by_date b acc) l acc ≡ₚ acc ++ l).
  { induction l as [| b r IH]; intros acc; simpl.
    - now rewrite app_nil_r.
    - rewrite IH, insert_by_date_perm. simpl. apply Permutation_middle. }
  apply (H []).
Qed.

Lemma insert_by_date_ascending b (l : list (PriceBar num)) :
  ascending (map bar_date l) -> ascending (map bar_date (insert_by_date b l)).
Proof.
  induction l as [| x r IH]; simpl; [auto |].
  intros [Hx Hr].
  destruct (String.ltb (bar_date b) (bar_date x)) eqn:Hb; simpl.
  - split; [now apply ltb_asym |]. split; assumption.
  - split; [| now apply IH].
    destruct r as [| y r']; simpl; [exact Hb |].
    destruct (String.ltb (bar_date b) (bar_date y)); simpl; assumption.
Qed.

Lemma order_by_date_ascending (l : list (PriceBar num)) :
  ascending (map bar_date (order_by_date l)).
Proof.
  unfold order_by_date.
  assert (H : forall acc, ascending (map bar_date acc) ->
            ascending (map bar_date (fold_left (fun acc b => insert_by_date b acc) l acc))).
  { induction l as [| b r IH]; intros acc Hacc; simpl; [exact Hacc |].
    apply IH. now apply insert_by_date_ascending. }
  apply H. exact I.
Qed.

(** X8. With operational storage [get_stock_data] returns the (date,
    close) pairs of exactly the stored rows whose symbol is the upper-cased
    query, each row once, in ascending text order of the date; nothing is
    changed or logged. *)
Theorem price_history_is_sorted st (symbol : string) :
  faulty (conn st) = false ->
  exists data,
    get_stock_data symbol st = (Return data, st) /\
    ascending (map fst data) /\
    data ≡ₚ closes_of (upper symbol) (stocks (view (conn st))).
Proof.
  intros Hf. eexists. split; [now apply get_stock_data_healthy |].
  unfold select_history, closes_of. split.
  - rewrite map_map. simpl. apply order_by_date_ascending.
  - apply Permutation_map, order_by_date_perm.
Qed.

Lemma closes_of_none (symbol : string) (t : list (PriceBar num)) :
  (forall b, In b t -> bar_symbol b <> symbol) ->
  List.filter (fun b => String.eqb (bar_symbol b) symbol) t = [].
Proof.
  intros Hnone. induction t as [| b t IH]; [reflexivity |].
  simpl. destruct (String.eqb_spec (bar_symbol b) symbol) as [Heq | _].
  - exfalso. apply (Hnone b); [now left | exact Heq].
  - apply IH. intros b' Hin. apply Hnone. now right.
Qed.

Lemma select_history_in (symbol : string) (t : list (PriceBar num)) b :
  In b t -> bar_symbol b = symbol ->
  In (bar_date b, bar_close b) (select_history symbol t).
Proof.
  intros Hin Hsym. unfold select_history.
  apply (in_map (fun b => (bar_date b, bar_close b))).
  apply (Permutation_in _ (Permutation_sym (order_by_date_perm _))).
  apply filter_In. split; [exact Hin |]. now apply String.eqb_eq.
Qed.

Lemma select_history_from (symbol : string) (t : list (PriceBar num)) row :
  In row (select_history symbol t) ->
  exists b, In b t /\ bar_symbol b = symbol /\ row = (bar_date b, bar_close b).
Proof.
  unfold select_history. intros Hin.
  apply in_map_iff in Hin as (b & <- & Hb).
  apply (Permutation_in _ (order_by_date_perm _)) in Hb.
  apply filter_In in Hb as [Hb Hs]. exists b. repeat split; auto.
  now apply String.eqb_eq.
Qed.

(** X9. For a symbol without stored rows [get_stock_data] returns the
    empty list and, other than after a storage failure, logs no error. *)
Theorem price_history_of_unknown_symbol st (symbol : string) :
  faulty (conn st) = false ->
  (forall b, In b (stocks (view (conn st))) -> bar_symbol b <> upper symbol) ->
  get_stock_data symbol st = (Return [], st).
Proof.
  intros Hf Hnone. rewrite (get_stock_data_healthy _ _ Hf).
  unfold select_history. now rewrite (closes_of_none _ _ Hnone).
Qed.

(** *** Text order and the calendar *)

Lemma ascii_compare_code (a b : ascii) :
  CompareSpec (Z.of_nat (nat_of_ascii a) = Z.of_nat (nat_of_ascii b))
              (Z.of_nat (nat_of_ascii a) < Z.of_nat (nat_of_ascii b))
              (Z.of_nat (nat_of_ascii b) < Z.of_nat (nat_of_ascii a))
              (Ascii.compare a b).
Proof.
  unfold Ascii.compare, nat_of_ascii.
  destruct (N.compare_spec (N_of_ascii a) (N_of_ascii b)); constructor; lia.
Qed.

Lemma two_digits_value (a b : ascii) (n : Z) :
  two_digits a b = Some n ->
  48 <= Z.of_nat (nat_of_ascii a) <= 57 /\
  48 <= Z.of_nat (nat_of_ascii b) <= 57 /\
  n = 10 * (Z.of_nat (nat_of_ascii a) - 48) + (Z.of_nat (nat_of_ascii b) - 48).
Proof.
  unfold two_digits, is_digit.
  destruct (_ && _)%bool eqn:Hd; [| discriminate].
  intros [= <-]. cbv zeta in Hd.
  apply andb_prop in Hd as [Ha Hb].
  apply andb_prop in Ha as [Ha1 Ha2]. apply andb_prop in Hb as [Hb1 Hb2].
  apply Nat.leb_le in Ha1, Ha2, Hb1, Hb2.
  lia.
Qed.

(** A text [padded_date] reads is ten characters long: digits with a
    hyphen in the fifth and the eighth place. *)
Lemma padded_date_shape (text : string) (x : Z * Z * Z) :
  padded_date text = Some x ->
  exists y1 y2 y3 y4 m1 m2 d1 d2 c y m d,
    text = String y1 (String y2 (String y3 (String y4 (String "-" (String m1
             (String m2 (String "-" (String d1 (String d2 EmptyString))))))))) /\
    two_digits y1 y2 = Some c /\ two_digits y3 y4 = Some y /\
    two_digits m1 m2 = Some m /\ two_digits d1 d2 = Some d /\
    x = (100 * c + y, m, d).
Proof.
  unfold padded_date.
  destruct text as [| y1 [| y2 [| y3 [| y4 [| s1 [| m1 [| m2 [| s2 [| d1 [| d2 [| ? ?]]]]]]]]]]];
    try discriminate.
  destruct (Ascii.eqb_spec s1 "-") as [-> |]; [| discriminate].
  destruct (Ascii.eqb_spec s2 "-") as [-> |]; [| discriminate]. simpl.
  destruct (two_digits y1 y2) as [c |] eqn:Hc; [| discriminate].
  destruct (two_digits y3 y4) as [y |] eqn:Hy; [| discriminate].
  destruct (two_digits m1 m2) as [m |] eqn:Hm; [| discriminate].
  destruct (two_digits d1 d2) as [d |] eqn:Hd; [| discriminate].
  destruct (_ && _)%bool; [| discriminate].
  intros [= <-]. exists y1, y2, y3, y4, m1, m2, d1, d2, c, y, m, d.
  repeat split; assumption.
Qed.

(** On dates in the declared notation the order of the texts is the order
    of the calendar. *)
Lemma text_order_is_date_order (a b : string) (x y : Z * Z * Z) :
  padded_date a = Some x -> padded_date b = Some y ->
  String.ltb b a = false -> not_later x y.
Proof.
  intros Ha Hb.
  apply padded_date_shape in Ha
    as (a1 & a2 & a3 & a4 & a5 & a6 & a7 & a8 & ca & ya & ma & da
        & -> & Hca & Hya & Hma & Hda & ->).
  apply padded_date_shape in Hb
    as (b1 & b2 & b3 & b4 & b5 & b6 & b7 & b8 & cb & yb & mb & db
        & -> & Hcb & Hyb & Hmb & Hdb & ->).
  apply two_digits_value in Hca as (? & ? & ->), Hya as (? & ? & ->),
    Hma as (? & ? & ->), Hda as (? & ? & ->), Hcb as (? & ? & ->),
    Hyb as (? & ? & ->), Hmb as (? & ? & ->), Hdb as (? & ? & ->).
  unfold String.ltb, not_later. cbn [String.compare fst snd].
  change (Ascii.compare "-" "-") with Eq. cbv iota.
  repeat match goal with
         | |- context [Ascii.compare ?c ?d] =>
             destruct (ascii_compare_code c d)
         end;
    intros Hlt; try discriminate Hlt; lia.
Qed.

Lemma ascending_is_chronological (texts : list string) (dates : list (Z * Z * Z)) :
  map Some dates = map padded_date texts ->
  ascending texts -> chronological dates.
Proof.
  revert dates. induction texts as [| t rest IH]; intros [| x dates]; simpl;
    try discriminate; auto.
  intros [= Hx Hrest] [Hhead Htail]. split; [| now apply IH].
  destruct rest as [| t' rest']; destruct dates as [| x' dates']; try discriminate; auto.
  simpl in Hrest. injection Hrest as Hx' _.
  eapply text_order_is_date_order; eauto.
Qed.

(** X10. When every stored date of the symbol is written [YYYY-MM-DD] with
    all digits present, the pairs [get_stock_data] returns are in the
    order of the calendar: on such dates the text order of the query is the
    chronological one. *)
Theorem price_history_is_chronological st (symbol : string) :
  faulty (conn st) = false ->
  (forall b, In b (stocks (view (conn st))) -> bar_symbol b = upper symbol ->
             is_Some (padded_date (bar_date b))) ->
  exists data dates,
    get_stock_data symbol st = (Return data, st) /\
    map Some dates = map (fun row => padded_date row.1) data /\
    chronological dates.
Proof.
  intros Hf Hall.
  exists (select_history (upper symbol) (stocks (view (conn st)))).
  assert (Hparse : exists dates,
            map Some dates =
            map (fun row => padded_date row.1)
              (select_history (upper symbol) (stocks (view (conn st))))).
  { assert (Hrows : forall row,
              In row (select_history (upper symbol) (stocks (view (conn st)))) ->
              is_Some (padded_date row.1)).
    { intros row Hrow. apply select_history_from in Hrow as (b & Hb & Hs & ->).
      now apply Hall. }
    induction (select_history (upper symbol) (stocks (view (conn st))))
      as [| row rest IH]; [now exists [] |].
    destruct (Hrows row (or_introl eq_refl)) as [x Hx].
    destruct IH as (dates & Hd); [intros r Hr; apply Hrows; now right |].
    exists (x :: dates). simpl. now rewrite Hx, Hd. }
  destruct Hparse as (dates & Hdates). exists dates.
  split; [now apply get_stock_data_healthy |]. split; [exact Hdates |].
  apply (ascending_is_chronological
           (map fst (select_history (upper symbol) (stocks (view (conn st)))))).
  - now rewrite map_map.
  - unfold select_history. rewrite map_map. simpl. apply order_by_date_ascending.
Qed.

(** ** The value of the portfolio *)

Lemma value_loop_total (holdings : list (Lot num)) (total : num) st :
  exists v st',
    value_loop history holdings total st = (Return v, st') /\
    artifacts st' = artifacts st /\ conn st' = conn st /\ files st' = files st.
Proof.
  revert total st. induction holdings as [| stock rest IH]; intros total st; simpl.
  - exists total, st. repeat split.
  - unfold bind.
    destruct (get_current_price_cases history (lot_symbol stock) st) as (l & ->).
    destruct ((history (lot_symbol stock) (world st)).1) as [p | | e];
      match goal with
      | |- context [value_loop history rest ?t ?s] =>
          destruct (IH t s) as (v & st' & -> & Ha & Hc & Hfs)
      end;
      exists v, st'; repeat split; assumption.
Qed.

(** X11. [calculate_portfolio_value] never raises, whatever the quote
    service and the storage do, and is read-only: the database, the files
    and the report artifacts are as before.  Without lots to value, be it
    that the portfolio is empty or that the storage fails, the value is
    zero and no quote is requested. *)
Theorem portfolio_value_never_raises st :
  exists v st',
    calculate_portfolio_value history st = (Return v, st') /\
    conn st' = conn st /\ files st' = files st /\ artifacts st' = artifacts st /\
    (faulty (conn st) = true \/ portfolio (view (conn st)) = [] ->
     v = of_int 0 /\ world st' = world st).
Proof.
  unfold calculate_portfolio_value, bind.
  destruct (faulty (conn st)) eqn:Hf.
  - rewrite (get_portfolio_faulty _ Hf). simpl.
    eexists _, _. split; [reflexivity |]. repeat split.
  - rewrite (get_portfolio_healthy _ Hf).
    destruct (value_loop_total (portfolio (view (conn st))) (of_int 0) st)
      as (v & st' & Hrun & Ha & Hc & Hfs).
    rewrite Hrun. exists v, st'. split; [reflexivity |].
    split; [exact Hc |]. split; [exact Hfs |]. split; [exact Ha |].
    intros [Hcase | Hnil]; [discriminate |].
    rewrite Hnil in Hrun. simpl in Hrun. injection Hrun as <- <-. now split.
Qed.

(** What the quote service tells about a symbol. *)
Lemma stateless_price (symbol : string) st1 st2 :
  stateless history ->
  (get_current_price history symbol st1).1 = (get_current_price history symbol st2).1.
Proof.
  intros Hs.
  destruct (get_current_price_cases history symbol st1) as (l1 & ->).
  destruct (get_current_price_cases history symbol st2) as (l2 & ->).
  simpl. now rewrite (Hs symbol (world st1) (world st2)).
Qed.

Lemma report_loop_values (holdings : list (Lot num)) acc st1 acc' st1' st2 :
  stateless history ->
  report_loop history holdings acc st1 = (Return acc', st1') ->
  (value_loop history holdings (total_current_value acc) st2).1 =
    Return (total_current_value acc').
Proof.
  intros Hs. revert acc st1 st2.
  induction holdings as [| stock rest IH]; intros acc st1 st2; simpl.
  - now intros [= <- <-].
  - unfold bind.
    pose proof (stateless_price (lot_symbol stock) st1 st2 Hs) as Hsame.
    destruct (get_current_price history (lot_symbol stock) st1) as [r1 s1].
    destruct (get_current_price history (lot_symbol stock) st2) as [r2 s2].
    simpl in Hsame. subst r2.
    destruct r1 as [[p |] | e]; [| | discriminate].
    + destruct (fdiv _ _); [| discriminate].
      intros Hrun. exact (IH _ _ s2 Hrun).
    + intros Hrun. exact (IH _ _ s2 Hrun).
Qed.

(** X12. With a quote service whose answers depend on the symbol only,
    the total current value a returned report shows is the formatted
    result of [calculate_portfolio_value] on the same portfolio. *)
Theorem report_total_is_portfolio_value st rows summary st' :
  stateless history ->
  portfolio_performance_report history pie_accepts st =
    (Return (Report rows summary), st') ->
  exists v,
    (calculate_portfolio_value history st).1 = Return v /\
    Total_Current_Value summary = dollars v.
Proof.
  intros Hs. unfold portfolio_performance_report, calculate_portfolio_value, bind.
  destruct (get_portfolio st) as [[holdings | e] s0]; [| discriminate].
  destruct holdings as [| stock rest]; [discriminate |].
  destruct (report_loop history (stock :: rest) _ s0) as [[acc | e] s1] eqn:Hloop;
    [| discriminate].
  pose proof (report_loop_values _ _ _ _ _ s0 Hs Hloop) as Hval.
  cbn [total_current_value] in Hval.
  unfold lift, make_summary.
  destruct (fdiv _ _) as [q |]; [| discriminate].
  cbv beta iota zeta delta [modify].
  destruct (allocation_loop_total history (stock :: rest) []
              (with_report_csv (report_data acc) s1)) as (a' & s' & -> & _).
  unfold plt_pie. destruct (pie_accepts _ _); [| discriminate].
  intros [= <- <- <-].
  exists (total_current_value acc). split; [| reflexivity].
  destruct (value_loop history (stock :: rest) (of_int 0) s0) as [r s2].
  exact Hval.
Qed.

(** ** Requests to the quote service *)

Lemma counted_price (symbol : string) (sc : State num (World * nat)) :
  exists r sc',
    get_current_price (counted history) symbol sc = (Return r, sc') /\
    (world sc').2 = S (world sc).2.
Proof.
  destruct (get_current_price_cases (counted history) symbol sc) as (l & ->).
  eexists _, _. split; [reflexivity |].
  simpl. unfold counted. now destruct (history symbol (world sc).1).
Qed.

Lemma value_loop_requests (holdings : list (Lot num)) total
    (sc : State num (World * nat)) r sc' :
  value_loop (counted history) holdings total sc = (r, sc') ->
  (world sc').2 = ((world sc).2 + List.length holdings)%nat.
Proof.
  revert total sc. induction holdings as [| stock rest IH]; intros total sc; simpl.
  - intros [= <- <-]. lia.
  - unfold bind.
    destruct (counted_price (lot_symbol stock) sc) as (p & s1 & -> & Hn).
    destruct p as [p |]; intros Hrun; rewrite (IH _ _ Hrun), Hn; lia.
Qed.

Lemma report_loop_requests (holdings : list (Lot num)) acc
    (sc : State num (World * nat)) acc' sc' :
  report_loop (counted history) holdings acc sc = (Return acc', sc') ->
  (world sc').2 = ((world sc).2 + List.length holdings)%nat.
Proof.
  revert acc sc. induction holdings as [| stock rest IH]; intros acc sc; simpl.
  - intros [= <- <-]. lia.
  - unfold bind.
    destruct (counted_price (lot_symbol stock) sc) as (p & s1 & -> & Hn).
    destruct p as [p |].
    + destruct (fdiv _ _); [| discriminate].
      intros Hrun; rewrite (IH _ _ Hrun), Hn; lia.
    + intros Hrun; rewrite (IH _ _ Hrun), Hn; lia.
Qed.

Lemma allocation_loop_requests (holdings : list (Lot num)) allocations
    (sc : State num (World * nat)) r sc' :
  allocation_loop (counted history) holdings allocations sc = (r, sc') ->
  (world sc').2 = ((world sc).2 + List.length holdings)%nat.
Proof.
  revert allocations sc.
  induction holdings as [| stock rest IH]; intros allocations sc; simpl.
  - intros [= <- <-]. lia.
  - unfold bind.
    destruct (counted_price (lot_symbol stock) sc) as (p & s1 & -> & Hn).
    destruct p as [p |]; intros Hrun; rewrite (IH _ _ Hrun), Hn; lia.
Qed.

(** X13. Prices are not cached.  With operational storage,
    [calculate_portfolio_value] sends the quote service one request per
    lot, and a report that returns has sent two per lot, also where
    several lots share a symbol. *)
Theorem one_request_per_lot_and_pass (sc : State num (World * nat)) :
  faulty (conn sc) = false ->
  let lots := List.length (portfolio (view (conn sc))) in
  (world (calculate_portfolio_value (counted history) sc).2).2 =
    ((world sc).2 + lots)%nat /\
  forall rows summary sc',
    portfolio_performance_report (counted history) pie_accepts sc =
      (Return (Report rows summary), sc') ->
    (world sc').2 = ((world sc).2 + 2 * lots)%nat.
Proof.
  intros Hf lots. split.
  - unfold calculate_portfolio_value, bind.
    rewrite (get_portfolio_healthy _ Hf).
    destruct (value_loop _ _ _ sc) as [r s1] eqn:Hrun.
    exact (value_loop_requests _ _ _ _ _ Hrun).
  - intros rows summary sc'.
    unfold portfolio_performance_report, bind.
    rewrite (get_portfolio_healthy _ Hf). subst lots.
    destruct (portfolio (view (conn sc))) as [| stock rest]; [discriminate |].
    destruct (report_loop _ (stock :: rest) _ sc) as [[acc | e] s1] eqn:Hloop;
      [| discriminate].
    apply report_loop_requests in Hloop.
    unfold lift, make_summary.
    destruct (fdiv _ _) as [q |]; [| discriminate].
    cbv beta iota zeta delta [modify].
    destruct (allocation_loop _ (stock :: rest) [] _) as [[a' | e] s2] eqn:Halloc;
      [| discriminate].
    apply allocation_loop_requests in Halloc.
    unfold plt_pie. destruct (pie_accepts _ _); [| discriminate].
    intros [= _ _ <-]. simpl in *. lia.
Qed.

(** ** The report *)

Lemma allocation_loop_frame (holdings : list (Lot num)) allocations st r st' :
  allocation_loop history holdings allocations st = (r, st') ->
  artifacts st' = artifacts st /\ conn st' = conn st /\ files st' = files st.
Proof.
  revert allocations st.
  induction holdings as [| stock rest IH]; intros allocations st; simpl.
  - intros [= <- <-]. repeat split.
  - unfold bind.
    destruct (get_current_price history (lot_symbol stock) st) as [[cp | e] s1] eqn:Hp.
    2:{ intros [= <- <-]. eapply get_current_price_frame. exact Hp. }
    destruct (get_current_price_frame _ _ _ _ _ Hp) as (Ha & Hc & Hfs).
    rewrite <- Ha, <- Hc, <- Hfs.
    destruct cp as [p |]; apply IH.
Qed.


(** X15. A report that returns has written what it returns: the table
    file holds the returned rows, the chart file a pie the chart library
    accepted, labelled with the symbols of all the lots, priced or not, and
    the last log entry records the report. *)
Theorem returned_report_is_written st rows summary st' :
  portfolio_performance_report history pie_accepts st =
    (Return (Report rows summary), st') ->
  portfolio_report_csv st' = Some rows /\
  (exists chart,
     portfolio_allocation_png st' = Some chart /\
     labels chart = map lot_symbol (portfolio (view (conn st))) /\
     pie_accepts (wedges chart) (labels chart) = true) /\
  exists l, log st' = (l ++ [LogInfo "Generated portfolio performance report"])%list.
Proof.
  unfold portfolio_performance_report, bind.
  destruct (faulty (conn st)) eqn:Hf.
  { rewrite (get_portfolio_faulty _ Hf). discriminate. }
  rewrite (get_portfolio_healthy _ Hf).
  destruct (portfolio (view (conn st))) as [| stock rest]; [discriminate |].
  destruct (report_loop history (stock :: rest) _ _) as [[acc | e] s1]; [| discriminate].
  unfold lift. destruct (make_summary acc) as [sm | e]; [| discriminate].
  cbv beta iota zeta delta [modify].
  destruct (allocation_loop history (stock :: rest) [] _) as [[a' | e] s2] eqn:Halloc;
    [| discriminate].
  destruct (allocation_loop_frame _ _ _ _ _ Halloc) as (Ha & _).
  unfold artifacts in Ha. simpl in Ha. injection Ha as Hcsv Hpng.
  unfold plt_pie. destruct (pie_accepts a' _) eqn:Hpie; [| discriminate].
  intros [= <- <- <-]. simpl. split; [exact Hcsv |]. split.
  - eexists. split; [reflexivity |]. simpl. split; [reflexivity | exact Hpie].
  - eexists. reflexivity.
Qed.

(** ** Purchase lots *)

(** X17. While the storage is operational [add_to_portfolio] is all or
    nothing.  Either it returns [True], and then exactly one lot was
    appended, under the next id and the upper-cased symbol, and committed
    together with whatever the connection had pending; or the tables,
    committed and pending, are as before: it returns [False], having logged
    the error, for a price that is a NaN, and it raises [OverflowError],
    logging nothing, for shares beyond 64 bits. *)
Theorem add_lot_is_all_or_nothing st (symbol : string) (shares : Z) (price : num)
    (date : string) r st' :
  faulty (conn st) = false ->
  add_to_portfolio symbol shares price date st = (r, st') ->
  (r = Return true /\ fits_int64 shares = true /\ is_nan price = false /\
   view (conn st') = push_lot (view (conn st)) (upper symbol) shares price date /\
   disk (conn st') = view (conn st'))
  \/ (r = Return false /\ fits_int64 shares = true /\ is_nan price = true /\
      st' = with_log (log st ++ [LogError "Error adding to portfolio" SqliteError]) st)
  \/ (r = Raise OverflowError /\ fits_int64 shares = false /\ st' = st).
Proof.
  intros Hf.
  unfold add_to_portfolio, try_except, bind, insert_lot.
  destruct (fits_int64 shares); simpl.
  2:{ intros [= <- <-]. right. right. repeat split. }
  unfold bind. rewrite (execute_healthy _ Hf).
  destruct (is_nan price); simpl.
  { intros [= <- <-]. right. left. repeat split. }
  unfold commit, bind, execute. simpl. rewrite Hf. simpl.
  intros [= <- <-]. left. repeat split.
Qed.

End Further.

(** * The report on the numbers of the program *)

Lemma zero_SF (y : Binary64.float) :
  PrimFloat.eqb y PrimFloat.zero = true ->
  exists s, FloatOps.Prim2SF y = SpecFloat.S754_zero s.
Proof.
  rewrite FloatAxioms.eqb_spec.
  change (FloatOps.Prim2SF PrimFloat.zero) with (SpecFloat.S754_zero false).
  destruct (FloatOps.Prim2SF y) as [s | s | | s m e].
  - now exists s.
  - destruct s; discriminate.
  - discriminate.
  - destruct s; discriminate.
Qed.

(** A quotient by zero, times 100, is an infinity or a NaN. *)
Lemma quotient_by_zero (x y : Binary64.float) :
  PrimFloat.eqb y PrimFloat.zero = true ->
  Binary64.to_Q (PrimFloat.mul (PrimFloat.div x y) (Binary64.of_Q (inject_Z 100)))
    = None.
Proof.
  intros Hy. destruct (zero_SF y Hy) as [s Hs].
  unfold Binary64.to_Q. rewrite FloatAxioms.mul_spec, FloatAxioms.div_spec, Hs.
  replace (FloatOps.Prim2SF (Binary64.of_Q (inject_Z 100)))
    with (SpecFloat.S754_finite false 7036874417766400 (-46))
    by (vm_compute; reflexivity).
  destruct (FloatOps.Prim2SF x) as [sx | sx | | sx m e]; reflexivity.
Qed.

Lemma format_non_finite (x : Binary64.float) :
  Binary64.to_Q x = None ->
  In (Binary64.format_2f x) ["inf"; "-inf"; "nan"].
Proof.
  intros H. unfold Binary64.format_2f. rewrite H. unfold Binary64.non_finite.
  destruct (PrimFloat.is_nan x); [right; right; now left |].
  destruct (Binary64.sign_bit x); [right; now left | now left].
Qed.

(** The percentage of a quotient by zero, as the report prints it. *)
Lemma percent_by_zero (x y q : Numpy.scalar) :
  is_zero y = true ->
  fdiv x y = Some q ->
  In (percent (fmul q (of_int 100))) ["inf%"; "-inf%"; "nan%"].
Proof.
  intros Hz Hq. unfold fdiv, Numpy.Numpy_PyFloat in Hq.
  destruct (_ && _)%bool in Hq; [discriminate |]. injection Hq as <-.
  unfold percent, fmt2, fmul, of_int, Numpy.Numpy_PyFloat.
  cbn [Numpy.value Numpy.both Numpy.builtin].
  match goal with
  | |- In (Binary64.format_2f ?v ++ "%") _ =>
      assert (Hv : In (Binary64.format_2f v) ["inf"; "-inf"; "nan"])
  end.
  { apply format_non_finite, quotient_by_zero. exact Hz. }
  destruct Hv as [<- | [<- | [<- | []]]]; cbn; auto.
Qed.

Section Quotes.

Context {World : Type}.
Variable history : string -> World -> Quote Numpy.scalar * World.
Variable pie_accepts : list Numpy.scalar -> list string -> bool.

Implicit Types (st : State Numpy.scalar World) (stock : Lot Numpy.scalar).

(** A division whose numerator is a [numpy.float64] does not raise. *)
Lemma numpy_division (x y : Numpy.scalar) :
  Numpy.float64 x = true -> fdiv x y = Some (Numpy.both PrimFloat.div x y).
Proof.
  intros H. unfold fdiv, Numpy.Numpy_PyFloat. rewrite H. simpl.
  now rewrite andb_false_r.
Qed.

(** The numerator of a row comes from a quote. *)
Lemma row_division (stock : Lot Numpy.scalar) (p : Numpy.scalar) :
  Numpy.float64 p = true ->
  fdiv (fsub (fmul (of_int (lot_shares stock)) p) (investment_of stock))
       (investment_of stock) =
  Some (Numpy.both PrimFloat.div
          (fsub (fmul (of_int (lot_shares stock)) p) (investment_of stock))
          (investment_of stock)).
Proof. intros Hp. apply numpy_division. simpl. now rewrite Hp. Qed.

(** On the closes of the quote service the first pass never raises. *)
Lemma report_loop_returns (holdings : list (Lot Numpy.scalar)) acc st :
  numpy_quotes history ->
  exists acc' st', report_loop history holdings acc st = (Return acc', st').
Proof.
  intros Hquotes. revert acc st. induction holdings as [| s0 rest IH]; intros acc st.
  - now exists acc, st.
  - cbn [report_loop]. unfold bind.
    destruct (get_current_price_cases history (lot_symbol s0) st) as (l & ->).
    destruct ((history (lot_symbol s0) (world st)).1) as [p | | e] eqn:Hreply;
      try apply IH.
    rewrite (row_division s0 p (Hquotes _ _ _ Hreply)). apply IH.
Qed.

(** Once a lot is priced, the total current value is a [numpy.float64]. *)
Lemma report_loop_priced (holdings : list (Lot Numpy.scalar)) acc st acc' st' :
  numpy_quotes history ->
  report_loop history holdings acc st = (Return acc', st') ->
  Numpy.float64 (total_current_value acc) = true \/
  (exists stock, In stock holdings /\ available history (lot_symbol stock)) ->
  Numpy.float64 (total_current_value acc') = true.
Proof.
  intros Hquotes. revert acc st.
  induction holdings as [| s0 rest IH]; intros acc st.
  - intros [= <- <-] [H | (stock & [] & _)]. exact H.
  - cbn [report_loop]. unfold bind.
    destruct (get_current_price_cases history (lot_symbol s0) st) as (l & ->).
    intros Hloop Hsome.
    destruct ((history (lot_symbol s0) (world st)).1) as [p | | e] eqn:Hreply.
    + rewrite (row_division s0 p (Hquotes _ _ _ Hreply)) in Hloop.
      apply (IH _ _ Hloop). left. cbn. rewrite (Hquotes _ _ _ Hreply).
      now rewrite orb_true_r.
    + apply (IH _ _ Hloop). destruct Hsome as [H | (stock & [<- | Hin] & Hav)].
      * now left.
      * destruct (Hav (world st)) as (p & Hp). rewrite Hreply in Hp. discriminate.
      * right. now exists stock.
    + apply (IH _ _ Hloop). destruct Hsome as [H | (stock & [<- | Hin] & Hav)].
      * now left.
      * destruct (Hav (world st)) as (p & Hp). rewrite Hreply in Hp. discriminate.
      * right. now exists stock.
Qed.

(** C5, as amended.  A lot whose investment [shares * purchase_price] is
    zero and whose current price is available does not make the report
    fail in the per-row percentage: the price is a [numpy.float64], the
    quotient an infinity or a NaN.  The report writes the table with a row
    for the lot, whose percentage reads inf%, -inf% or nan%, and then
    returns that table or fails in the chart with [ValueError]; no
    [ZeroDivisionError] is raised. *)
Theorem report_survives_zero_investment st stock :
  numpy_quotes history ->
  faulty (conn st) = false ->
  In stock (portfolio (view (conn st))) ->
  is_zero (investment_of stock) = true ->
  available history (lot_symbol stock) ->
  exists r st' rows row,
    portfolio_performance_report history pie_accepts st = (r, st') /\
    (r = Raise ValueError \/ exists summary, r = Return (Report rows summary)) /\
    portfolio_report_csv st' = Some rows /\
    In row rows /\
    Symbol row = lot_symbol stock /\
    Shares row = lot_shares stock /\
    In (Gain_Loss_Pct row) ["inf%"; "-inf%"; "nan%"].
Proof.
  intros Hquotes Hf Hin Hzero Havail.
  unfold portfolio_performance_report, bind.
  rewrite (get_portfolio_healthy _ Hf).
  destruct (portfolio (view (conn st))) as [| s0 rest] eqn:Hp; [destruct Hin |].
  destruct (report_loop_returns (s0 :: rest)
              {| report_data := []; total_investment := of_int 0;
                 total_current_value := of_int 0 |} st Hquotes) as (acc & s1 & Hloop).
  rewrite Hloop.
  pose proof (report_loop_priced _ _ _ _ _ Hquotes Hloop
                (or_intror (ex_intro _ stock (conj Hin Havail)))) as Htag.
  destruct (report_loop_row history _ _ _ _ _ _ Hin Havail Hloop) as (p & q & Hq & Hrow).
  unfold lift, make_summary.
  replace (fdiv (fsub (total_current_value acc) (total_investment acc))
                (total_investment acc))
    with (Some (Numpy.both PrimFloat.div
                  (fsub (total_current_value acc) (total_investment acc))
                  (total_investment acc))).
  2:{ symmetry. apply numpy_division. simpl. now rewrite Htag. }
  cbv beta iota zeta delta [modify].
  match goal with
  | |- context [allocation_loop history ?h [] ?s] =>
      destruct (allocation_loop history h [] s) as [[a' | e] s2] eqn:Halloc;
      pose proof (allocation_loop_total history h [] s) as (a0 & s0' & Htot & _);
      rewrite Halloc in Htot; [| discriminate];
      destruct (allocation_loop_frame history _ _ _ _ _ Halloc) as (Ha & _)
  end.
  unfold artifacts in Ha. simpl in Ha. injection Ha as Hcsv _.
  pose proof (percent_by_zero _ _ _ Hzero Hq) as Hpct.
  unfold plt_pie. destruct (pie_accepts a' _).
  - eexists _, _, (report_data acc), _. split; [reflexivity |].
    split; [right; eexists; reflexivity |].
    split; [exact Hcsv |]. split; [exact Hrow |]. split; [reflexivity |].
    split; [reflexivity | exact Hpct].
  - eexists _, _, (report_data acc), _. split; [reflexivity |].
    split; [now left |].
    split; [exact Hcsv |]. split; [exact Hrow |]. split; [reflexivity |].
    split; [reflexivity | exact Hpct].
Qed.

(** A division by zero between builtin numbers raises. *)
Lemma builtin_division (x y : Numpy.scalar) :
  is_zero y = true ->
  Numpy.float64 x = false ->
  Numpy.float64 y = false ->
  fdiv x y = None.
Proof.
  intros Hz Hx Hy. unfold fdiv, Numpy.Numpy_PyFloat.
  unfold is_zero, Numpy.Numpy_PyFloat in Hz. now rewrite Hz, Hx, Hy.
Qed.

(** The sum of the investments is a builtin [float] when the purchase
    prices are. *)
Lemma builtin_total (holdings : list (Lot Numpy.scalar)) (x : Numpy.scalar) :
  builtin_prices holdings ->
  Numpy.float64 x = false ->
  Numpy.float64 (fold_left fadd (map investment_of holdings) x) = false.
Proof.
  intros Hall. revert x. induction Hall as [| stock rest Hp _ IH]; intros x Hx.
  - exact Hx.
  - simpl. apply IH. simpl. now rewrite Hx, Hp.
Qed.

(** X16. The division of the summary is between builtin numbers when no
    lot was priced, and then it raises: a portfolio none of whose prices is
    available and whose investments add up to zero makes the report fail
    with [ZeroDivisionError] after the first pass; no artifact is
    written. *)
Theorem summary_divides_by_zero st :
  faulty (conn st) = false ->
  portfolio (view (conn st)) <> [] ->
  builtin_prices (portfolio (view (conn st))) ->
  (forall stock, In stock (portfolio (view (conn st))) ->
                 unavailable history (lot_symbol stock)) ->
  is_zero (fold_left fadd (map investment_of (portfolio (view (conn st))))
             (of_int 0)) = true ->
  exists st',
    portfolio_performance_report history pie_accepts st =
      (Raise ZeroDivisionError, st') /\
    artifacts st' = artifacts st.
Proof.
  intros Hf Hne Hbuiltin Hun Hzero.
  unfold portfolio_performance_report, bind.
  rewrite (get_portfolio_healthy _ Hf).
  destruct (portfolio (view (conn st))) as [| s0 rest]; [contradiction |].
  destruct (report_loop_unpriced history (s0 :: rest)
              {| report_data := []; total_investment := of_int 0;
                 total_current_value := of_int 0 |} st Hun) as (s1 & Hloop).
  rewrite Hloop.
  destruct (report_loop_frame history _ _ _ _ _ Hloop) as (Ha & _).
  unfold lift, make_summary. cbn [total_investment total_current_value].
  pose proof (builtin_total (s0 :: rest) (of_int 0) Hbuiltin eq_refl) as Htag.
  rewrite builtin_division; [| exact Hzero | | exact Htag].
  - exists s1. split; [reflexivity | exact Ha].
  - change (Numpy.float64 (fsub ?a ?b))
      with (Numpy.float64 a || Numpy.float64 b)%bool.
    now rewrite Htag.
Qed.

End Quotes.

(** * Properties of [plot_stock_performance] *)

Section Charts.

Context {num : Type} {py : PyFloat num} {World : Type} {datetime : Type}.
Variable strptime : string -> option datetime.

Implicit Types (d : Desk num World datetime) (b : PriceBar num).

Lemma parse_dates_fails (data : list (string * num)) row :
  In row data -> strptime row.1 = None -> parse_dates strptime data = Raise ValueError.
Proof.
  intros Hin Hbad. induction data as [| r rest IH]; [destruct Hin |].
  simpl. destruct Hin as [-> | Hin].
  - now rewrite Hbad.
  - destruct (strptime r.1); [| reflexivity]. now rewrite (IH Hin).
Qed.


(** X18. Without rows to plot, be it that no stored bar has the
    upper-cased symbol or that the storage fails, [plot_stock_performance]
    returns [False] and writes no chart. *)
Theorem plot_without_data d (symbol : string) :
  faulty (conn (desk_state d)) = true \/
  (forall b, In b (stocks (view (conn (desk_state d)))) ->
             bar_symbol b <> upper symbol) ->
  exists d',
    plot_stock_performance strptime symbol d = (Return false, d') /\
    performance_png d' = performance_png d /\
    conn (desk_state d') = conn (desk_state d).
Proof.
  intros Hcase. unfold plot_stock_performance, bind, on_desk.
  destruct (faulty (conn (desk_state d))) eqn:Hf.
  - unfold get_stock_data, try_except, bind. rewrite (execute_faulty _ Hf). simpl.
    eexists. repeat split.
  - destruct Hcase as [Hcase | Hnone]; [discriminate |].
    rewrite (get_stock_data_healthy _ _ Hf).
    unfold select_history. rewrite (closes_of_none _ _ Hnone). simpl.
    eexists. repeat split.
Qed.

(** X19. [import_from_csv] stores any text as a date, and the plot parses
    it: one stored row of the symbol whose date [strptime] rejects makes
    [plot_stock_performance] raise [ValueError] to its caller; no chart is
    written and nothing is logged. *)
Theorem plot_raises_on_unparsed_date d (symbol : string) b :
  faulty (conn (desk_state d)) = false ->
  In b (stocks (view (conn (desk_state d)))) ->
  bar_symbol b = upper symbol ->
  strptime (bar_date b) = None ->
  plot_stock_performance strptime symbol d = (Raise ValueError, d).
Proof.
  intros Hf Hin Hsym Hbad. unfold plot_stock_performance, bind, on_desk.
  rewrite (get_stock_data_healthy _ _ Hf).
  pose proof (select_history_in _ _ _ Hin Hsym) as Hrow.
  destruct (select_history _ _) as [| r rest] eqn:Hdata; [destruct Hrow |].
  unfold lift.
  rewrite (parse_dates_fails (r :: rest) _ Hrow Hbad).
  now destruct d.
Qed.


End Charts.

(** * Properties of the window *)

Lemma append_assoc (a b c : string) : ((a ++ b) ++ c)%string = (a ++ (b ++ c))%string.
Proof.
  induction a as [| x a IH]; [reflexivity |].
  change (String x ((a ++ b) ++ c)%string = String x (a ++ (b ++ c))%string).
  now rewrite IH.
Qed.

Lemma append_nil_r (a : string) : (a ++ "")%string = a.
Proof.
  induction a as [| x a IH]; [reflexivity |].
  change (String x (a ++ "")%string = String x a). now rewrite IH.
Qed.

Section Shell.

Context {num : Type} {py : PyFloat num} {World : Type}.
Variable history : string -> World -> Quote num * World.
Variable pie_accepts : list num -> list string -> bool.
Variable to_string : list ReportRow -> string.
Variable PhotoImage : option (Chart num) -> option string.
Variable str_of_exn : exn -> string.

Implicit Types (w : StockAppGUI.Window num World) (st : State num World).

Local Abbreviation generate_report :=
  (StockAppGUI.generate_report history pie_accepts to_string PhotoImage str_of_exn).
Local Abbreviation callback :=
  (StockAppGUI.callback history pie_accepts to_string PhotoImage str_of_exn).
Local Abbreviation mainloop :=
  (StockAppGUI.mainloop history pie_accepts to_string PhotoImage str_of_exn).
Local Abbreviation run :=
  (StockAppGUI.run history pie_accepts to_string PhotoImage str_of_exn).

(** ** The holdings list *)

Lemma insert_lines {A : Type} (line : A -> string) (items : list A) w :
  for_each items (fun x => StockAppGUI.text_insert (line x)) w =
    (Return tt,
     StockAppGUI.with_text
       (StockAppGUI.text_display w ++ fold_right (fun x text => line x ++ text) "" items)
       w).
Proof.
  revert w. induction items as [| x rest IH]; intros w; simpl.
  - unfold ret. rewrite append_nil_r. now destruct w.
  - unfold bind, StockAppGUI.text_insert, modify at 1. rewrite IH. simpl.
    now rewrite append_assoc.
Qed.

(** What the text widget shows after [display_portfolio]. *)
Lemma display_portfolio_shows w :
  StockAppGUI.display_portfolio w =
    (Return tt,
     let (r, st') := get_portfolio (StockAppGUI.store w) in
     StockAppGUI.with_text
       (match r with
        | Return [] | Raise _ => no_holdings_text
        | Return holdings => holdings_text holdings
        end)
       (StockAppGUI.with_store st' w)).
Proof.
  unfold StockAppGUI.display_portfolio, bind, StockAppGUI.on_portfolio.
  destruct (get_portfolio_total (StockAppGUI.store w)) as (holdings & l & ->).
  cbv beta iota zeta.
  destruct holdings as [| stock rest]; [reflexivity |].
  unfold StockAppGUI.text_delete, bind.
  unfold StockAppGUI.text_insert at 1 2. unfold modify. cbv beta iota zeta.
  rewrite insert_lines. reflexivity.
Qed.

(** ** The button [Add to Portfolio] *)

(** X21. Text in the shares or price field that does not read as a number
    is caught at the window: the box [Invalid input values] is shown and
    nothing else happens; the store is not called, nothing is logged and
    the holdings list is not redrawn. *)
Theorem window_rejects_invalid_input w :
  int_of_str (StockAppGUI.shares_entry w) = None \/
  float_of_str (StockAppGUI.price_entry w) = None ->
  StockAppGUI.add_to_portfolio w =
    (Return tt,
     StockAppGUI.with_messagebox
       (StockAppGUI.messagebox w ++ [showerror "Error" "Invalid input values"]) w).
Proof.
  intros Hbad.
  unfold StockAppGUI.add_to_portfolio, bind, gets, try_except, lift, py_int, py_float.
  destruct (int_of_str (StockAppGUI.shares_entry w)) as [shares |]; [| reflexivity].
  destruct Hbad as [Hbad | Hbad]; [discriminate |]. now rewrite Hbad.
Qed.

Lemma add_to_portfolio_good st (symbol : string) (shares : Z) (price : num)
    (date : string) :
  faulty (conn st) = false ->
  fits_int64 shares = true ->
  is_nan price = false ->
  add_to_portfolio symbol shares price date st =
    (Return true,
     with_log (log st ++ [LogInfo ("Added " ++ str_of_int shares ++ " shares of "
                                   ++ symbol ++ " to portfolio")])
       (with_conn (committed (viewing
          (push_lot (view (conn st)) (upper symbol) shares price date) (conn st))) st)).
Proof.
  intros Hf Hfit Hnan.
  unfold add_to_portfolio, try_except, bind, insert_lot.
  rewrite Hfit. simpl. unfold bind.
  rewrite (execute_healthy _ Hf), Hnan. simpl.
  unfold commit, bind, execute. simpl. rewrite Hf. reflexivity.
Qed.

(** X22. A valid entry is stored and shown: the success box names the
    shares as a number and the symbol as typed, and the holdings list is
    redrawn with one line per lot, the new lot last, under its upper-cased
    symbol. *)
Theorem window_add_lists_the_new_lot w (shares : Z) (price : num) :
  faulty (conn (StockAppGUI.store w)) = false ->
  int_of_str (StockAppGUI.shares_entry w) = Some shares ->
  float_of_str (StockAppGUI.price_entry w) = Some price ->
  fits_int64 shares = true ->
  is_nan price = false ->
  let lot := {| lot_id := portfolio_seq (view (conn (StockAppGUI.store w))) + 1;
                lot_symbol := upper (StockAppGUI.symbol_entry w);
                lot_shares := shares;
                lot_purchase_price := price;
                lot_purchase_date := StockAppGUI.date_entry w |} in
  let lots := (portfolio (view (conn (StockAppGUI.store w))) ++ [lot])%list in
  exists w',
    StockAppGUI.add_to_portfolio w = (Return tt, w') /\
    portfolio (view (conn (StockAppGUI.store w'))) = lots /\
    disk (conn (StockAppGUI.store w')) = view (conn (StockAppGUI.store w')) /\
    StockAppGUI.messagebox w' =
      (StockAppGUI.messagebox w ++
       [showinfo "Success"
          ("Added " ++ str_of_int shares ++ " shares of " ++ StockAppGUI.symbol_entry w
           ++ " to portfolio")])%list /\
    StockAppGUI.text_display w' = holdings_text lots.
Proof.
  intros Hf Hint Hfloat Hfit Hnan lot lots.
  unfold StockAppGUI.add_to_portfolio, bind, gets, try_except, lift, py_int, py_float.
  rewrite Hint, Hfloat. unfold StockAppGUI.on_portfolio.
  rewrite (add_to_portfolio_good _ _ _ _ _ Hf Hfit Hnan).
  unfold StockAppGUI.show, modify at 1. cbv beta iota zeta.
  rewrite display_portfolio_shows.
  cbn [StockAppGUI.store StockAppGUI.with_store StockAppGUI.with_messagebox].
  rewrite get_portfolio_healthy by (simpl; exact Hf).
  eexists. split; [reflexivity |].
  cbn. fold lot. fold lots.
  repeat split.
  subst lots. now destruct (portfolio (view (conn (StockAppGUI.store w)))).
Qed.

(** X23. A share count beyond 64 bits is not caught anywhere: [int] reads
    it, [sqlite3] refuses to bind it with [OverflowError], which neither
    the store nor the handler of the button catches; the callback raises
    and the user is shown nothing. *)
Theorem window_add_overflow_escapes w (shares : Z) (price : num) :
  int_of_str (StockAppGUI.shares_entry w) = Some shares ->
  float_of_str (StockAppGUI.price_entry w) = Some price ->
  fits_int64 shares = false ->
  StockAppGUI.add_to_portfolio w = (Raise OverflowError, w).
Proof.
  intros Hint Hfloat Hfit.
  unfold StockAppGUI.add_to_portfolio, bind, gets, try_except, lift, py_int, py_float.
  rewrite Hint, Hfloat. unfold StockAppGUI.on_portfolio.
  unfold add_to_portfolio, try_except, bind, insert_lot. rewrite Hfit. simpl.
  now destruct w.
Qed.


(** ** The button [Generate Report] *)

Lemma report_no_holdings st :
  (get_portfolio st).1 = Return [] ->
  (portfolio_performance_report history pie_accepts st).1 = Return NoHoldings.
Proof.
  intros Hempty. unfold portfolio_performance_report, bind.
  destruct (get_portfolio st) as [r s1]. simpl in Hempty. now subst r.
Qed.

(** X25. With no holdings the report button fails in the window itself:
    the store returns [(False, {})], the handler clears the text, writes
    the two headings and then calls [to_string] on [False]; the
    [AttributeError] is shown in an error box and logged, and the holdings
    list that was displayed is gone. *)
Theorem report_button_without_holdings w :
  (get_portfolio (StockAppGUI.store w)).1 = Return [] ->
  exists w',
    generate_report w = (Return tt, w') /\
    StockAppGUI.text_display w' =
      ("PORTFOLIO PERFORMANCE REPORT" ++ NL ++ NL ++ "Individual Holdings:" ++ NL)%string /\
    StockAppGUI.messagebox w' =
      (StockAppGUI.messagebox w ++
       [showerror "Error"
          "Failed to generate report: 'bool' object has no attribute 'to_string'"])%list /\
    StockAppGUI.report_errors w' = (StockAppGUI.report_errors w ++ [AttributeError])%list /\
    StockAppGUI.img_label w' = StockAppGUI.img_label w.
Proof.
  intros Hempty. apply report_no_holdings in Hempty.
  unfold StockAppGUI.generate_report, StockAppGUI.on_portfolio.
  destruct (portfolio_performance_report history pie_accepts (StockAppGUI.store w))
    as [r s1]. simpl in Hempty. subst r.
  eexists. split; [reflexivity |]. repeat split.
Qed.

Lemma show_chart_returns w :
  exists w', StockAppGUI.show_chart PhotoImage w = (Return tt, w').
Proof.
  unfold StockAppGUI.show_chart, bind, gets.
  destruct (PhotoImage _); eexists; reflexivity.
Qed.

(** X26. The report button never raises.  Whatever the store raises,
    the division by zero of a lot without investment or the [ValueError] of
    the chart library among them, is shown in an error box and logged by
    the window; the text on display is then left as it was. *)
Theorem report_button_never_raises w :
  exists w',
    generate_report w = (Return tt, w') /\
    forall e,
      (portfolio_performance_report history pie_accepts (StockAppGUI.store w)).1 = Raise e ->
      StockAppGUI.text_display w' = StockAppGUI.text_display w /\
      StockAppGUI.messagebox w' =
        (StockAppGUI.messagebox w ++
         [showerror "Error" ("Failed to generate report: " ++ str_of_exn e)])%list /\
      StockAppGUI.report_errors w' = (StockAppGUI.report_errors w ++ [FromStore e])%list.
Proof.
  unfold StockAppGUI.generate_report, StockAppGUI.on_portfolio.
  destruct (portfolio_performance_report history pie_accepts (StockAppGUI.store w))
    as [[result | e0] s1].
  - destruct result as [| report summary].
    + eexists. split; [reflexivity |]. discriminate.
    + unfold StockAppGUI.show_report.
      unfold bind, StockAppGUI.text_delete, StockAppGUI.text_insert at 1 2 3 4.
      unfold modify. cbv beta iota zeta.
      rewrite insert_lines. cbv beta iota zeta.
      match goal with
      | |- context [StockAppGUI.show_chart PhotoImage ?s] =>
          destruct (show_chart_returns s) as (w' & ->)
      end.
      exists w'. split; [reflexivity |]. discriminate.
  - eexists. split; [reflexivity |]. intros e [= <-]. repeat split.
Qed.

(** ** The event loop *)

Section WindowInvariants.

Variable Inv : Conn num -> Prop.
Hypothesis Hinv : invariant Inv.

















End WindowInvariants.




End Shell.

(** * Properties of [main] *)

Section Entry.

Context {num : Type} {py : PyFloat num} {World : Type}.
Variable history : string -> World -> Quote num * World.
Variable pie_accepts : list num -> list string -> bool.
Variable to_string : list ReportRow -> string.
Variable PhotoImage : option (Chart num) -> option string.
Variable str_of_exn : exn -> string.

Implicit Types (w : StockAppGUI.Window num World) (st : State num World).

Local Abbreviation launch :=
  (main history pie_accepts to_string PhotoImage str_of_exn []).

Lemma init_healthy st :
  faulty (conn st) = false ->
  __init__ st = (Return tt, with_conn (rolled_back (conn st)) st).
Proof.
  intros Hf. unfold __init__, connect, bind, modify, _create_tables, try_except, bind.
  rewrite !execute_healthy by (simpl; exact Hf).
  rewrite commit_healthy by (simpl; exact Hf).
  unfold with_conn, rolled_back. simpl. now rewrite Hf.
Qed.

(** The window that opens once the sample import has returned. *)
Lemma main_after_import w (ok : bool) st2 :
  faulty (conn (StockAppGUI.store w)) = false ->
  import_from_csv "sample_stock_data.csv"
    (with_conn (rolled_back (conn (StockAppGUI.store w))) (StockAppGUI.store w)) =
    (Return ok, st2) ->
  faulty (conn st2) = false ->
  launch w =
    (Return tt,
     {| StockAppGUI.store := st2;
        StockAppGUI.symbol_entry := ""; StockAppGUI.shares_entry := "";
        StockAppGUI.price_entry := ""; StockAppGUI.date_entry := "";
        StockAppGUI.text_display := first_display st2;
        StockAppGUI.img_label := None;
        StockAppGUI.messagebox := StockAppGUI.messagebox w;
        StockAppGUI.report_errors := StockAppGUI.report_errors w |}).
Proof.
  intros Hf Himp Hf2.
  unfold main, bind at 1. unfold StockAppGUI.on_portfolio at 1.
  rewrite (init_healthy _ Hf).
  unfold bind at 1, try_except, bind at 1. unfold StockAppGUI.on_portfolio at 1.
  cbn [StockAppGUI.store StockAppGUI.with_store].
  rewrite Himp. unfold ret at 1.
  unfold bind at 1. unfold StockAppGUI.__init__, StockAppGUI._setup_ui, modify at 1.
  unfold StockAppGUI.run, bind. rewrite display_portfolio_shows.
  cbn [StockAppGUI.store StockAppGUI.with_store].
  rewrite (get_portfolio_healthy _ Hf2).
  unfold StockAppGUI.mainloop, ret. f_equal.
  unfold first_display, StockAppGUI.with_text, StockAppGUI.with_store. simpl.
  now destruct (portfolio (view (conn st2))).
Qed.

(** X28. Started without the sample file, the program does not skip the
    import silently: [import_from_csv] catches the [FileNotFoundError]
    itself, logs it as an error and returns [False], so that the handler in
    [main] is never entered; the window then opens on the committed
    holdings. *)
Theorem startup_without_sample_file w :
  faulty (conn (StockAppGUI.store w)) = false ->
  files (StockAppGUI.store w) !! "sample_stock_data.csv" = None ->
  exists w',
    launch w = (Return tt, w') /\
    log (StockAppGUI.store w') =
      (log (StockAppGUI.store w) ++
       [LogError "Error importing CSV" FileNotFoundError])%list /\
    conn (StockAppGUI.store w') = rolled_back (conn (StockAppGUI.store w)) /\
    StockAppGUI.text_display w' = first_display (StockAppGUI.store w') /\
    StockAppGUI.messagebox w' = StockAppGUI.messagebox w.
Proof.
  intros Hf Hfile.
  eexists. split.
  - apply (main_after_import w false); [exact Hf | | ].
    + unfold import_from_csv, try_except, import_body, bind, open_read.
      cbn [files with_conn]. rewrite Hfile. cbn. reflexivity.
    + cbn. exact Hf.
  - cbn. repeat split.
Qed.

(** X29. Every start of the program imports the sample file again: after
    two starts the committed price table holds its bars twice, the second
    time under fresh row ids. *)
Theorem every_start_imports_the_sample w (fieldnames : list string)
    (rows : list (list string)) (bars : list (PriceBar num)) :
  faulty (conn (StockAppGUI.store w)) = false ->
  files (StockAppGUI.store w) !! "sample_stock_data.csv" =
    Some (Rec fieldnames :: map Rec rows) ->
  Forall2 (imports_as fieldnames) rows bars ->
  numbered_from (stocks_seq (disk (conn (StockAppGUI.store w)))) bars ->
  exists w1 w2 again,
    launch w = (Return tt, w1) /\
    launch w1 = (Return tt, w2) /\
    stocks (disk (conn (StockAppGUI.store w1))) =
      (stocks (disk (conn (StockAppGUI.store w))) ++ bars)%list /\
    stocks (disk (conn (StockAppGUI.store w2))) =
      (stocks (disk (conn (StockAppGUI.store w))) ++ bars ++ again)%list /\
    map bar_args again = map bar_args bars.
Proof.
  intros Hf Hfile Hrows Hnum.
  set (seq1 := stocks_seq (disk (conn (StockAppGUI.store w)))
               + Z.of_nat (List.length bars)).
  eexists _, _, (renumber seq1 bars).
  split.
  { apply (main_after_import w true); [exact Hf | |].
    - apply (import_from_csv_good _ _ fieldnames rows bars);
        [exact Hf | exact Hfile | exact Hrows | exact Hnum].
    - cbn. exact Hf. }
  split.
  { apply (main_after_import _ true); [cbn; exact Hf | |].
    - apply (import_from_csv_good _ _ fieldnames rows (renumber seq1 bars)).
      + cbn. exact Hf.
      + cbn. exact Hfile.
      + now apply imports_as_renumber.
      + apply renumber_numbered.
    - cbn. exact Hf. }
  cbn. rewrite <- app_assoc. repeat split. apply renumber_args.
Qed.

End Entry.

(** * The program on concrete inputs *)

(** ** The report *)

(** C1. The report over the two lots when the first lookup of MSFT fails:
    the only row is that of AAPL, with investment 1000, yet the summary
    shows a total investment of 2000, the skipped lot included; the total
    current value is that of the row. *)
Theorem total_investment_counts_skipped_lot :
  let rows := [aapl_row] in
  let summary := {| Total_Investment := "$2000.00";
                    Total_Current_Value := "$1100.00";
                    Total_Gain_Loss := "$-900.00";
                    Total_Gain_Loss_Pct := "-45.00%" |} in
  ((add_two_lots ;;; portfolio_performance_report scripted mpl_pie_accepts)
     (initial_state msft_fails_once)).1 = Return (Report rows summary) /\
  sum_amounts (map Investment rows) = Some (1000 # 1)%Q /\
  amount (Total_Investment summary) = Some (2000 # 1)%Q /\
  (sum_amounts (map Current_Value rows) = Some (1100 # 1)%Q /\
   amount (Total_Current_Value summary) = Some (1100 # 1)%Q).
Proof. repeat split; vm_compute; reflexivity. Qed.

(** C6. The lots (AAPL, 10 at 100) and (MSFT, 5 at 200) with the prices
    110 and 190: total investment 2000, total current value 2050, total
    gain 50 and 2.50 percent; each total is the sum of the two rows. *)
Theorem report_of_two_lots :
  let rows := [aapl_row; msft_row] in
  let summary := {| Total_Investment := "$2000.00";
                    Total_Current_Value := "$2050.00";
                    Total_Gain_Loss := "$50.00";
                    Total_Gain_Loss_Pct := "2.50%" |} in
  ((add_two_lots ;;;
    portfolio_performance_report (mocked both_prices) mpl_pie_accepts)
     (initial_state tt)).1 = Return (Report rows summary) /\
  (sum_amounts (map Investment rows) = Some (2000 # 1)%Q /\
   amount (Total_Investment summary) = Some (2000 # 1)%Q) /\
  (sum_amounts (map Current_Value rows) = Some (2050 # 1)%Q /\
   amount (Total_Current_Value summary) = Some (2050 # 1)%Q) /\
  (sum_amounts (map Gain_Loss rows) = Some (50 # 1)%Q /\
   amount (Total_Gain_Loss summary) = Some (50 # 1)%Q).
Proof. repeat split; vm_compute; reflexivity. Qed.

Lemma mpl_pie_rejects (x : list float) (labels : list string) :
  List.length x <> List.length labels -> mpl_pie_accepts x labels = false.
Proof. intros H. now apply Nat.eqb_neq. Qed.

Lemma report_raises_when_lookup_fails_witness :
  exists e st',
    portfolio_performance_report (mocked aapl_price_only) mpl_pie_accepts
      (two_lots tt) = (Raise e, st') /\
    (e = ValueError \/ e = ZeroDivisionError).
Proof.
  apply (report_raises_when_lookup_fails
           (mocked aapl_price_only) mpl_pie_accepts (two_lots tt)
           {| lot_id := 2; lot_symbol := "MSFT"; lot_shares := 5;
              lot_purchase_price := lit "200"; lot_purchase_date := "2024-01-02" |}).
  - exact mpl_pie_rejects.
  - reflexivity.
  - right. left. vm_compute. reflexivity.
  - intros w p. vm_compute. discriminate.
Defined.

(** What the caller sees in that case: [ValueError] from the chart, after
    the table was written and before the chart is. *)
Example report_with_failed_lookup :
  let run := portfolio_performance_report (mocked aapl_price_only)
               mpl_pie_accepts (two_lots tt) in
  run.1 = Raise ValueError /\
  portfolio_report_csv run.2 = Some [aapl_row] /\
  portfolio_allocation_png run.2 = None.
Proof. repeat split; vm_compute; reflexivity. Qed.

(** Division by zero raises for Python's [float]. *)
Lemma aapl_quote_is_numpy : numpy_quotes (mocked aapl_quote).
Proof.
  intros symbol w p. unfold mocked, aapl_quote. cbn [List.find fst].
  destruct (String.eqb "AAPL" symbol); cbn; [now intros [= <-] | discriminate].
Qed.

(** C5, as stated, fails: ten shares bought at 0 have an investment of
    zero, the price of AAPL is available, and the report returns: the row
    of the lot and the summary show [inf%], and the table is written. *)
Lemma zero_investment_lot_is_reported :
  let run := portfolio_performance_report (mocked aapl_quote) mpl_pie_accepts
               free_shares in
  portfolio (view (conn free_shares)) = [free_lot] /\
  is_zero (investment_of free_lot) = true /\
  (mocked aapl_quote "AAPL" tt).1 = Close (Numpy.numpy (lit "110")) /\
  run.1 = Return (Report [free_row] free_summary) /\
  portfolio_report_csv run.2 = Some [free_row].
Proof. repeat split; vm_compute; reflexivity. Qed.

Lemma report_survives_zero_investment_witness :
  exists r st' rows row,
    portfolio_performance_report (mocked aapl_quote) mpl_pie_accepts free_shares =
      (r, st') /\
    (r = Raise ValueError \/ exists summary, r = Return (Report rows summary)) /\
    portfolio_report_csv st' = Some rows /\
    In row rows /\
    Symbol row = lot_symbol free_lot /\
    Shares row = lot_shares free_lot /\
    In (Gain_Loss_Pct row) ["inf%"; "-inf%"; "nan%"].
Proof.
  apply (report_survives_zero_investment (mocked aapl_quote) mpl_pie_accepts
           free_shares free_lot).
  - exact aapl_quote_is_numpy.
  - reflexivity.
  - left. vm_compute. reflexivity.
  - vm_compute. reflexivity.
  - intros w. exists (Numpy.numpy (lit "110")). reflexivity.
Defined.

Lemma report_without_holdings_witness :
  (portfolio_performance_report (mocked both_prices) mpl_pie_accepts
     (initial_state tt)).1 = Return NoHoldings /\
  artifacts (portfolio_performance_report (mocked both_prices)
               mpl_pie_accepts (initial_state tt)).2 = (None, None).
Proof.
  pose proof (report_without_holdings
                (mocked both_prices) mpl_pie_accepts (initial_state tt)
                eq_refl) as H.
  destruct (portfolio_performance_report _ _ _) as [r st'].
  destruct H as (-> & Hcsv & Hpng & _).
  split; [reflexivity |]. unfold artifacts. cbn [snd]. now rewrite Hcsv, Hpng.
Defined.

(** ** Purchase lots *)


(** ** Import and export *)



(** C4, as stated, fails: a header without the [Volume] column makes
    [import_from_csv] raise [KeyError] to its caller. *)
Lemma import_raises_on_missing_column :
  (import_from_csv "prices.csv" missing_volume_column).1 = Raise (KeyError "Volume").
Proof. vm_compute. reflexivity. Qed.

Lemma bad_second_row_ascii (items : list CsvItem) :
  files bad_second_row !! "prices.csv" = Some items -> ascii_numbers items.
Proof.
  intros H. vm_compute in H. injection H as <-. cbv [ascii_numbers].
  intros row k t Hrow _ Ht. apply dict_row_field in Ht.
  destruct Hrow as [[= <-] | [[= <-] | []]]; simpl in Ht;
    repeat (destruct Ht as [<- | Ht]; [reflexivity |]); destruct Ht.
Qed.

(** The other three errors the import lets through: a record that ends
    before its numeric columns, a volume of 2^63, a price that reads as
    NaN. *)
Example import_lets_errors_through :
  (import_from_csv "prices.csv"
     (one_record import_columns ["AAPL"; "2024-01-02"; "185.5"])).1
    = Raise TypeError /\
  (import_from_csv "prices.csv"
     (one_record import_columns
        ["AAPL"; "2024-01-02"; "185.5"; "186.25"; "184.0"; "185.75";
         "9223372036854775808"])).1
    = Raise OverflowError /\
  (import_from_csv "prices.csv"
     (one_record import_columns
        ["AAPL"; "2024-01-02"; "185.5"; "nan"; "184.0"; "185.75"; "1000"])).1
    = Raise SqliteError.
Proof. repeat split; vm_compute; reflexivity. Qed.

(** What the import does not mind: a column it does not read, with or
    without a field under it, and a symbol that would read as a number. *)
Example import_reads_seven_columns :
  (import_from_csv "prices.csv"
     (one_record (import_columns ++ ["Note"])
        ["AAPL"; "2024-01-02"; "185.5"; "186.25"; "184.0"; "185.75"; "1000"])).1
    = Return true /\
  (import_from_csv "prices.csv"
     (one_record import_columns
        ["NAN"; "2024-01-02"; "185.5"; "186.25"; "184.0"; "185.75"; "1000"])).1
    = Return true.
Proof. repeat split; vm_compute; reflexivity. Qed.

Lemma declared_errors_are_caught_witness :
  (exists r st',
     import_from_csv "prices.csv" bad_second_row = (r, st') /\
     import_outcome "prices.csv" bad_second_row r st') /\
  add_to_portfolio "aapl" 10 (lit "150.00") "2024-01-01" broken_storage =
    (Return false,
     with_log (log broken_storage ++ [LogError "Error adding to portfolio" SqliteError])
       broken_storage) /\
  get_portfolio broken_storage =
    (Return [],
     with_log (log broken_storage ++ [LogError "Error retrieving portfolio" SqliteError])
       broken_storage) /\
  get_stock_data "aapl" broken_storage =
    (Return [],
     with_log (log broken_storage ++ [LogError "Error retrieving stock data" SqliteError])
       broken_storage) /\
  export_to_csv "export.csv" broken_storage =
    (Return false,
     with_log (log broken_storage ++ [LogError "Error exporting data" SqliteError])
       broken_storage) /\
  _create_tables broken_storage =
    (Raise SqliteError,
     with_log (log broken_storage ++ [LogError "Database error" SqliteError])
       broken_storage).
Proof.
  apply (declared_errors_are_caught "prices.csv" "aapl" "2024-01-01" "aapl"
           "export.csv" 10 (lit "150.00") bad_second_row broken_storage).
  - reflexivity.
  - exact bad_second_row_ascii.
  - reflexivity.
  - reflexivity.
Defined.

Lemma export_import_round_trip_witness :
  exists st1 st2 new,
    export_to_csv "export.csv" two_bars = (Return true, st1) /\
    import_from_csv "export.csv" st1 = (Return true, st2) /\
    stocks (view (conn st2)) = (stocks (view (conn two_bars)) ++ new)%list /\
    map bar_args new = map bar_args (stocks (view (conn two_bars))) /\
    numbered_from (stocks_seq (view (conn two_bars))) new /\
    disk (conn st2) = view (conn st2).
Proof.
  apply (export_import_round_trip "export.csv" two_bars).
  - reflexivity.
  - repeat constructor; vm_compute; reflexivity.
Defined.

(** The file the export writes for the two bars. *)
Example exported_file :
  files (export_to_csv "export.csv" two_bars).2 !! "export.csv" =
  Some [Rec ["ID"; "Symbol"; "Date"; "Open"; "High"; "Low"; "Close"; "Volume"];
        Rec ["1"; "aapl"; "2024-01-02"; "185.5"; "186.25"; "184.0"; "185.75"; "1000"];
        Rec ["2"; "MSFT"; "2024-01-02"; "370.1"; "372.5"; "369.25"; "371.0"; "900"]].
Proof. vm_compute. reflexivity. Qed.


(** ** Further properties on concrete inputs *)

Lemma two_records_import (seq : Z) :
  Forall2 (imports_as (num := float) import_columns) two_records
    [aapl_bar (seq + 1); msft_bar (seq + 2)].
Proof.
  constructor; [| constructor; [| constructor]]; split; vm_compute; reflexivity.
Qed.

Lemma import_stores_every_record_witness :
  exists st',
    import_from_csv "prices.csv" mixed_case_file = (Return true, st') /\
    stocks (view (conn st')) = [aapl_bar 1; msft_bar 2] /\
    disk (conn st') = view (conn st').
Proof.
  destruct (import_stores_every_record "prices.csv" mixed_case_file
              import_columns two_records [aapl_bar 1; msft_bar 2])
    as (st' & Hrun & Hview & _ & Hdisk & _).
  - reflexivity.
  - reflexivity.
  - exact (two_records_import 0).
  - repeat split.
  - exists st'. split; [exact Hrun |]. split; [exact Hview | exact Hdisk].
Defined.

Lemma import_twice_duplicates_witness :
  exists st1 st2 again,
    import_from_csv "prices.csv" mixed_case_file = (Return true, st1) /\
    import_from_csv "prices.csv" st1 = (Return true, st2) /\
    stocks (view (conn st2)) = ([aapl_bar 1; msft_bar 2] ++ again)%list /\
    map bar_args again = map bar_args [aapl_bar 1; msft_bar 2].
Proof.
  destruct (import_twice_duplicates "prices.csv" mixed_case_file
              import_columns two_records [aapl_bar 1; msft_bar 2])
    as (st1 & st2 & again & H1 & H2 & Hview & Hargs & _).
  - reflexivity.
  - reflexivity.
  - exact (two_records_import 0).
  - repeat split.
  - exists st1, st2, again. repeat split; assumption.
Defined.


Lemma two_lots_consistent : consistent (conn (two_lots tt)).
Proof.
  split; [| split; [| split; [| split; [| split]]]].
  - repeat split.
  - repeat split.
  - exists []. reflexivity.
  - exists []. vm_compute. reflexivity.
  - constructor.
  - repeat constructor; vm_compute; reflexivity.
Qed.

Lemma reachable_states_are_consistent_witness :
  consistent
    (conn (after_all (mocked both_prices) mpl_pie_accepts
             [ImportFromCsv "prices.csv";
              AddToPortfolio "goog" 1 (lit "140") "2024-01-03";
              StorageFails true; ImportFromCsv "prices.csv"; Restart;
              StorageFails false; ImportFromCsv "prices.csv";
              PortfolioPerformanceReport]
             bad_second_row)).
Proof.
  apply (reachable_states_are_consistent (mocked both_prices) mpl_pie_accepts).
  exact (initial_state_consistent tt).
Defined.

Lemma holdings_are_numbered_witness :
  NoDup (map lot_id [aapl_lot; msft_lot]) /\
  (forall i stock, [aapl_lot; msft_lot] !! i = Some stock ->
                   lot_id stock = Z.of_nat (S i)) /\
  Forall (fun stock => upper (lot_symbol stock) = lot_symbol stock) [aapl_lot; msft_lot].
Proof.
  apply (holdings_are_numbered (two_lots tt) [aapl_lot; msft_lot]).
  - exact two_lots_consistent.
  - vm_compute. reflexivity.
Defined.



Lemma price_history_is_sorted_witness :
  exists data,
    get_stock_data "msft" (three_bars "2024-01-02") =
      (Return data, three_bars "2024-01-02") /\
    ascending (map fst data) /\
    data ≡ₚ closes_of "MSFT" (stocks (view (conn (three_bars "2024-01-02")))).
Proof.
  apply (price_history_is_sorted (three_bars "2024-01-02") "msft").
  reflexivity.
Defined.

Lemma price_history_of_unknown_symbol_witness :
  get_stock_data "goog" two_bars = (Return [], two_bars).
Proof.
  apply (price_history_of_unknown_symbol two_bars "goog").
  - reflexivity.
  - intros b Hin. vm_compute in Hin.
    destruct Hin as [<- | [<- | []]]; vm_compute; discriminate.
Defined.

Lemma price_history_is_chronological_witness :
  exists data dates,
    get_stock_data "msft" (three_bars "2024-01-02") =
      (Return data, three_bars "2024-01-02") /\
    map Some dates = map (fun row => padded_date row.1) data /\
    chronological dates.
Proof.
  apply (price_history_is_chronological (three_bars "2024-01-02") "msft").
  - reflexivity.
  - intros b Hin _. vm_compute in Hin.
    destruct Hin as [<- | [<- | [<- | []]]]; vm_compute; eexists; reflexivity.
Defined.

(** Without the leading zero the second of January sorts after the
    third. *)
Example unpadded_dates_sort_as_text :
  option_map (map fst)
    (match (get_stock_data "msft" (three_bars "2024-1-02")).1 with
     | Return data => Some data
     | Raise _ => None
     end) = Some ["2024-01-01"; "2024-01-03"; "2024-1-02"].
Proof. vm_compute. reflexivity. Qed.

Lemma mocked_stateless (prices : list (string * float)) : stateless (mocked prices).
Proof. intros symbol [] []. reflexivity. Qed.

Lemma report_total_is_portfolio_value_witness :
  exists v,
    (calculate_portfolio_value (mocked both_prices) (two_lots tt)).1 = Return v /\
    "$2050.00" = dollars v.
Proof.
  set (run := portfolio_performance_report (mocked both_prices) mpl_pie_accepts
                (two_lots tt)).
  apply (report_total_is_portfolio_value (mocked both_prices) mpl_pie_accepts
           (two_lots tt) [aapl_row; msft_row]
           {| Total_Investment := "$2000.00"; Total_Current_Value := "$2050.00";
              Total_Gain_Loss := "$50.00"; Total_Gain_Loss_Pct := "2.50%" |}
           run.2).
  - apply mocked_stateless.
  - transitivity (run.1, run.2); [apply surjective_pairing |].
    apply (f_equal (fun r => (r, run.2))). vm_compute. reflexivity.
Defined.

Lemma one_request_per_lot_and_pass_witness :
  let sc := two_lots (tt, 0%nat) in
  (world (calculate_portfolio_value (counted (mocked both_prices)) sc).2).2 = 2%nat /\
  (world (portfolio_performance_report (counted (mocked both_prices))
            mpl_pie_accepts sc).2).2 = 4%nat.
Proof.
  intros sc.
  set (run := portfolio_performance_report (counted (mocked both_prices))
                mpl_pie_accepts sc).
  destruct (one_request_per_lot_and_pass (mocked both_prices) mpl_pie_accepts sc)
    as [Hvalue Hreport]; [reflexivity |].
  split; [exact Hvalue |].
  apply (Hreport [aapl_row; msft_row]
           {| Total_Investment := "$2000.00"; Total_Current_Value := "$2050.00";
              Total_Gain_Loss := "$50.00"; Total_Gain_Loss_Pct := "2.50%" |}).
  transitivity (run.1, run.2); [apply surjective_pairing |].
  apply (f_equal (fun r => (r, run.2))). vm_compute. reflexivity.
Defined.


Lemma returned_report_is_written_witness :
  let run := portfolio_performance_report (mocked both_prices) mpl_pie_accepts
               (two_lots tt) in
  portfolio_report_csv run.2 = Some [aapl_row; msft_row] /\
  (exists chart,
     portfolio_allocation_png run.2 = Some chart /\
     labels chart = map lot_symbol (portfolio (view (conn (two_lots tt)))) /\
     mpl_pie_accepts (wedges chart) (labels chart) = true) /\
  exists l, log run.2 = (l ++ [LogInfo "Generated portfolio performance report"])%list.
Proof.
  intros run.
  apply (returned_report_is_written (mocked both_prices) mpl_pie_accepts (two_lots tt)
           [aapl_row; msft_row]
           {| Total_Investment := "$2000.00"; Total_Current_Value := "$2050.00";
              Total_Gain_Loss := "$50.00"; Total_Gain_Loss_Pct := "2.50%" |}).
  transitivity (run.1, run.2); [apply surjective_pairing |].
  apply (f_equal (fun r => (r, run.2))). vm_compute. reflexivity.
Defined.

Lemma summary_divides_by_zero_witness :
  exists st',
    portfolio_performance_report (mocked no_quotes) mpl_pie_accepts offsetting_lots =
      (Raise ZeroDivisionError, st') /\
    artifacts st' = artifacts offsetting_lots.
Proof.
  apply (summary_divides_by_zero (mocked no_quotes) mpl_pie_accepts offsetting_lots).
  - reflexivity.
  - vm_compute. discriminate.
  - repeat constructor.
  - intros stock _ w p. vm_compute. discriminate.
  - vm_compute. reflexivity.
Defined.

Lemma add_lot_is_all_or_nothing_witness :
  let pending := (import_from_csv "prices.csv" bad_second_row).2 in
  let run := add_to_portfolio "aapl" 10 (lit "1.5") "2024-01-01" pending in
  stocks (disk (conn pending)) = [] /\
  run.1 = Return true /\
  stocks (disk (conn run.2)) = [first_bar] /\
  portfolio (disk (conn run.2)) =
    [{| lot_id := 1; lot_symbol := "AAPL"; lot_shares := 10;
        lot_purchase_price := lit "1.5"; lot_purchase_date := "2024-01-01" |}].
Proof.
  intros pending run.
  destruct (add_lot_is_all_or_nothing pending "aapl" 10 (lit "1.5") "2024-01-01"
              run.1 run.2) as [(Hr & _ & _ & Hview & Hdisk) | [(Hr & _) | (Hr & _)]].
  - reflexivity.
  - apply surjective_pairing.
  - split; [reflexivity |]. split; [exact Hr |].
    rewrite Hdisk, Hview. split; vm_compute; reflexivity.
  - exfalso. vm_compute in Hr. discriminate.
  - exfalso. vm_compute in Hr. discriminate.
Defined.

(** ** Charts of one stock, on concrete inputs *)

Lemma plot_without_data_witness :
  exists d',
    plot_stock_performance padded_date "goog" (desk_of two_bars) = (Return false, d') /\
    performance_png d' = performance_png (desk_of two_bars) /\
    conn (desk_state d') = conn two_bars.
Proof.
  apply (plot_without_data padded_date (desk_of two_bars) "goog").
  right. intros b Hin. vm_compute in Hin.
  destruct Hin as [<- | [<- | []]]; vm_compute; discriminate.
Defined.

(** The second record of [unordered_file], dated in another notation. *)
Lemma plot_raises_on_unparsed_date_witness :
  plot_stock_performance padded_date "msft" (desk_of (three_bars "01/02/2024")) =
    (Raise ValueError, desk_of (three_bars "01/02/2024")).
Proof.
  apply (plot_raises_on_unparsed_date padded_date (desk_of (three_bars "01/02/2024"))
           "msft"
           {| bar_id := 2; bar_symbol := "MSFT"; bar_date := "01/02/2024";
              bar_open := lit "370.1"; bar_high := lit "372.5"; bar_low := lit "369.25";
              bar_close := lit "371.0"; bar_volume := 900 |}).
  - reflexivity.
  - vm_compute. right. left. reflexivity.
  - reflexivity.
  - reflexivity.
Defined.


(** ** The window, on concrete inputs *)

Lemma window_rejects_invalid_input_witness :
  let w := filled_in "aapl" "ten" "150.00" "2024-01-01" (two_lots tt) in
  StockAppGUI.add_to_portfolio w =
    (Return tt,
     StockAppGUI.with_messagebox
       (StockAppGUI.messagebox w ++ [showerror "Error" "Invalid input values"]) w).
Proof.
  intros w. apply (window_rejects_invalid_input w).
  left. vm_compute. reflexivity.
Defined.

Lemma window_add_lists_the_new_lot_witness :
  let w := filled_in "aapl" " 10 " "100" "2024-01-01" (initial_state tt) in
  exists w',
    StockAppGUI.add_to_portfolio w = (Return tt, w') /\
    StockAppGUI.messagebox w' =
      [showinfo "Success" "Added 10 shares of aapl to portfolio"] /\
    StockAppGUI.text_display w' = holdings_text [aapl_lot].
Proof.
  intros w.
  destruct (window_add_lists_the_new_lot w 10 (lit "100"))
    as (w' & Hrun & _ & _ & Hbox & Htext).
  - reflexivity.
  - vm_compute. reflexivity.
  - vm_compute. reflexivity.
  - reflexivity.
  - vm_compute. reflexivity.
  - exists w'. split; [exact Hrun |]. split.
    + rewrite Hbox. vm_compute. reflexivity.
    + rewrite Htext. vm_compute. reflexivity.
Defined.

Lemma window_add_overflow_escapes_witness :
  let w := filled_in "aapl" "9223372036854775808" "100" "2024-01-01" (two_lots tt) in
  StockAppGUI.add_to_portfolio w = (Raise OverflowError, w).
Proof.
  intros w. apply (window_add_overflow_escapes w (2 ^ 63) (lit "100")).
  - vm_compute. reflexivity.
  - vm_compute. reflexivity.
  - reflexivity.
Defined.


Lemma report_button_without_holdings_witness :
  let w := new_window (initial_state (num := float) tt) in
  exists w',
    StockAppGUI.generate_report (mocked both_prices) mpl_pie_accepts plain_table
      image_loads class_name w = (Return tt, w') /\
    StockAppGUI.text_display w' =
      ("PORTFOLIO PERFORMANCE REPORT" ++ NL ++ NL ++ "Individual Holdings:" ++ NL)%string /\
    StockAppGUI.messagebox w' =
      (StockAppGUI.messagebox w ++
       [showerror "Error"
          "Failed to generate report: 'bool' object has no attribute 'to_string'"])%list /\
    StockAppGUI.report_errors w' = (StockAppGUI.report_errors w ++ [AttributeError])%list /\
    StockAppGUI.img_label w' = StockAppGUI.img_label w.
Proof.
  intros w.
  apply (report_button_without_holdings (mocked both_prices) mpl_pie_accepts
           plain_table image_loads class_name w).
  reflexivity.
Defined.


(** ** The start of the program, on concrete inputs *)

Lemma startup_without_sample_file_witness :
  let w := new_window (initial_state (num := float) tt) in
  exists w',
    main (mocked both_prices) mpl_pie_accepts plain_table image_loads class_name [] w =
      (Return tt, w') /\
    log (StockAppGUI.store w') = [LogError "Error importing CSV" FileNotFoundError] /\
    StockAppGUI.text_display w' = no_holdings_text.
Proof.
  intros w.
  destruct (startup_without_sample_file (mocked both_prices) mpl_pie_accepts
              plain_table image_loads class_name w)
    as (w' & Hrun & Hlog & Hconn & Htext & _).
  - reflexivity.
  - reflexivity.
  - exists w'. split; [exact Hrun |]. split; [exact Hlog |].
    rewrite Htext. unfold first_display. now rewrite Hconn.
Defined.

Lemma every_start_imports_the_sample_witness :
  let w := new_window with_sample_file in
  let launch := main (mocked both_prices) mpl_pie_accepts plain_table image_loads
                  class_name [] in
  exists w1 w2 again,
    launch w = (Return tt, w1) /\
    launch w1 = (Return tt, w2) /\
    stocks (disk (conn (StockAppGUI.store w1))) = [aapl_bar 1; msft_bar 2] /\
    stocks (disk (conn (StockAppGUI.store w2))) =
      ([aapl_bar 1; msft_bar 2] ++ again)%list /\
    map bar_args again = map bar_args [aapl_bar 1; msft_bar 2].
Proof.
  intros w launch.
  apply (every_start_imports_the_sample (mocked both_prices) mpl_pie_accepts
           plain_table image_loads class_name w import_columns two_records
           [aapl_bar 1; msft_bar 2]).
  - reflexivity.
  - reflexivity.
  - exact (two_records_import 0).
  - repeat split.
Defined.
